(** * The file-scheme store loader (crypto/store/loader_file.c)

    A shallow embedding of the loader: locator resolution in [file_open],
    the six content handlers and their registry [file_handlers], the
    dispatch engine [file_load_try_decode], the sticky repeatable handler
    ([file_load_try_repeat]) and the loader operations [file_load],
    [file_eof], [file_error] and [file_close].

    The binary codecs (the d2i, PKCS12 and PEM functions), the user
    interface and the file system are external to the file; they are
    collected in the records [Codecs], [UI_METHOD] and [filesystem] and
    every definition is parametric in them.  So is what the buffer that
    [file_open] peeks into holds before the peek, which is kept with the
    file.  Calls with an observable effect are recorded in a trace of
    [event]s, in program order.  A call through a NULL function pointer
    and a read behind the end of a string end the computation.  Memory
    allocation is assumed to succeed. *)

From Stdlib Require Import List String Ascii ZArith Lia Bool Arith.
Import ListNotations.
Local Open Scope string_scope.
Local Open Scope list_scope.

Set Implicit Arguments.

(** ** C strings *)

Module CStr.

(** [&s[n]]: the string starting at offset [n]. *)
Fixpoint from (n : nat) (s : string) : string :=
  match n, s with
  | O, _ => s
  | S n', String _ s' => from n' s'
  | S _, EmptyString => EmptyString
  end.

(** [s[n]], the terminating NUL being read as ["000"]. *)
Definition at_ (s : string) (n : nat) : ascii :=
  match String.get n s with
  | Some c => c
  | None => zero
  end.

Definition tolower (c : ascii) : ascii :=
  let n := nat_of_ascii c in
  if (andb (65 <=? n) (n <=? 90))%nat then ascii_of_nat (n + 32)%nat else c.

Fixpoint lower (s : string) : string :=
  match s with
  | EmptyString => EmptyString
  | String c s' => String (tolower c) (lower s')
  end.

(** [strncmp(s, t, n) == 0] *)
Definition strncmp0 (s t : string) (n : nat) : bool :=
  String.eqb (substring 0 n s) (substring 0 n t).

(** [strncasecmp(s, t, n) == 0] *)
Definition strncasecmp0 (s t : string) (n : nat) : bool :=
  strncmp0 (lower s) (lower t) n.

(** [strcmp(s, t) == 0] *)
Definition strcmp0 (s t : string) : bool := String.eqb s t.

(** The C string a buffer holds: its bytes before the first NUL. *)
Fixpoint cstr (buf : string) : string :=
  match buf with
  | EmptyString => EmptyString
  | String c buf' =>
      if Ascii.eqb c zero then EmptyString else String c (cstr buf')
  end.

(** [strstr(hay, needle) != NULL] *)
Fixpoint strstr (hay needle : string) : bool :=
  if String.prefix needle hay then true
  else match hay with
       | EmptyString => false
       | String _ hay' => strstr hay' needle
       end.

End CStr.

(** ** Data *)

Definition bytes := list Byte.byte.

(** Reason codes raised through [OSSL_STOREerr]. *)
Inductive store_reason : Type :=
| R_MALLOC_FAILURE
| R_UI_LIB
| R_EVP_LIB
| R_UI_PROCESS_INTERRUPTED_OR_CANCELLED
| R_PASSPHRASE_CALLBACK_ERROR
| R_ERROR_VERIFYING_PKCS12_MAC
| R_IS_NOT_A
| R_AMBIGUOUS_CONTENT_TYPE
| R_UNSUPPORTED_CONTENT_TYPE
| R_URI_AUTHORITY_UNSUPPORTED
| R_PATH_MUST_BE_ABSOLUTE.

(** What [UI_process] reports for one prompt: the entered string,
    [-2] (interrupted or cancelled) or [-1] (error). *)
Inductive UI_result : Type :=
| UI_entered (pass : string)
| UI_cancelled
| UI_error.

(** The application's UI method: prompt information and the size of the
    buffer in, the outcome of the dialogue out. *)
Definition UI_METHOD := string -> Z -> UI_result.

Definition PEM_BUFSIZE : Z := 1024.
Definition PEM_STRING_X509_OLD := "X509 CERTIFICATE".
Definition PEM_STRING_X509 := "CERTIFICATE".
Definition PEM_STRING_X509_TRUSTED := "TRUSTED CERTIFICATE".
Definition PEM_STRING_X509_CRL := "X509 CRL".
Definition PEM_STRING_PUBLIC := "PUBLIC KEY".
Definition ASN1_PKEY_ALIAS : Z := 1.

(** One call of the record reader on the stream: a PEM record (name,
    header, body), a DER object, or data the reader cannot frame. *)
Inductive record : Type :=
| PEM_record (name header : string) (data : bytes)
| DER_record (data : bytes)
| Garbage.

(** The buffered stream: the records still to be read. *)
Definition BIO := list record.

Definition BIO_eof (b : BIO) : bool :=
  match b with
  | [] => true
  | _ :: _ => false
  end.

(** A file as [file_open] sees it: the bytes that [BIO_buffer_peek]
    copies to the start of [peekbuf], what the rest of that buffer, which
    is not initialised, holds at that moment, and the stream. *)
Record file_content : Type := {
  peek : string;
  uninit : string;
  stream : BIO
}.

(** [BIO_new_file(path, "rb")] *)
Definition filesystem := string -> option file_content.

(** ** The external codecs *)

(** [EVP_PKEY_ASN1_METHOD], as far as the handlers read it. *)
Record ASN1_METHOD (K : Type) : Type := {
  pkey_id : Z;
  pkey_flags : Z;
  param_decode : option (bytes -> option K)
}.

(** [EVP_CIPHER_INFO]: the cipher named by the DEK-Info header, if any. *)
Record EVP_CIPHER_INFO : Type := {
  cipher : option string;
  iv : bytes
}.

(** The decoders the loader depends on.  Each d2i function either
    produces an object or fails; a pair [EVP_PKEY_set_type*] followed by
    [EVP_PKEY_get0_asn1] is one field giving the method the key is bound
    to, [None] when either step fails. *)
Record Codecs : Type := {
  EVP_PKEY : Type;
  X509 : Type;
  X509_CRL : Type;
  PKCS12 : Type;
  d2i_PKCS12 : bytes -> option PKCS12;
  PKCS12_verify_mac : PKCS12 -> option string -> bool;
  PKCS12_parse : PKCS12 -> string -> option (EVP_PKEY * X509 * list X509);
  d2i_X509_AUX : bytes -> option X509;
  d2i_X509 : bytes -> option X509;
  d2i_X509_CRL : bytes -> option X509_CRL;
  d2i_PUBKEY : bytes -> option EVP_PKEY;
  d2i_PrivateKey : Z -> bytes -> option EVP_PKEY;
  pem_check_suffix : string -> string -> Z;
  asn1_meths : list (ASN1_METHOD EVP_PKEY);
  EVP_PKEY_asn1_find_str : string -> Z -> option (ASN1_METHOD EVP_PKEY);
  EVP_PKEY_set_type_str : string -> Z -> option (ASN1_METHOD EVP_PKEY);
  EVP_PKEY_set_type : Z -> option (ASN1_METHOD EVP_PKEY);
  PEM_get_EVP_CIPHER_INFO : string -> option EVP_CIPHER_INFO;
  PEM_decrypt : EVP_CIPHER_INFO -> bytes -> string -> option bytes
}.

Section Loader.

Variable C : Codecs.

(** [OSSL_STORE_INFO]: the decoded object, tagged with its type. *)
Inductive OSSL_STORE_INFO : Type :=
| INFO_PARAMS (k : EVP_PKEY C)
| INFO_PKEY (k : EVP_PKEY C)
| INFO_CERT (x : X509 C)
| INFO_CRL (c : X509_CRL C)
| INFO_EMBEDDED (pem_name : option string) (buffer : bytes).

Definition is_EMBEDDED (i : OSSL_STORE_INFO) : bool :=
  match i with
  | INFO_EMBEDDED _ _ => true
  | _ => false
  end.

(** The [void *handler_ctx] of a repeatable handler: NULL, or the stack of
    objects it still has to hand out. *)
Definition handler_ctx := option (list OSSL_STORE_INFO).

(** ** Effects *)

Inductive event : Type :=
| EvErr (r : store_reason)                  (* OSSL_STOREerr *)
| EvErrData (s : string)                    (* ERR_add_error_data *)
| EvErrClear                                (* ERR_clear_error *)
| EvPrompt (prompt_info : string)           (* UI_process *)
| EvVerifyMac (pass : option string)        (* PKCS12_verify_mac *)
| EvInfoFree (i : OSSL_STORE_INFO)          (* OSSL_STORE_INFO_free *)
| EvStackPopFree (l : list OSSL_STORE_INFO) (* sk_OSSL_STORE_INFO_pop_free *)
| EvFileOpen (path : string)                (* BIO_new_file *)
| EvRead (r : record)                       (* PEM_read_bio, asn1_d2i_read_bio *)
| EvBIOFree                                 (* BIO_free_all *)
| EvCtxFree.                                (* OPENSSL_free(ctx) *)

(** How a computation ends: with a value, by calling through a NULL
    function pointer, or by reading a string past its terminating NUL;
    [OutOfFuel] is the model's bound on the [goto again] of the dispatch
    engine being reached. *)
Inductive outcome (A : Type) : Type :=
| Done (a : A)
| NullCall
| OutOfBounds
| OutOfFuel.
Arguments NullCall {A}.
Arguments OutOfBounds {A}.
Arguments OutOfFuel {A}.

(** A computation: its outcome and the events it emitted, in order. *)
Definition M (A : Type) : Type := (outcome A * list event)%type.

Definition ret {A} (a : A) : M A := (Done a, []).

Definition bind {A B} (m : M A) (f : A -> M B) : M B :=
  match m with
  | (Done a, t) => let (r, t') := f a in (r, t ++ t')
  | (NullCall, t) => (NullCall, t)
  | (OutOfBounds, t) => (OutOfBounds, t)
  | (OutOfFuel, t) => (OutOfFuel, t)
  end.

Definition emit (e : event) : M unit := (Done tt, [e]).

Definition null_call {A} : M A := (NullCall, []).

Definition out_of_bounds {A} : M A := (OutOfBounds, []).

Notation "x <- m ;; k" := (bind m (fun x => k))
  (at level 61, m at next level, right associativity).
Notation "m ;;; k" := (bind m (fun _ => k))
  (at level 61, right associativity).

(** ** Password prompting *)

Definition file_get_pass (ui_method : UI_METHOD) (maxsize : Z)
           (prompt_info : string) : M (option string) :=
  emit (EvPrompt prompt_info) ;;;
  match ui_method prompt_info (maxsize - 1)%Z with
  | UI_cancelled =>
      emit (EvErr R_UI_PROCESS_INTERRUPTED_OR_CANCELLED) ;;; ret None
  | UI_error => emit (EvErr R_UI_LIB) ;;; ret None
  | UI_entered pass => ret (Some pass)
  end.

(** [file_get_pem_pass]: the length of the pass phrase, 0 when there is
    none, and the buffer. *)
Definition file_get_pem_pass (ui_method : UI_METHOD) (num : Z)
           (prompt_info : string) : M (Z * string) :=
  pass <- file_get_pass ui_method num prompt_info ;;
  match pass with
  | None => ret (0%Z, "")
  | Some p => ret (Z.of_nat (String.length p), p)
  end.

(** ** The file scheme handlers *)

Definition try_decode_fn : Type :=
  option string -> option string -> bytes -> handler_ctx -> UI_METHOD ->
  M (option OSSL_STORE_INFO * handler_ctx).

Record FILE_HANDLER : Type := {
  name : string;
  try_decode : try_decode_fn;
  eof : option (handler_ctx -> bool);
  destroy_ctx : option (handler_ctx -> M handler_ctx);
  repeatable : bool
}.

Definition verify_mac (p12 : PKCS12 C) (pass : option string) : M bool :=
  emit (EvVerifyMac pass) ;;; ret (PKCS12_verify_mac C p12 pass).

(** The pass phrase that verifies the MAC of [p12]; [None] stands for the
    jump to [p12_end]. *)
Definition PKCS12_find_pass (p12 : PKCS12 C) (ui_method : UI_METHOD)
  : M (option string) :=
  m1 <- verify_mac p12 (Some "") ;;
  if m1 then ret (Some "") else
  m2 <- verify_mac p12 None ;;
  if m2 then ret (Some "") else
  p <- file_get_pass ui_method PEM_BUFSIZE "PKCS12 import password" ;;
  match p with
  | None => emit (EvErr R_PASSPHRASE_CALLBACK_ERROR) ;;; ret None
  | Some pass =>
      m3 <- verify_mac p12 (Some pass) ;;
      if m3 then ret (Some pass)
      else emit (EvErr R_ERROR_VERIFYING_PKCS12_MAC) ;;; ret None
  end.

(** [sk_OSSL_STORE_INFO_shift] *)
Definition sk_shift (ctx : list OSSL_STORE_INFO)
  : option OSSL_STORE_INFO * list OSSL_STORE_INFO :=
  match ctx with
  | [] => (None, [])
  | i :: rest => (Some i, rest)
  end.

(** The initial parsing of [try_decode_PKCS12]: [Some ctx] when [ok] is
    set, with the stack built from the key, the certificate and the chain. *)
Definition PKCS12_initial (pem_name : option string) (blob : bytes)
           (ui_method : UI_METHOD) : M (option (list OSSL_STORE_INFO)) :=
  match pem_name with
  | Some _ => ret None
  | None =>
      match d2i_PKCS12 C blob with
      | None => ret None
      | Some p12 =>
          pass <- PKCS12_find_pass p12 ui_method ;;
          match pass with
          | None => ret None
          | Some pw =>
              match PKCS12_parse C p12 pw with
              | None => ret None
              | Some (pkey, cert, chain) =>
                  ret (Some (INFO_PKEY pkey :: INFO_CERT cert
                               :: map INFO_CERT chain))
              end
          end
      end
  end.

Definition try_decode_PKCS12 : try_decode_fn :=
  fun pem_name pem_header blob pctx ui_method =>
  match pctx with
  | None =>
      r <- PKCS12_initial pem_name blob ui_method ;;
      match r with
      | None => ret (None, None)
      | Some ctx => let (store_info, ctx') := sk_shift ctx in
                    ret (store_info, Some ctx')
      end
  | Some ctx => let (store_info, ctx') := sk_shift ctx in
                ret (store_info, Some ctx')
  end.

Definition eof_PKCS12 (ctx : handler_ctx) : bool :=
  match ctx with
  | None => true
  | Some l => (List.length l =? 0)%nat
  end.

Definition destroy_ctx_PKCS12 (pctx : handler_ctx) : M handler_ctx :=
  match pctx with
  | None => ret None
  | Some l => emit (EvStackPopFree l) ;;; ret None
  end.

Definition PKCS12_handler : FILE_HANDLER :=
  {| name := "PKCS12";
     try_decode := try_decode_PKCS12;
     eof := Some eof_PKCS12;
     destroy_ctx := Some destroy_ctx_PKCS12;
     repeatable := true |}.

(** The handlers that are not repeatable leave the context slot alone. *)
Definition plain (r : option OSSL_STORE_INFO)
  : M (option OSSL_STORE_INFO * handler_ctx) := ret (r, None).

(** The loop over [EVP_PKEY_asn1_get0(i)] of [try_decode_PrivateKey]. *)
Fixpoint PrivateKey_any (meths : list (ASN1_METHOD (EVP_PKEY C)))
         (blob : bytes) : option (EVP_PKEY C) :=
  match meths with
  | [] => None
  | ameth :: rest =>
      if negb (Z.land (pkey_flags ameth) ASN1_PKEY_ALIAS =? 0)%Z
      then PrivateKey_any rest blob
      else match d2i_PrivateKey C (pkey_id ameth) blob with
           | Some pkey => Some pkey
           | None => PrivateKey_any rest blob
           end
  end.

Definition try_decode_PrivateKey : try_decode_fn :=
  fun pem_name pem_header blob pctx ui_method =>
  let pkey :=
    match pem_name with
    | Some nm =>
        let slen := pem_check_suffix C nm "PRIVATE KEY" in
        if (0 <? slen)%Z then
          match EVP_PKEY_asn1_find_str C nm slen with
          | Some ameth => d2i_PrivateKey C (pkey_id ameth) blob
          | None => None
          end
        else None
    | None => PrivateKey_any (asn1_meths C) blob
    end in
  match pkey with
  | None => plain None
  | Some k => plain (Some (INFO_PKEY k))
  end.

Definition PrivateKey_handler : FILE_HANDLER :=
  {| name := "PrivateKey"; try_decode := try_decode_PrivateKey;
     eof := None; destroy_ctx := None; repeatable := false |}.

Definition try_decode_PUBKEY : try_decode_fn :=
  fun pem_name pem_header blob pctx ui_method =>
  match pem_name with
  | Some nm =>
      if negb (CStr.strcmp0 nm PEM_STRING_PUBLIC) then plain None
      else plain (option_map INFO_PKEY (d2i_PUBKEY C blob))
  | None => plain (option_map INFO_PKEY (d2i_PUBKEY C blob))
  end.

Definition PUBKEY_handler : FILE_HANDLER :=
  {| name := "PUBKEY"; try_decode := try_decode_PUBKEY;
     eof := None; destroy_ctx := None; repeatable := false |}.

(** [ameth->param_decode != NULL && ameth->param_decode(pkey, &blob, len)] *)
Definition run_param_decode (ameth : ASN1_METHOD (EVP_PKEY C)) (blob : bytes)
  : option (EVP_PKEY C) :=
  match param_decode ameth with
  | Some decode => decode blob
  | None => None
  end.

(** The loop over [EVP_PKEY_asn1_get0(i)] of [try_decode_params]. *)
Fixpoint params_any (meths : list (ASN1_METHOD (EVP_PKEY C)))
         (blob : bytes) : option (EVP_PKEY C) :=
  match meths with
  | [] => None
  | ameth :: rest =>
      if negb (Z.land (pkey_flags ameth) ASN1_PKEY_ALIAS =? 0)%Z
      then params_any rest blob
      else match EVP_PKEY_set_type C (pkey_id ameth) with
           | Some ameth' =>
               match run_param_decode ameth' blob with
               | Some pkey => Some pkey
               | None => params_any rest blob
               end
           | None => params_any rest blob
           end
  end.

Definition try_decode_params : try_decode_fn :=
  fun pem_name pem_header blob pctx ui_method =>
  let pkey :=
    match pem_name with
    | Some nm =>
        let slen := pem_check_suffix C nm "PARAMETERS" in
        if (0 <? slen)%Z then
          match EVP_PKEY_set_type_str C nm slen with
          | Some ameth => run_param_decode ameth blob
          | None => None
          end
        else None
    | None => params_any (asn1_meths C) blob
    end in
  plain (option_map INFO_PARAMS pkey).

Definition params_handler : FILE_HANDLER :=
  {| name := "params"; try_decode := try_decode_params;
     eof := None; destroy_ctx := None; repeatable := false |}.

(** The two decoders of [try_decode_X509Certificate], the second one
    guarded by [ignore_trusted]. *)
Definition X509_decode (ignore_trusted : bool) (blob : bytes)
  : option (X509 C) :=
  match d2i_X509_AUX C blob with
  | Some cert => Some cert
  | None => if ignore_trusted then d2i_X509 C blob else None
  end.

Definition try_decode_X509Certificate : try_decode_fn :=
  fun pem_name pem_header blob pctx ui_method =>
  match pem_name with
  | Some nm =>
      if CStr.strcmp0 nm PEM_STRING_X509_TRUSTED
      then plain (option_map INFO_CERT (X509_decode false blob))
      else if andb (negb (CStr.strcmp0 nm PEM_STRING_X509_OLD))
                   (negb (CStr.strcmp0 nm PEM_STRING_X509))
      then plain None
      else plain (option_map INFO_CERT (X509_decode true blob))
  | None => plain (option_map INFO_CERT (X509_decode true blob))
  end.

Definition X509Certificate_handler : FILE_HANDLER :=
  {| name := "X509Certificate"; try_decode := try_decode_X509Certificate;
     eof := None; destroy_ctx := None; repeatable := false |}.

Definition try_decode_X509CRL : try_decode_fn :=
  fun pem_name pem_header blob pctx ui_method =>
  match pem_name with
  | Some nm =>
      if negb (CStr.strcmp0 nm PEM_STRING_X509_CRL) then plain None
      else plain (option_map INFO_CRL (d2i_X509_CRL C blob))
  | None => plain (option_map INFO_CRL (d2i_X509_CRL C blob))
  end.

Definition X509CRL_handler : FILE_HANDLER :=
  {| name := "X509CRL"; try_decode := try_decode_X509CRL;
     eof := None; destroy_ctx := None; repeatable := false |}.

Definition file_handlers : list FILE_HANDLER :=
  [ PKCS12_handler; X509Certificate_handler; X509CRL_handler;
    params_handler; PUBKEY_handler; PrivateKey_handler ].

(** ** The loader itself *)

Record OSSL_STORE_LOADER_CTX : Type := {
  file : BIO;
  is_pem : bool;
  errcnt : Z;
  last_handler : option FILE_HANDLER;
  last_handler_ctx : handler_ctx
}.

Definition set_sticky (ctx : OSSL_STORE_LOADER_CTX)
           (h : option FILE_HANDLER) (hc : handler_ctx) :=
  {| file := file ctx; is_pem := is_pem ctx; errcnt := errcnt ctx;
     last_handler := h; last_handler_ctx := hc |}.

Definition set_file (ctx : OSSL_STORE_LOADER_CTX) (b : BIO) :=
  {| file := b; is_pem := is_pem ctx; errcnt := errcnt ctx;
     last_handler := last_handler ctx;
     last_handler_ctx := last_handler_ctx ctx |}.

Definition incr_errcnt (ctx : OSSL_STORE_LOADER_CTX) :=
  {| file := file ctx; is_pem := is_pem ctx; errcnt := (errcnt ctx + 1)%Z;
     last_handler := last_handler ctx;
     last_handler_ctx := last_handler_ctx ctx |}.

(** The path named by a locator with the scheme [file:], [None] when the
    authority is not supported. *)
Definition file_uri_path (uri : string) : option string :=
  if CStr.strncmp0 (CStr.from 5 uri) "//localhost/" 12
  then Some (CStr.from 16 uri)
  else if CStr.strncmp0 (CStr.from 5 uri) "///" 3
  then Some (CStr.from 7 uri)
  else if negb (CStr.strncmp0 (CStr.from 5 uri) "//" 2)
  then Some (CStr.from 5 uri)
  else None.

(** The [_WIN32] adjustment: a drive letter path starts after the [/].
    The test reads [path[0]], then [path[2]] when that is a [/], then
    [path[3]] when that is a [:].  In a path of the single character [/]
    the terminating NUL is [path[1]] and [path[2]] lies past it: [None]. *)
Definition win32_path (win32 : bool) (path : string) : option string :=
  if win32 then
    if Ascii.eqb (CStr.at_ path 0) "/" then
      if (String.length path <? 2)%nat then None
      else if andb (Ascii.eqb (CStr.at_ path 2) ":")
                   (Ascii.eqb (CStr.at_ path 3) "/")
           then Some (CStr.from 1 path)
           else Some path
    else Some path
  else Some path.

(** [sizeof(peekbuf)] *)
Definition peekbuf_size : nat := 4096.

(** [peekbuf], up to the NUL that [file_open] writes at its last index,
    after a peek that copied something: the bytes copied, at most
    [sizeof(peekbuf) - 1] of them, and behind them what the buffer held. *)
Definition peekbuf (f : file_content) : string :=
  substring 0 (peekbuf_size - 1) (peek f ++ uninit f).

(** The part of [file_open] after the locator is resolved.  [strstr]
    searches the C string in [peekbuf]: it stops at the first NUL, be it
    among the bytes of the file, and goes on into the bytes that were not
    written when there is none. *)
Definition file_open_path (fs : filesystem) (path : string)
  : M (option OSSL_STORE_LOADER_CTX) :=
  emit (EvFileOpen path) ;;;
  match fs path with
  | None => ret None
  | Some f =>
      ret (Some {| file := stream f;
                   is_pem := andb (0 <? String.length (peek f))%nat
                                  (CStr.strstr (CStr.cstr (peekbuf f))
                                               "-----BEGIN ");
                   errcnt := 0;
                   last_handler := None;
                   last_handler_ctx := None |})
  end.

Definition file_open (win32 : bool) (fs : filesystem) (uri : string)
  : M (option OSSL_STORE_LOADER_CTX) :=
  if CStr.strncasecmp0 uri "file:" 5 then
    match file_uri_path uri with
    | None => emit (EvErr R_URI_AUTHORITY_UNSUPPORTED) ;;; ret None
    | Some path =>
        if negb (Ascii.eqb (CStr.at_ path 0) "/")
        then emit (EvErr R_PATH_MUST_BE_ABSOLUTE) ;;; ret None
        else match win32_path win32 path with
             | Some path' => file_open_path fs path'
             | None => out_of_bounds
             end
    end
  else file_open_path fs uri.

(** *** The dispatch engine *)

(** The locals of one pass over the handlers. *)
Record pass_state : Type := {
  result : option OSSL_STORE_INFO;
  handler_ctx_ : handler_ctx;
  matchcount : Z;
  matching_handlers : list FILE_HANDLER
}.

Definition pass_init : pass_state :=
  {| result := None; handler_ctx_ := None; matchcount := 0;
     matching_handlers := [] |}.

(** [OSSL_STORE_INFO_free], which ignores NULL. *)
Definition OSSL_STORE_INFO_free (i : option OSSL_STORE_INFO) : M unit :=
  match i with
  | None => ret tt
  | Some i' => emit (EvInfoFree i')
  end.

(** [handler->destroy_ctx(&handler_ctx)], a call through the pointer
    whatever it holds. *)
Definition call_destroy_ctx (handler : FILE_HANDLER) (hc : handler_ctx)
  : M handler_ctx :=
  match destroy_ctx handler with
  | None => null_call
  | Some destroy => destroy hc
  end.

(** The body of the loop over [file_handlers]. *)
Definition try_handler (pem_name pem_header : option string) (data : bytes)
           (ui_method : UI_METHOD) (st : pass_state) (handler : FILE_HANDLER)
  : M pass_state :=
  tmp <- try_decode handler pem_name pem_header data None ui_method ;;
  let (tmp_result, tmp_handler_ctx) := tmp in
  match tmp_result with
  | None =>
      emit (EvErr R_IS_NOT_A) ;;; emit (EvErrData (name handler)) ;;; ret st
  | Some r =>
      let matching := matching_handlers st ++ [handler] in
      match handler_ctx_ st with
      | Some _ => call_destroy_ctx handler (handler_ctx_ st) ;;; ret tt
      | None => ret tt
      end ;;;
      let mc := (matchcount st + 1)%Z in
      if (mc =? 1)%Z then
        ret {| result := Some r; handler_ctx_ := tmp_handler_ctx;
               matchcount := mc; matching_handlers := matching |}
      else
        OSSL_STORE_INFO_free (result st) ;;;
        OSSL_STORE_INFO_free (Some r) ;;;
        match destroy_ctx handler with
        | Some destroy => destroy tmp_handler_ctx ;;; ret tt
        | None => ret tt
        end ;;;
        ret {| result := None; handler_ctx_ := None;
               matchcount := mc; matching_handlers := matching |}
  end.

Fixpoint try_handlers (handlers : list FILE_HANDLER)
         (pem_name pem_header : option string) (data : bytes)
         (ui_method : UI_METHOD) (st : pass_state) : M pass_state :=
  match handlers with
  | [] => ret st
  | handler :: rest =>
      st' <- try_handler pem_name pem_header data ui_method st handler ;;
      try_handlers rest pem_name pem_header data ui_method st'
  end.

(** What follows the loop: the diagnostics, and the adoption of a
    repeatable handler and its context by the loader. *)
Definition after_handlers (ctx : option OSSL_STORE_LOADER_CTX)
           (st : pass_state)
  : M (option OSSL_STORE_INFO * option OSSL_STORE_LOADER_CTX) :=
  (if (1 <? matchcount st)%Z
   then emit (EvErr R_AMBIGUOUS_CONTENT_TYPE) else ret tt) ;;;
  if (matchcount st =? 0)%Z then
    emit (EvErr R_UNSUPPORTED_CONTENT_TYPE) ;;; ret (result st, ctx)
  else
    match matching_handlers st with
    | h0 :: _ =>
        if repeatable h0 then
          match ctx with
          | None =>
              emit (EvErr R_UNSUPPORTED_CONTENT_TYPE) ;;;
              OSSL_STORE_INFO_free (result st) ;;; ret (None, ctx)
          | Some c =>
              ret (result st, Some (set_sticky c (Some h0) (handler_ctx_ st)))
          end
        else ret (result st, ctx)
    | [] => ret (result st, ctx)
    end.

(** One pass of the block at [again:]. *)
Definition dispatch_pass (handlers : list FILE_HANDLER)
           (ctx : option OSSL_STORE_LOADER_CTX)
           (pem_name pem_header : option string) (data : bytes)
           (ui_method : UI_METHOD)
  : M (option OSSL_STORE_INFO * option OSSL_STORE_LOADER_CTX * Z) :=
  st <- try_handlers handlers pem_name pem_header data ui_method pass_init ;;
  rc <- after_handlers ctx st ;;
  ret (rc, matchcount st).

(** [file_load_try_decode] over a table of handlers; [fuel] bounds the
    number of passes. *)
Fixpoint file_load_try_decode_with (handlers : list FILE_HANDLER)
         (fuel : nat) (ctx : option OSSL_STORE_LOADER_CTX)
         (pem_name pem_header : option string) (data : bytes)
         (ui_method : UI_METHOD)
  : M (option OSSL_STORE_INFO * option OSSL_STORE_LOADER_CTX * Z) :=
  match fuel with
  | O => (OutOfFuel, [])
  | S fuel' =>
      p <- dispatch_pass handlers ctx pem_name pem_header data ui_method ;;
      let '(res, ctx', mc) := p in
      match res with
      | Some (INFO_EMBEDDED new_pem_name new_mem) =>
          file_load_try_decode_with handlers fuel' ctx' new_pem_name
                                    pem_header new_mem ui_method
      | Some r => emit EvErrClear ;;; ret (Some r, ctx', mc)
      | None => ret (None, ctx', mc)
      end
  end.

Definition file_load_try_decode := file_load_try_decode_with file_handlers.

Definition file_load_try_repeat (ctx : OSSL_STORE_LOADER_CTX)
           (ui_method : UI_METHOD)
  : M (option OSSL_STORE_INFO * OSSL_STORE_LOADER_CTX) :=
  match last_handler ctx with
  | Some h =>
      r <- try_decode h None None [] (last_handler_ctx ctx) ui_method ;;
      let (res, hc) := r in
      match res with
      | Some i => ret (Some i, set_sticky ctx (Some h) hc)
      | None =>
          call_destroy_ctx h hc ;;; ret (None, set_sticky ctx None None)
      end
  | None => ret (None, ctx)
  end.

(** *** Reading records *)

(** Modelled from the spec: [PEM_do_header] of crypto/pem/pem_lib.c, which
    is not among the sources.  A block without a cipher is left as it is;
    otherwise a pass phrase is asked for through the callback and the body
    is decrypted, a failure of either aborting the read. *)
Definition PEM_do_header (ci : EVP_CIPHER_INFO) (data : bytes)
           (ui_method : UI_METHOD) : M (option bytes) :=
  match cipher ci with
  | None => ret (Some data)
  | Some _ =>
      kp <- file_get_pem_pass ui_method PEM_BUFSIZE "PEM" ;;
      let (klen, pass) := kp in
      if (klen <=? 0)%Z then ret None else ret (PEM_decrypt C ci data pass)
  end.

Definition blob : Type := (option string * option string * bytes)%type.

Definition file_read_pem (bp : BIO) (ui_method : UI_METHOD)
  : M (option blob * BIO) :=
  match bp with
  | [] => ret (None, [])
  | PEM_record pem_name pem_header data :: rest =>
      emit (EvRead (PEM_record pem_name pem_header data)) ;;;
      if (10 <? String.length pem_header)%nat then
        match PEM_get_EVP_CIPHER_INFO C pem_header with
        | None => ret (None, rest)
        | Some ci =>
            d <- PEM_do_header ci data ui_method ;;
            match d with
            | None => ret (None, rest)
            | Some data' =>
                ret (Some (Some pem_name, Some pem_header, data'), rest)
            end
        end
      else ret (Some (Some pem_name, Some pem_header, data), rest)
  | r :: rest => emit (EvRead r) ;;; ret (None, rest)
  end.

Definition file_read_asn1 (bp : BIO) : M (option blob * BIO) :=
  match bp with
  | [] => ret (None, [])
  | DER_record data :: rest =>
      emit (EvRead (DER_record data)) ;;; ret (Some (None, None, data), rest)
  | r :: rest => emit (EvRead r) ;;; ret (None, rest)
  end.

(** *** The loader operations *)

Definition file_error (ctx : OSSL_STORE_LOADER_CTX) : bool :=
  (0 <? errcnt ctx)%Z.

Definition file_eof (ctx : OSSL_STORE_LOADER_CTX) : M bool :=
  match last_handler ctx with
  | Some h =>
      match eof h with
      | None => null_call
      | Some handler_eof =>
          if negb (handler_eof (last_handler_ctx ctx)) then ret false
          else ret (BIO_eof (file ctx))
      end
  | None => ret (BIO_eof (file ctx))
  end.

(** The locals of [file_load] that live across the iterations of its
    loop, with the loader context. *)
Definition load_state : Type :=
  (option OSSL_STORE_INFO * OSSL_STORE_LOADER_CTX * Z)%type.

(** The body of the [do ... while] of [file_load]. *)
Definition file_load_body (fuel : nat) (ui_method : UI_METHOD)
           (st : load_state) : M load_state :=
  let '(res, ctx, mc) := st in
  rd <- (if is_pem ctx then file_read_pem (file ctx) ui_method
         else file_read_asn1 (file ctx)) ;;
  let (b, rest) := rd in
  let ctx1 := set_file ctx rest in
  match b with
  | None =>
      e <- file_eof ctx1 ;;
      ret (res, if e then ctx1 else incr_errcnt ctx1, mc)
  | Some (pem_name, pem_header, data) =>
      p <- file_load_try_decode fuel (Some ctx1) pem_name pem_header data
                                ui_method ;;
      let '(res', octx, mc') := p in
      ret (res', match octx with Some c => c | None => ctx1 end, mc')
  end.

(** [matchcount == 0 && !file_eof(ctx) && !file_error(ctx)] *)
Definition file_load_again (st : load_state) : M bool :=
  let '(_, ctx, mc) := st in
  if (mc =? 0)%Z then
    e <- file_eof ctx ;;
    if negb e then ret (negb (file_error ctx)) else ret false
  else ret false.

Fixpoint file_load_loop (iters fuel : nat) (ui_method : UI_METHOD)
         (st : load_state) : M load_state :=
  match iters with
  | O => (OutOfFuel, [])
  | S iters' =>
      st' <- file_load_body fuel ui_method st ;;
      again <- file_load_again st' ;;
      if again then file_load_loop iters' fuel ui_method st' else ret st'
  end.

(** [file_load] from the test of [file_error] on: the read loop and the
    bail out on ambiguity. *)
Definition file_load_read (fuel : nat) (ctx : OSSL_STORE_LOADER_CTX)
           (ui_method : UI_METHOD)
  : M (option OSSL_STORE_INFO * OSSL_STORE_LOADER_CTX) :=
  if file_error ctx then ret (None, ctx) else
  st <- file_load_loop fuel fuel ui_method (None, ctx, (-1)%Z) ;;
  let '(res, ctx', mc) := st in
  if (1 <? mc)%Z then ret (None, ctx') else ret (res, ctx').

(** [file_load]; [fuel] bounds the iterations of the read loop and the
    passes of each dispatch. *)
Definition file_load (fuel : nat) (ctx : OSSL_STORE_LOADER_CTX)
           (ui_method : UI_METHOD)
  : M (option OSSL_STORE_INFO * OSSL_STORE_LOADER_CTX) :=
  r <- file_load_try_repeat ctx ui_method ;;
  let (res, ctx1) := r in
  match res with
  | Some i => ret (Some i, ctx1)
  | None => file_load_read fuel ctx1 ui_method
  end.

(** The first statement of [file_close]: the sticky state is torn down. *)
Definition file_close_sticky (ctx : OSSL_STORE_LOADER_CTX)
  : M OSSL_STORE_LOADER_CTX :=
  match last_handler ctx with
  | Some h =>
      call_destroy_ctx h (last_handler_ctx ctx) ;;;
      ret (set_sticky ctx None None)
  | None => ret ctx
  end.

Definition file_close (ctx : OSSL_STORE_LOADER_CTX) : M Z :=
  file_close_sticky ctx ;;;
  emit EvBIOFree ;;; emit EvCtxFree ;;; ret 1%Z.

End Loader.

Arguments INFO_PARAMS {C} k.
Arguments INFO_PKEY {C} k.
Arguments INFO_CERT {C} x.
Arguments INFO_CRL {C} c.
Arguments INFO_EMBEDDED {C} pem_name buffer.
Arguments EvErr {C} r.
Arguments EvErrData {C} s.
Arguments EvErrClear {C}.
Arguments EvPrompt {C} prompt_info.
Arguments EvVerifyMac {C} pass.
Arguments EvInfoFree {C} i.
Arguments EvStackPopFree {C} l.
Arguments EvFileOpen {C} path.
Arguments EvRead {C} r.
Arguments EvBIOFree {C}.
Arguments EvCtxFree {C}.
Arguments NullCall {A}.
Arguments OutOfBounds {A}.
Arguments OutOfFuel {A}.
Arguments ret {C A} a.
Arguments bind {C A B} m f.
Arguments emit {C} e.
Arguments null_call {C A}.
Arguments out_of_bounds {C A}.
Arguments plain {C} r.

Notation "x <- m ;; k" := (bind m (fun x => k))
  (at level 61, m at next level, right associativity).
Notation "m ;;; k" := (bind m (fun _ => k))
  (at level 61, right associativity).

(** ** Notions used in the statements *)

Section Notions.

Variable C : Codecs.

(** The pem names [try_decode_X509Certificate] lets through. *)
Definition X509_name_accepted (pem_name : option string) : bool :=
  match pem_name with
  | None => true
  | Some nm => orb (CStr.strcmp0 nm PEM_STRING_X509_TRUSTED)
                 (orb (CStr.strcmp0 nm PEM_STRING_X509_OLD)
                      (CStr.strcmp0 nm PEM_STRING_X509))
  end.

(** No [/] occurs in the string. *)
Fixpoint slash_free (s : string) : bool :=
  match s with
  | EmptyString => true
  | String c s' => andb (negb (Ascii.eqb c "/")) (slash_free s')
  end.

(** The sticky pair holds a context only together with a handler. *)
Definition sticky_consistent (ctx : OSSL_STORE_LOADER_CTX C) : Prop :=
  last_handler ctx = None -> last_handler_ctx ctx = None.

(** The sticky pair of a loader in use: empty, or the bundle handler with
    its stack. *)
Definition sticky_inv (ctx : OSSL_STORE_LOADER_CTX C) : Prop :=
  (last_handler ctx = None /\ last_handler_ctx ctx = None)
  \/ (last_handler ctx = Some (PKCS12_handler C)
      /\ exists l, last_handler_ctx ctx = Some l).

(** The loader states that [file_open] and [file_load] produce. *)
Inductive reachable : OSSL_STORE_LOADER_CTX C -> Prop :=
| reach_open win32 fs uri ctx tr :
    file_open C win32 fs uri = (Done (Some ctx), tr) -> reachable ctx
| reach_load fuel ctx ui r ctx' tr :
    reachable ctx ->
    file_load fuel ctx ui = (Done (r, ctx'), tr) -> reachable ctx'.

(** There is no pending data in the sticky handler. *)
Definition sticky_drained (ctx : OSSL_STORE_LOADER_CTX C) : Prop :=
  match last_handler ctx with
  | None => True
  | Some h => exists handler_eof,
      eof h = Some handler_eof /\ handler_eof (last_handler_ctx ctx) = true
  end.

(** [n] successive calls of [file_load], with the objects they return. *)
Fixpoint file_load_n (fuel n : nat) (ctx : OSSL_STORE_LOADER_CTX C)
         (ui_method : UI_METHOD)
  : M C (list (option (OSSL_STORE_INFO C)) * OSSL_STORE_LOADER_CTX C) :=
  match n with
  | O => ret ([], ctx)
  | S n' =>
      r <- file_load fuel ctx ui_method ;;
      let (res, ctx1) := r in
      rs <- file_load_n fuel n' ctx1 ui_method ;;
      let (l, ctx2) := rs in
      ret (res :: l, ctx2)
  end.

(** The handlers of the registry after the bundle handler. *)
Definition plain_handlers : list (FILE_HANDLER C) :=
  [ X509Certificate_handler C; X509CRL_handler C; params_handler C;
    PUBKEY_handler C; PrivateKey_handler C ].

(** The handler reports "not this type" on the blob. *)
Definition no_match (h : FILE_HANDLER C) (pem_name pem_header : option string)
           (data : bytes) (ui_method : UI_METHOD) : Prop :=
  try_decode h pem_name pem_header data None ui_method
  = (Done (None, None), []).

(** What the dispatch engine relies on in a handler that is not
    repeatable: no destroy function, no context, no effect, and never an
    embedded blob as its object. *)
Definition plain_spec (h : FILE_HANDLER C) : Prop :=
  destroy_ctx h = None /\ repeatable h = false /\
  forall pn ph data hc ui,
  exists r, try_decode h pn ph data hc ui = (Done (r, None), [])
            /\ forall i, r = Some i -> is_EMBEDDED i = false.

(** The locals of a pass in which only handlers without a context have
    matched so far. *)
Definition plain_st (st : pass_state C) : Prop :=
  handler_ctx_ st = None
  /\ (0 <= matchcount st)%Z
  /\ (matchcount st = 0%Z -> result st = None /\ matching_handlers st = [])
  /\ ((0 < matchcount st)%Z ->
      exists h0 rest, matching_handlers st = h0 :: rest
                      /\ repeatable h0 = false)
  /\ (forall i, result st = Some i -> is_EMBEDDED i = false)
  /\ ((1 < matchcount st)%Z -> result st = None).

(** The locals of a pass once the bundle handler has matched. *)
Definition bundle_st (i : OSSL_STORE_INFO C) (l : list (OSSL_STORE_INFO C))
  : pass_state C :=
  {| result := Some i; handler_ctx_ := Some l; matchcount := 1;
     matching_handlers := [PKCS12_handler C] |}.

(** The diagnostics of the handlers among [hs] that do not match. *)
Definition not_a (hs : list (FILE_HANDLER C)) : list (event C) :=
  flat_map (fun h => [EvErr R_IS_NOT_A; EvErrData (name h)]) hs.

(** The sticky pair is empty. *)
Definition sticky_none (ctx : OSSL_STORE_LOADER_CTX C) : Prop :=
  last_handler ctx = None /\ last_handler_ctx ctx = None.

(** The sticky pair is the bundle handler with a stack. *)
Definition sticky_bundle (ctx : OSSL_STORE_LOADER_CTX C) : Prop :=
  last_handler ctx = Some (PKCS12_handler C)
  /\ exists l, last_handler_ctx ctx = Some l.

(** The objects the handlers among [hs] produce for the blob. *)
Definition produced (hs : list (FILE_HANDLER C))
           (pem_name pem_header : option string) (data : bytes)
           (ui_method : UI_METHOD) : list (OSSL_STORE_INFO C) :=
  flat_map (fun h =>
              match try_decode h pem_name pem_header data None ui_method with
              | (Done (Some j, _), _) => [j]
              | _ => []
              end) hs.

(** The locals of a pass after handlers without a context have produced
    the objects [objs], and what the pass has emitted so far: a single
    object is the result; of two or more, each has been freed. *)
Definition plain_acc (st : pass_state C) (objs : list (OSSL_STORE_INFO C))
           (tr : list (event C)) : Prop :=
  handler_ctx_ st = None
  /\ matchcount st = Z.of_nat (List.length objs)
  /\ result st = match objs with
                 | [j] => Some j
                 | _ => None
                 end
  /\ (objs = [] -> matching_handlers st = [])
  /\ (objs <> [] -> exists h0 rest, matching_handlers st = h0 :: rest
                                    /\ repeatable h0 = false)
  /\ ((2 <= List.length objs)%nat ->
      forall j, In j objs -> In (EvInfoFree j) tr)
  /\ (forall r, ~ In (EvRead r) tr).

(** What tearing down the sticky state of a loader emits. *)
Definition teardown_events (ctx : OSSL_STORE_LOADER_CTX C)
  : list (event C) :=
  match last_handler_ctx ctx with
  | Some l => [EvStackPopFree l]
  | None => []
  end.

(** The loader is on a raw stream whose next record is the blob [data],
    and has seen no error. *)
Definition raw_at (ctx : OSSL_STORE_LOADER_CTX C) (data : bytes)
           (rest : BIO) : Prop :=
  is_pem ctx = false /\ file ctx = DER_record data :: rest
  /\ errcnt ctx = 0%Z.

(** The pass phrase under which the bundle handler goes on to parse
    [p12]: the empty one when the MAC verifies with the empty pass phrase
    or with none, else the one the user enters, which has to verify the
    MAC. *)
Definition mac_pass (p12 : PKCS12 C) (ui_method : UI_METHOD)
           (pass : string) : Prop :=
  if orb (PKCS12_verify_mac C p12 (Some ""))
         (PKCS12_verify_mac C p12 None)
  then pass = ""
  else ui_method "PKCS12 import password" (PEM_BUFSIZE - 1)%Z
       = UI_entered pass
       /\ PKCS12_verify_mac C p12 (Some pass) = true.

End Notions.

(** ** A small instance of the codecs

    Objects are numbers and a blob is recognised by its first byte:
    [P] and [Q] are bundles (key 1, certificate 2, chain 3 and 4), the MAC of
    the first verifying with the empty pass phrase and the MAC of the second
    with [secret]; [T] is a trusted certificate, [C] a plain one, [R] a
    revocation list, [U] a public key, [K] a private key and [D] a
    parameter set.  [B] is read as a bundle and as a certificate, [A] as a
    certificate and as a revocation list. *)

Module Demo.

Import Byte.

Definition tag (b : bytes) : option Byte.byte := List.hd_error b.

Definition is_tag (b : bytes) (ts : list Byte.byte) : bool :=
  match tag b with
  | Some t => existsb (Byte.eqb t) ts
  | None => false
  end.

Definition bundle_decode (b : bytes) : option nat :=
  if is_tag b [x50; x42] then Some 0
  else if is_tag b [x51] then Some 1 else None.

Definition bundle_mac (p12 : nat) (pass : option string) : bool :=
  match p12, pass with
  | 0, Some pw => String.eqb pw ""
  | 1, Some pw => String.eqb pw "secret"
  | _, _ => false
  end.

Definition meth : ASN1_METHOD nat :=
  {| pkey_id := 6; pkey_flags := 0;
     param_decode := Some (fun b => if is_tag b [x44] then Some 5 else None) |}.

Definition codecs : Codecs :=
  {| EVP_PKEY := nat; X509 := nat; X509_CRL := nat; PKCS12 := nat;
     d2i_PKCS12 := bundle_decode;
     PKCS12_verify_mac := bundle_mac;
     PKCS12_parse := fun _ _ => Some (1, 2, [3; 4]);
     d2i_X509_AUX := fun b => if is_tag b [x54] then Some 7 else None;
     d2i_X509 :=
       fun b => if is_tag b [x54; x43; x42; x41] then Some 8 else None;
     d2i_X509_CRL := fun b => if is_tag b [x52; x41] then Some 9 else None;
     d2i_PUBKEY := fun b => if is_tag b [x55] then Some 10 else None;
     d2i_PrivateKey := fun _ b => if is_tag b [x4b] then Some 11 else None;
     pem_check_suffix := fun _ _ => 0%Z;
     asn1_meths := [meth];
     EVP_PKEY_asn1_find_str := fun _ _ => None;
     EVP_PKEY_set_type_str := fun _ _ => None;
     EVP_PKEY_set_type := fun _ => Some meth;
     PEM_get_EVP_CIPHER_INFO := fun _ => Some {| cipher := None; iv := [] |};
     PEM_decrypt := fun _ d _ => Some d |}.

Definition key (n : nat) : OSSL_STORE_INFO codecs := @INFO_PKEY codecs n.
Definition cert (n : nat) : OSSL_STORE_INFO codecs := @INFO_CERT codecs n.
Definition crl (n : nat) : OSSL_STORE_INFO codecs := @INFO_CRL codecs n.

(** A user who types [secret], one who types [guess] and one who cancels. *)
Definition ui_secret : UI_METHOD := fun _ _ => UI_entered "secret".
Definition ui_guess : UI_METHOD := fun _ _ => UI_entered "guess".
Definition ui_cancel : UI_METHOD := fun _ _ => UI_cancelled.

(** A loader just opened on a raw stream. *)
Definition raw_loader (s : BIO) : OSSL_STORE_LOADER_CTX codecs :=
  {| file := s; is_pem := false; errcnt := 0;
     last_handler := None; last_handler_ctx := None |}.

(** A loader on a raw stream in the middle of a bundle. *)
Definition bundle_loader (s : BIO) (l : list (OSSL_STORE_INFO codecs))
  : OSSL_STORE_LOADER_CTX codecs :=
  {| file := s; is_pem := false; errcnt := 0;
     last_handler := Some (PKCS12_handler codecs);
     last_handler_ctx := Some l |}.

(** A handler that hands its input back as an embedded blob. *)
Definition echo_handler : FILE_HANDLER codecs :=
  {| name := "echo";
     try_decode := fun pem_name _ blob _ _ =>
                     plain (Some (@INFO_EMBEDDED codecs pem_name blob));
     eof := None; destroy_ctx := None; repeatable := false |}.

(** A handler that unwraps a blob tagged [W]. *)
Definition wrap_handler : FILE_HANDLER codecs :=
  {| name := "wrap";
     try_decode := fun _ _ blob _ _ =>
                     if is_tag blob [x57]
                     then plain (Some (@INFO_EMBEDDED codecs None (List.tl blob)))
                     else plain None;
     eof := None; destroy_ctx := None; repeatable := false |}.

(** The only file is [/bundle.p12], holding one bundle. *)
Definition fs : filesystem :=
  fun path => if String.eqb path "/bundle.p12"
              then Some {| peek := "0"; uninit := "";
                           stream := [DER_record [x50]] |}
              else None.

End Demo.


(** ** Notions used in the further properties *)

Section MoreNotions.

Variable C : Codecs.

(** The sticky pair is empty, or the bundle handler's with a stack that
    holds no embedded blob. *)
Definition sticky_clean (ctx : OSSL_STORE_LOADER_CTX C) : Prop :=
  sticky_none ctx
  \/ (last_handler ctx = Some (PKCS12_handler C)
      /\ exists l, last_handler_ctx ctx = Some l
                   /\ Forall (fun i => is_EMBEDDED i = false) l).

(** The blob a record gives the dispatch engine when reading it involves
    no decryption: a DER object on a raw stream, a PEM record whose header
    is at most ten characters long on a PEM stream. *)
Definition plain_blob (pem : bool) (r : record) : option blob :=
  match pem, r with
  | true, PEM_record pem_name pem_header data =>
      if (10 <? String.length pem_header)%nat then None
      else Some (Some pem_name, Some pem_header, data)
  | false, DER_record data => Some (None, None, data)
  | _, _ => None
  end.

(** The bundle handler does not match the blob. *)
Definition not_a_bundle (b : blob) (ui_method : UI_METHOD) : Prop :=
  let '(pem_name, _, data) := b in
  exists t, PKCS12_initial C pem_name data ui_method = (Done None, t).

(** The objects the handlers after the bundle handler make of the blob. *)
Definition objects_of (b : blob) (ui_method : UI_METHOD)
  : list (OSSL_STORE_INFO C) :=
  let '(pem_name, pem_header, data) := b in
  produced (plain_handlers C) pem_name pem_header data ui_method.

(** No handler of the registry matches the blob. *)
Definition unsupported_blob (ui_method : UI_METHOD) (b : blob) : Prop :=
  not_a_bundle b ui_method /\ objects_of b ui_method = [].

(** The records that the events say were read, in order. *)
Fixpoint reads (tr : list (event C)) : list record :=
  match tr with
  | [] => []
  | EvRead r :: tr' => r :: reads tr'
  | _ :: tr' => reads tr'
  end.

(** The method is not flagged as an alias. *)
Definition not_alias (ameth : ASN1_METHOD (EVP_PKEY C)) : bool :=
  (Z.land (pkey_flags ameth) ASN1_PKEY_ALIAS =? 0)%Z.

(** What [try_decode_params] makes of the blob with one method. *)
Definition params_with (ameth : ASN1_METHOD (EVP_PKEY C)) (blob : bytes)
  : option (EVP_PKEY C) :=
  match EVP_PKEY_set_type C (pkey_id ameth) with
  | Some ameth' => run_param_decode C ameth' blob
  | None => None
  end.

(** The first method that is not an alias and for which [decode] gives a
    key, with that key: the search both key handlers make when the blob
    has no declared name. *)
Fixpoint first_decoded
         (decode : ASN1_METHOD (EVP_PKEY C) -> option (EVP_PKEY C))
         (meths : list (ASN1_METHOD (EVP_PKEY C))) : option (EVP_PKEY C) :=
  match meths with
  | [] => None
  | ameth :: rest =>
      if not_alias ameth then
        match decode ameth with
        | Some pkey => Some pkey
        | None => first_decoded decode rest
        end
      else first_decoded decode rest
  end.

End MoreNotions.

(** * The test utilities (test/testlib/OpenSSL/Test/Utils.pm)

    The three hashes and the flag of the package are the state; a hash is
    an association list read by its first entry for a key, [lc] is the
    lower-casing of [CStr], and the file configdata.pm is what [require]
    finds: the three tables it defines, or nothing when it cannot be
    loaded.  A function that depends on [wantarray] is given once for each
    context. *)

Module TestUtils.

Definition hash (V : Type) : Type := list (string * V).

(** [exists $h{k}] *)
Definition exists_key {V} (h : hash V) (k : string) : bool :=
  existsb (fun p => String.eqb (fst p) k) h.

(** [$h{k}] *)
Fixpoint lookup {V} (h : hash V) (k : string) : option V :=
  match h with
  | [] => None
  | (k', v) :: h' => if String.eqb k' k then Some v else lookup h' k
  end.

Record configdata : Type := {
  cd_available_protocols : hash (list string);
  cd_disabled : hash string;
  cd_config : hash string
}.

Record state : Type := {
  available_protocols_ : hash (list string);
  disabled_ : hash string;
  config_ : hash string;
  configdata_loaded : bool
}.

(** The package as it is compiled: empty hashes, nothing loaded. *)
Definition init : state :=
  {| available_protocols_ := []; disabled_ := []; config_ := [];
     configdata_loaded := false |}.

(** The [eval] copies the tables when the [require] succeeds and leaves
    the hashes alone when it dies; the flag is set either way. *)
Definition load_configdata (pm : option configdata) (st : state) : state :=
  match pm with
  | Some cd =>
      {| available_protocols_ := cd_available_protocols cd;
         disabled_ := cd_disabled cd;
         config_ := cd_config cd;
         configdata_loaded := true |}
  | None =>
      {| available_protocols_ := available_protocols_ st;
         disabled_ := disabled_ st;
         config_ := config_ st;
         configdata_loaded := true |}
  end.

Definition anyof (l : list Z) : bool :=
  (0 <? fold_left Z.add l 0)%Z.

Definition allof (l : list Z) : bool :=
  (0 <? fold_left Z.mul l 1)%Z.

Definition check_disabled (st : state) (features : list string) : list Z :=
  map (fun f => if exists_key (disabled_ st) (CStr.lower f)
                then 1%Z else 0%Z) features.

(** [load_configdata() unless $configdata_loaded] *)
Definition load_unless_loaded (pm : option configdata) (st : state)
  : state :=
  if configdata_loaded st then st else load_configdata pm st.

(** [anydisabled] in list context. *)
Definition anydisabled_list (pm : option configdata) (st : state)
           (features : list string) : list Z * state :=
  let st' := load_unless_loaded pm st in
  (check_disabled st' features, st').

(** [anydisabled] in scalar context. *)
Definition anydisabled (pm : option configdata) (st : state)
           (features : list string) : bool * state :=
  let st' := load_unless_loaded pm st in
  (anyof (check_disabled st' features), st').

(** [alldisabled] in list context. *)
Definition alldisabled_list (pm : option configdata) (st : state)
           (features : list string) : list Z * state :=
  let st' := load_unless_loaded pm st in
  (check_disabled st' features, st').

(** [alldisabled] in scalar context. *)
Definition alldisabled (pm : option configdata) (st : state)
           (features : list string) : bool * state :=
  let st' := load_unless_loaded pm st in
  (allof (check_disabled st' features), st').

(** [disabled] hands its arguments and its context to [anydisabled]. *)
Definition disabled := anydisabled.

Definition available_protocols (st : state) (protocol_class : string)
  : list string :=
  if exists_key (available_protocols_ st) (CStr.lower protocol_class)
  then match lookup (available_protocols_ st)
                    (CStr.lower protocol_class) with
       | Some l => l
       | None => []
       end
  else [].

Definition config (st : state) (key : string) : option string :=
  lookup (config_ st) key.

(** The feature is a key of [%disabled], its name taken in lower case. *)
Definition is_disabled (st : state) (f : string) : bool :=
  exists_key (disabled_ st) (CStr.lower f).

(** A build in which [dh] and [ssl3] are disabled. *)
Definition sample : configdata :=
  {| cd_available_protocols := [("tls", ["ssl3"; "tls1"; "tls1_2"]);
                                ("dtls", ["dtls1"])];
     cd_disabled := [("dh", "option"); ("ssl3", "default")];
     cd_config := [("fips", "0")] |}.

End TestUtils.

(** * Streams of the small instance *)

Module Sample.

Import Byte.

(** An unreadable record followed by a certificate. *)
Definition garbage_then_cert : BIO := [Garbage; DER_record [x43]].

(** A blob no handler matches, a certificate, a revocation list. *)
Definition junk_cert_crl : BIO :=
  [DER_record [x00]; DER_record [x43]; DER_record [x52]].

(** The loader [file_open] returns for [/bundle.p12]. *)
Definition opened : OSSL_STORE_LOADER_CTX Demo.codecs :=
  Demo.raw_loader [DER_record [x50]].

(** Two more files: [/broken.der] holds an unreadable record followed by
    a certificate; [/nul.pem] holds a PEM record behind a NUL, and is
    peeked into a buffer that holds the marker from an earlier use. *)
Definition fs : filesystem :=
  fun path =>
    if String.eqb path "/broken.der"
    then Some {| peek := "0"; uninit := ""; stream := garbage_then_cert |}
    else if String.eqb path "/nul.pem"
    then Some {| peek := String zero "-----BEGIN X509 CRL-----";
                 uninit := "-----BEGIN ";
                 stream := [PEM_record "X509 CRL" "" [x52]] |}
    else None.

(** The loader on [/broken.der] once the unreadable record has been
    met. *)
Definition errored : OSSL_STORE_LOADER_CTX Demo.codecs :=
  incr_errcnt (Demo.raw_loader [DER_record [x43]]).

End Sample.
(** * Properties *)

Unset Implicit Arguments.

Section Properties.

Variable C : Codecs.

(** ** The monad *)

Lemma bind_Done {A B} (m : M C A) (f : A -> M C B) a t :
  m = (Done a, t) ->
  bind m f = (fst (f a), t ++ snd (f a)).
Proof.
  intros ->. unfold bind. destruct (f a); reflexivity.
Qed.

Lemma bind_Done_inv {A B} (m : M C A) (f : A -> M C B) b t :
  bind m f = (Done b, t) ->
  exists a t1 t2, m = (Done a, t1) /\ f a = (Done b, t2) /\ t = t1 ++ t2.
Proof.
  unfold bind. destruct m as [[a| | |] t1]; try discriminate.
  destruct (f a) as [r t2] eqn:E. intros H. inversion H; subst.
  exists a, t1, t2. auto.
Qed.

Lemma bind_ret_l {A B} (a : A) (f : A -> M C B) : bind (ret a) f = f a.
Proof.
  unfold bind, ret. destruct (f a); reflexivity.
Qed.

Lemma bind_emit {B} (e : event C) (k : M C B) :
  bind (emit e) (fun _ => k) = (fst k, e :: snd k).
Proof.
  unfold bind, emit. destruct k; reflexivity.
Qed.

Lemma fst_Done_inv {A} (m : M C A) t a tr :
  (fst m, t ++ snd m) = (Done a, tr) -> exists t', m = (Done a, t').
Proof.
  destruct m as [o t']. cbn. intros H. inversion H; subst. eauto.
Qed.

(** ** The certificate handler *)

(** C8: the certificate handler tries the trusted format first, so a blob
    that decodes in it yields that certificate; the plain decoder is the
    fallback when the declared name is not the trusted marker; under the
    trusted marker a blob that does not decode in the trusted format yields
    no match, whatever the plain decoder makes of it. *)
Theorem X509Certificate_trusted_first
        (pem_name pem_header : option string) (blob : bytes)
        (pctx : handler_ctx C) (ui : UI_METHOD) :
  (forall cert,
      X509_name_accepted pem_name = true ->
      d2i_X509_AUX C blob = Some cert ->
      @try_decode_X509Certificate C pem_name pem_header blob pctx ui
      = (Done (Some (INFO_CERT cert), None), []))
  /\ (X509_name_accepted pem_name = true ->
      pem_name <> Some PEM_STRING_X509_TRUSTED ->
      d2i_X509_AUX C blob = None ->
      @try_decode_X509Certificate C pem_name pem_header blob pctx ui
      = (Done (option_map INFO_CERT (d2i_X509 C blob), None), []))
  /\ (pem_name = Some PEM_STRING_X509_TRUSTED ->
      d2i_X509_AUX C blob = None ->
      @try_decode_X509Certificate C pem_name pem_header blob pctx ui
      = (Done (None, None), [])).
Proof.
  unfold try_decode_X509Certificate, X509_name_accepted, X509_decode,
    CStr.strcmp0, plain, ret.
  repeat split.
  - intros cert Hn Hd. rewrite Hd.
    destruct pem_name as [nm|]; [|reflexivity].
    destruct (String.eqb nm PEM_STRING_X509_TRUSTED); [reflexivity|].
    simpl in Hn. apply orb_true_iff in Hn.
    destruct Hn as [-> | ->]; simpl; try reflexivity.
    rewrite andb_false_r. reflexivity.
  - intros Hn Hne Hd. rewrite Hd.
    destruct pem_name as [nm|]; [|reflexivity].
    destruct (String.eqb_spec nm PEM_STRING_X509_TRUSTED) as [->|_];
      [congruence|].
    simpl in Hn. apply orb_true_iff in Hn.
    destruct Hn as [-> | ->]; simpl; try reflexivity.
    rewrite andb_false_r. reflexivity.
  - intros -> Hd. rewrite Hd. reflexivity.
Qed.

(** ** The bundle handler *)

(** The search for the pass phrase, case by case. *)
Lemma PKCS12_find_pass_eq (p12 : PKCS12 C) (ui : UI_METHOD) :
  PKCS12_find_pass C p12 ui =
  if PKCS12_verify_mac C p12 (Some "")
  then (Done (Some ""), [EvVerifyMac (Some "")])
  else if PKCS12_verify_mac C p12 None
  then (Done (Some ""), [EvVerifyMac (Some ""); EvVerifyMac None])
  else match ui "PKCS12 import password" (PEM_BUFSIZE - 1)%Z with
       | UI_entered pw =>
           if PKCS12_verify_mac C p12 (Some pw)
           then (Done (Some pw),
                 [EvVerifyMac (Some ""); EvVerifyMac None;
                  EvPrompt "PKCS12 import password"; EvVerifyMac (Some pw)])
           else (Done None,
                 [EvVerifyMac (Some ""); EvVerifyMac None;
                  EvPrompt "PKCS12 import password"; EvVerifyMac (Some pw);
                  EvErr R_ERROR_VERIFYING_PKCS12_MAC])
       | UI_cancelled =>
           (Done None,
            [EvVerifyMac (Some ""); EvVerifyMac None;
             EvPrompt "PKCS12 import password";
             EvErr R_UI_PROCESS_INTERRUPTED_OR_CANCELLED;
             EvErr R_PASSPHRASE_CALLBACK_ERROR])
       | UI_error =>
           (Done None,
            [EvVerifyMac (Some ""); EvVerifyMac None;
             EvPrompt "PKCS12 import password";
             EvErr R_UI_LIB; EvErr R_PASSPHRASE_CALLBACK_ERROR])
       end.
Proof.
  unfold PKCS12_find_pass, verify_mac, file_get_pass.
  destruct (PKCS12_verify_mac C p12 (Some "")); [reflexivity|].
  destruct (PKCS12_verify_mac C p12 None); [reflexivity|].
  destruct (ui "PKCS12 import password" (PEM_BUFSIZE - 1)%Z) as [pw| |];
    try reflexivity.
  cbn. destruct (PKCS12_verify_mac C p12 (Some pw)); reflexivity.
Qed.

(** C7: the bundle handler matches only a blob without a declared name
    that parses as a container and whose MAC verified; the MAC is checked
    with the empty pass phrase, then with the null one, then with the one
    the user supplies, in this order, each only when the one before
    failed; when the user's pass phrase fails or cannot be obtained, the
    handler reports no match. *)
Theorem PKCS12_match_and_mac_order
        (pem_name pem_header : option string) (blob : bytes)
        (ui : UI_METHOD) :
  (forall i hc tr,
      @try_decode_PKCS12 C pem_name pem_header blob None ui
      = (Done (Some i, hc), tr) ->
      pem_name = None
      /\ exists p12, d2i_PKCS12 C blob = Some p12
                     /\ exists pass, PKCS12_verify_mac C p12 pass = true)
  /\ (forall p12,
      pem_name = None -> d2i_PKCS12 C blob = Some p12 ->
      let r := fst (@try_decode_PKCS12 C pem_name pem_header blob None ui) in
      let t := snd (@try_decode_PKCS12 C pem_name pem_header blob None ui) in
      if PKCS12_verify_mac C p12 (Some "")
      then t = [EvVerifyMac (Some "")]
      else if PKCS12_verify_mac C p12 None
      then t = [EvVerifyMac (Some ""); EvVerifyMac None]
      else match ui "PKCS12 import password" (PEM_BUFSIZE - 1)%Z with
           | UI_entered pw =>
               if PKCS12_verify_mac C p12 (Some pw)
               then t = [EvVerifyMac (Some ""); EvVerifyMac None;
                         EvPrompt "PKCS12 import password";
                         EvVerifyMac (Some pw)]
               else t = [EvVerifyMac (Some ""); EvVerifyMac None;
                         EvPrompt "PKCS12 import password";
                         EvVerifyMac (Some pw);
                         EvErr R_ERROR_VERIFYING_PKCS12_MAC]
                    /\ r = Done (None, None)
           | UI_cancelled =>
               t = [EvVerifyMac (Some ""); EvVerifyMac None;
                    EvPrompt "PKCS12 import password";
                    EvErr R_UI_PROCESS_INTERRUPTED_OR_CANCELLED;
                    EvErr R_PASSPHRASE_CALLBACK_ERROR]
               /\ r = Done (None, None)
           | UI_error =>
               t = [EvVerifyMac (Some ""); EvVerifyMac None;
                    EvPrompt "PKCS12 import password";
                    EvErr R_UI_LIB;
                    EvErr R_PASSPHRASE_CALLBACK_ERROR]
               /\ r = Done (None, None)
           end).
Proof.
  split.
  - intros i hc tr H. unfold try_decode_PKCS12, PKCS12_initial in H.
    destruct pem_name; [cbn in H; discriminate H|]. split; [reflexivity|].
    destruct (d2i_PKCS12 C blob) as [p12|]; [|cbn in H; discriminate H].
    exists p12. split; [reflexivity|].
    rewrite PKCS12_find_pass_eq in H.
    destruct (PKCS12_verify_mac C p12 (Some "")) eqn:E1; [eauto|].
    destruct (PKCS12_verify_mac C p12 None) eqn:E2; [eauto|].
    destruct (ui "PKCS12 import password" (PEM_BUFSIZE - 1)%Z) as [pw| |];
      try (cbn in H; discriminate H).
    destruct (PKCS12_verify_mac C p12 (Some pw)) eqn:E3; [eauto|].
    cbn in H; discriminate H.
  - intros p12 -> Hp. cbv zeta.
    unfold try_decode_PKCS12, PKCS12_initial. rewrite Hp.
    rewrite PKCS12_find_pass_eq.
    destruct (PKCS12_verify_mac C p12 (Some "")) eqn:E1.
    { cbn. destruct (PKCS12_parse C p12 "") as [[[k c] ch]|]; reflexivity. }
    destruct (PKCS12_verify_mac C p12 None) eqn:E2.
    { cbn. destruct (PKCS12_parse C p12 "") as [[[k c] ch]|]; reflexivity. }
    destruct (ui "PKCS12 import password" (PEM_BUFSIZE - 1)%Z) as [pw| |];
      try (cbn; auto; fail).
    destruct (PKCS12_verify_mac C p12 (Some pw)) eqn:E3; [|cbn; auto].
    cbn. destruct (PKCS12_parse C p12 pw) as [[[k c] ch]|]; reflexivity.
Qed.

(** ** Locators *)

Lemma localhost_only (auth rest : string) :
  slash_free auth = true ->
  (rest = "" \/ exists r, rest = String "/" r) ->
  substring 0 10 (auth ++ rest)%string = "localhost/" ->
  auth = "localhost".
Proof.
  intros Hs Hr H.
  do 10 (destruct auth as [|? auth];
         [ destruct Hr as [-> | [r ->]]; simpl in H;
           try discriminate H; try reflexivity
         | simpl in H; injection H as -> H ]);
    try (inversion H; fail).
  all: simpl in Hs; discriminate Hs.
Qed.

Lemma file_uri_path_authority (uri auth rest : string) :
  CStr.from 5 uri = ("//" ++ auth ++ rest)%string ->
  auth <> "" -> auth <> "localhost" -> slash_free auth = true ->
  (rest = "" \/ exists r, rest = String "/" r) ->
  file_uri_path uri = None.
Proof.
  intros E Hne Hnl Hs Hr. unfold file_uri_path, CStr.strncmp0. rewrite E.
  destruct (String.eqb_spec
              (substring 0 12 ("//" ++ auth ++ rest)%string)
              (substring 0 12 "//localhost/")) as [H|_].
  { exfalso. apply Hnl. apply (localhost_only auth rest Hs Hr).
    simpl in H. injection H as H. exact H. }
  destruct (String.eqb_spec
              (substring 0 3 ("//" ++ auth ++ rest)%string)
              (substring 0 3 "///")) as [H|_].
  { exfalso. destruct auth as [|c auth]; [congruence|].
    simpl in H. injection H as H _. subst c. simpl in Hs. discriminate Hs. }
  simpl. destruct (auth ++ rest)%string; reflexivity.
Qed.

(** C6: a locator with the scheme [file:] whose authority is present and
    is not [localhost] is rejected as unsupported, and one whose path does
    not start with [/] is rejected as not absolute; in both cases the only
    effect is the error, no file being opened. *)
Theorem file_open_rejects_before_io
        (win32 : bool) (fs : filesystem) (uri : string) :
  CStr.strncasecmp0 uri "file:" 5 = true ->
  (forall auth rest,
      CStr.from 5 uri = ("//" ++ auth ++ rest)%string ->
      auth <> "" -> auth <> "localhost" -> slash_free auth = true ->
      (rest = "" \/ exists r, rest = String "/" r) ->
      file_open C win32 fs uri
      = (Done None, [EvErr R_URI_AUTHORITY_UNSUPPORTED]))
  /\ (forall path,
      file_uri_path uri = Some path ->
      CStr.at_ path 0 <> "/"%char ->
      file_open C win32 fs uri
      = (Done None, [EvErr R_PATH_MUST_BE_ABSOLUTE])).
Proof.
  intros Hscheme. split.
  - intros auth rest E Hne Hnl Hs Hr. unfold file_open. rewrite Hscheme.
    rewrite (file_uri_path_authority uri auth rest E Hne Hnl Hs Hr).
    reflexivity.
  - intros path Hp Hc. unfold file_open. rewrite Hscheme, Hp.
    destruct (Ascii.eqb_spec (CStr.at_ path 0) "/") as [H|_];
      [contradiction|reflexivity].
Qed.

(** ** End of data *)

(** C9: [file_eof] answers true exactly when the sticky handler, if there
    is one, has nothing left and the stream is exhausted; while the bundle
    handler still holds an object the answer is false wherever the stream
    stands. *)
Theorem file_eof_at_end (ctx : OSSL_STORE_LOADER_CTX C) :
  (forall h, last_handler ctx = Some h -> eof h <> None) ->
  (exists b, file_eof ctx = (Done b, [])
             /\ (b = true <->
                 sticky_drained ctx /\ BIO_eof (file ctx) = true))
  /\ (forall i l,
      last_handler ctx = Some (PKCS12_handler C) ->
      last_handler_ctx ctx = Some (i :: l) ->
      file_eof ctx = (Done false, [])).
Proof.
  intros Hwf. split.
  - unfold file_eof, sticky_drained.
    destruct (last_handler ctx) as [h|] eqn:Eh.
    + specialize (Hwf h eq_refl).
      destruct (eof h) as [e|] eqn:Ee; [|congruence].
      destruct (e (last_handler_ctx ctx)) eqn:Ev; simpl.
      * exists (BIO_eof (file ctx)). split; [reflexivity|].
        split; [intros ->; split; eauto | tauto].
      * exists false. split; [reflexivity|].
        split; [discriminate|].
        intros [[e' [He' Hv]] _]. congruence.
    + exists (BIO_eof (file ctx)). split; [reflexivity|]. tauto.
  - intros i l Hh Hc. unfold file_eof. rewrite Hh, Hc. reflexivity.
Qed.

(** ** The sticky handler comes first *)

(** C4: [file_load] first asks the sticky handler; an object it yields is
    returned at once, the handler staying in place and the stream
    untouched, whatever the error counter; when it yields nothing its state
    is torn down, and only then is the error counter read: if it is not
    zero, no object is returned and the stream is not read. *)
Theorem file_load_sticky_first
        (fuel : nat) (ctx : OSSL_STORE_LOADER_CTX C) (ui : UI_METHOD) :
  (forall h i hc tr,
      last_handler ctx = Some h ->
      try_decode h None None [] (last_handler_ctx ctx) ui
      = (Done (Some i, hc), tr) ->
      file_load fuel ctx ui
      = (Done (Some i, set_sticky ctx (Some h) hc), tr))
  /\ (forall h hc tr destroy hc' tr',
      last_handler ctx = Some h ->
      try_decode h None None [] (last_handler_ctx ctx) ui
      = (Done (None, hc), tr) ->
      destroy_ctx h = Some destroy ->
      destroy hc = (Done hc', tr') ->
      (0 < errcnt ctx)%Z ->
      file_load fuel ctx ui
      = (Done (None, set_sticky ctx None None), tr ++ tr'))
  /\ (last_handler ctx = None ->
      (0 < errcnt ctx)%Z ->
      file_load fuel ctx ui = (Done (None, ctx), [])).
Proof.
  repeat split.
  - intros h i hc tr Hh Hd. unfold file_load, file_load_try_repeat.
    rewrite Hh, Hd. cbn. rewrite !app_nil_r. reflexivity.
  - intros h hc tr destroy hc' tr' Hh Hd Hy Hdd Herr.
    unfold file_load, file_load_try_repeat, call_destroy_ctx.
    rewrite Hh, Hd, Hy. cbn. rewrite Hdd. cbn.
    unfold file_load_read, file_error. cbn.
    apply Z.ltb_lt in Herr. rewrite Herr. cbn.
    rewrite !app_nil_r. reflexivity.
  - intros Hh Herr. unfold file_load, file_load_try_repeat.
    rewrite Hh. cbn. unfold file_load_read, file_error.
    apply Z.ltb_lt in Herr. rewrite Herr. reflexivity.
Qed.

(** ** The dispatch engine on the registry *)

Lemma plain_handlers_spec : Forall (@plain_spec C) (plain_handlers C).
Proof.
  unfold plain_handlers.
  repeat constructor; intros pn ph data hc ui; cbn.
  - unfold try_decode_X509Certificate, plain.
    destruct pn as [nm|].
    + destruct (CStr.strcmp0 nm PEM_STRING_X509_TRUSTED).
      * destruct (X509_decode C false data); eexists; split;
          try reflexivity; cbn; intros i Hi; inversion Hi; reflexivity.
      * destruct (negb (CStr.strcmp0 nm PEM_STRING_X509_OLD)
                  && negb (CStr.strcmp0 nm PEM_STRING_X509)).
        -- eexists; split; [reflexivity|discriminate].
        -- destruct (X509_decode C true data); eexists; split;
             try reflexivity; cbn; intros i Hi; inversion Hi; reflexivity.
    + destruct (X509_decode C true data); eexists; split;
        try reflexivity; cbn; intros i Hi; inversion Hi; reflexivity.
  - unfold try_decode_X509CRL, plain.
    destruct pn as [nm|];
      [destruct (negb (CStr.strcmp0 nm PEM_STRING_X509_CRL))|];
      try (eexists; split; [reflexivity|discriminate]);
      destruct (d2i_X509_CRL C data); eexists; split;
        try reflexivity; cbn; intros i Hi; inversion Hi; reflexivity.
  - unfold try_decode_params, plain.
    match goal with
    | |- context [option_map _ ?k] => destruct k
    end; eexists; split;
      try reflexivity; cbn; intros i Hi; inversion Hi; reflexivity.
  - unfold try_decode_PUBKEY, plain.
    destruct pn as [nm|];
      [destruct (negb (CStr.strcmp0 nm PEM_STRING_PUBLIC))|];
      try (eexists; split; [reflexivity|discriminate]);
      destruct (d2i_PUBKEY C data); eexists; split;
        try reflexivity; cbn; intros i Hi; inversion Hi; reflexivity.
  - unfold try_decode_PrivateKey, plain.
    match goal with
    | |- context [match ?k with Some _ => _ | None => _ end] => destruct k
    end; eexists; split;
      try reflexivity; cbn; intros i Hi; inversion Hi; reflexivity.
Qed.

(** One step of the loop, for a handler that is not repeatable. *)
Lemma try_handler_plain (h : FILE_HANDLER C) pn ph data ui
      (st : pass_state C) :
  plain_spec h ->
  exists r,
    try_decode h pn ph data None ui = (Done (r, None), [])
    /\ (forall i, r = Some i -> is_EMBEDDED i = false)
    /\ try_handler pn ph data ui st h =
       match r with
       | None => (Done st, [EvErr R_IS_NOT_A; EvErrData (name h)])
       | Some i =>
           match handler_ctx_ st with
           | Some _ => (NullCall, [])
           | None =>
               if (matchcount st + 1 =? 1)%Z
               then (Done {| result := Some i; handler_ctx_ := None;
                             matchcount := matchcount st + 1;
                             matching_handlers :=
                               matching_handlers st ++ [h] |}, [])
               else (Done {| result := None; handler_ctx_ := None;
                             matchcount := matchcount st + 1;
                             matching_handlers :=
                               matching_handlers st ++ [h] |},
                     snd (OSSL_STORE_INFO_free (result st))
                         ++ [EvInfoFree i])
           end
       end.
Proof.
  intros (Hd & _ & Hdec).
  destruct (Hdec pn ph data None ui) as (r & Hr & He).
  exists r. split; [exact Hr|]. split; [exact He|].
  unfold try_handler, call_destroy_ctx. rewrite Hr, Hd.
  destruct r as [i|]; [|reflexivity].
  destruct (handler_ctx_ st) as [l|]; [reflexivity|].
  cbn. destruct (matchcount st + 1 =? 1)%Z; [reflexivity|].
  destruct (result st); reflexivity.
Qed.

Lemma try_handler_plain_st (h : FILE_HANDLER C) pn ph data ui
      (st : pass_state C) :
  plain_spec h -> plain_st st ->
  exists st' tr,
    try_handler pn ph data ui st h = (Done st', tr)
    /\ plain_st st' /\ (matchcount st <= matchcount st')%Z.
Proof.
  intros Hh Hst.
  destruct (try_handler_plain h pn ph data ui st Hh) as (r & _ & He & ->).
  destruct Hst as (Hc & Hge & H0 & Hpos & Hres & Hamb).
  destruct r as [i|].
  - rewrite Hc.
    destruct (Z.eqb_spec (matchcount st + 1) 1) as [E|E].
    + assert (E0 : matchcount st = 0%Z) by lia.
      destruct (H0 E0) as [Hr Hm].
      eexists _, _. split; [reflexivity|]. split; [|cbn; lia].
      unfold plain_st; cbn. rewrite Hm. cbn.
      repeat split; try lia.
      * exists h, []. split; [reflexivity|]. apply Hh.
      * intros j Hj. inversion Hj; subst. apply He. reflexivity.
    + eexists _, _. split; [reflexivity|]. split; [|cbn; lia].
      unfold plain_st; cbn.
      repeat split; try lia; try discriminate.
      intros _. destruct (Hpos ltac:(lia)) as (h0 & rest & Hm & Hrep).
      rewrite Hm. exists h0, (rest ++ [h]). split; [reflexivity|exact Hrep].
  - eexists _, _. split; [reflexivity|]. split; [|lia].
    unfold plain_st. auto 10.
Qed.

Lemma try_handlers_plain_st (hs : list (FILE_HANDLER C)) pn ph data ui :
  Forall (@plain_spec C) hs ->
  forall st, plain_st st ->
  exists st' tr,
    try_handlers hs pn ph data ui st = (Done st', tr)
    /\ plain_st st' /\ (matchcount st <= matchcount st')%Z.
Proof.
  induction 1 as [|h hs Hh Hhs IH]; intros st Hst.
  - exists st, []. split; [reflexivity|]. split; [exact Hst|lia].
  - destruct (try_handler_plain_st h pn ph data ui st Hh Hst)
      as (st1 & tr1 & E1 & Hst1 & Hle1).
    destruct (IH st1 Hst1) as (st2 & tr2 & E2 & Hst2 & Hle2).
    exists st2, (tr1 ++ tr2). split; [|split; [exact Hst2|lia]].
    cbn. rewrite (bind_Done _ _ st1 tr1 E1), E2. reflexivity.
Qed.

(** Once the bundle handler has matched, a further match ends in a call
    through the NULL [destroy_ctx] of the matching handler. *)
Lemma try_handlers_bundle_st (hs : list (FILE_HANDLER C)) pn ph data ui
      (st : pass_state C) l :
  Forall (@plain_spec C) hs ->
  handler_ctx_ st = Some l ->
  (Forall (fun h => no_match h pn ph data ui) hs
   /\ try_handlers hs pn ph data ui st = (Done st, not_a hs))
  \/ (exists tr, try_handlers hs pn ph data ui st = (NullCall, tr)).
Proof.
  intros Hhs Hc. induction Hhs as [|h hs Hh Hhs IH].
  - left. split; [constructor|reflexivity].
  - destruct (try_handler_plain h pn ph data ui st Hh) as (r & Hr & _ & E).
    cbn. destruct r as [i|].
    + right. rewrite Hc in E. rewrite E. cbn. eauto.
    + rewrite (bind_Done _ _ st _ E).
      destruct IH as [[Hall E2]|[tr E2]]; rewrite E2.
      * left. split; [constructor; assumption|reflexivity].
      * right. cbn. eauto.
Qed.

Lemma try_handlers_no_match (hs : list (FILE_HANDLER C)) pn ph data ui
      (st : pass_state C) :
  Forall (fun h => no_match h pn ph data ui) hs ->
  try_handlers hs pn ph data ui st = (Done st, not_a hs).
Proof.
  induction 1 as [|h hs Hh Hhs IH]; [reflexivity|].
  cbn. unfold try_handler. rewrite Hh. cbn. rewrite IH. reflexivity.
Qed.

Lemma PKCS12_initial_cases pn data ui :
  exists tr,
    PKCS12_initial C pn data ui = (Done None, tr)
    \/ exists k c ch,
        PKCS12_initial C pn data ui
        = (Done (Some (INFO_PKEY k :: INFO_CERT c :: map INFO_CERT ch)), tr).
Proof.
  unfold PKCS12_initial.
  destruct pn; [exists []; left; reflexivity|].
  destruct (d2i_PKCS12 C data) as [p12|]; [|exists []; left; reflexivity].
  destruct (PKCS12_find_pass C p12 ui) as [[[pw|]| | |] tr] eqn:E;
    try (rewrite PKCS12_find_pass_eq in E;
         repeat match type of E with
                | (if ?b then _ else _) = _ => destruct b
                | match ?u with UI_entered _ => _ | _ => _ end = _ =>
                    destruct u
                end; discriminate E).
  - cbn. destruct (PKCS12_parse C p12 pw) as [[[k c] ch]|].
    + exists (tr ++ []). right. exists k, c, ch. reflexivity.
    + exists (tr ++ []). left. reflexivity.
  - exists (tr ++ []). left. reflexivity.
Qed.

(** The step of the loop for the bundle handler, first in the registry. *)
Lemma try_handler_PKCS12 pn ph data ui :
  (forall tr,
      PKCS12_initial C pn data ui = (Done None, tr) ->
      try_handler pn ph data ui (pass_init C) (PKCS12_handler C)
      = (Done (pass_init C), tr ++ [EvErr R_IS_NOT_A; EvErrData "PKCS12"]))
  /\ (forall i l tr,
      PKCS12_initial C pn data ui = (Done (Some (i :: l)), tr) ->
      try_handler pn ph data ui (pass_init C) (PKCS12_handler C)
      = (Done (bundle_st i l), tr)).
Proof.
  split.
  - intros tr E. unfold try_handler. cbn. rewrite E. cbn.
    rewrite app_nil_r. reflexivity.
  - intros i l tr E. unfold try_handler. cbn. rewrite E. cbn.
    rewrite !app_nil_r. reflexivity.
Qed.

Lemma plain_st_init : plain_st (pass_init C).
Proof.
  unfold plain_st, pass_init; cbn.
  repeat split; try lia; discriminate.
Qed.

Lemma file_handlers_eq :
  file_handlers C = PKCS12_handler C :: plain_handlers C.
Proof. reflexivity. Qed.

Lemma try_handlers_cons h hs pn ph data ui (st : pass_state C) :
  try_handlers (h :: hs) pn ph data ui st
  = bind (try_handler pn ph data ui st h)
         (fun st' => try_handlers hs pn ph data ui st').
Proof. reflexivity. Qed.

(** What one pass over the registry comes to. *)
Lemma dispatch_pass_registry (ctx : OSSL_STORE_LOADER_CTX C) pn ph data ui :
  exists tr,
    dispatch_pass (file_handlers C) (Some ctx) pn ph data ui = (NullCall, tr)
    \/ exists res ctx' mc,
        dispatch_pass (file_handlers C) (Some ctx) pn ph data ui
        = (Done (res, Some ctx', mc), tr)
        /\ (forall i, res = Some i -> is_EMBEDDED i = false)
        /\ ((ctx' = ctx /\ (0 <= mc)%Z /\ (mc <> 1%Z -> res = None))
            \/ (exists l, ctx' = set_sticky ctx (Some (PKCS12_handler C))
                                            (Some l)
                          /\ mc = 1%Z /\ res <> None)).
Proof.
  unfold dispatch_pass. rewrite file_handlers_eq, try_handlers_cons.
  destruct (PKCS12_initial_cases pn data ui) as [tr0 [E|(k & c & ch & E)]].
  - rewrite (bind_Done _ _ _ _
               (proj1 (try_handler_PKCS12 pn ph data ui) tr0 E)).
    destruct (try_handlers_plain_st (plain_handlers C) pn ph data ui
                plain_handlers_spec (pass_init C) plain_st_init)
      as (st & tr & Et & (Hc & Hge & H0 & Hpos & Hres & Hamb) & _).
    rewrite Et. cbn [fst snd].
    rewrite (bind_Done _ _ _ _ eq_refl). cbn [fst snd].
    unfold after_handlers.
    destruct (Z.ltb_spec 1 (matchcount st)) as [Hlt|Hlt].
    + rewrite bind_emit.
      destruct (Z.eqb_spec (matchcount st) 0) as [Hz|Hz]; [lia|].
      destruct (Hpos ltac:(lia)) as (h0 & rest & Hm & Hrep).
      rewrite Hm, Hrep. cbn. eexists. right.
      exists (result st), ctx, (matchcount st).
      split; [reflexivity|]. split; [exact Hres|].
      left. repeat split; try lia. intros _. apply Hamb. lia.
    + rewrite bind_ret_l.
      destruct (Z.eqb_spec (matchcount st) 0) as [Hz|Hz].
      * cbn. eexists. right. exists (result st), ctx, (matchcount st).
        split; [reflexivity|]. split; [exact Hres|].
        left. repeat split; try lia. intros _. apply H0. exact Hz.
      * destruct (Hpos ltac:(lia)) as (h0 & rest & Hm & Hrep).
        rewrite Hm, Hrep. cbn. eexists. right.
        exists (result st), ctx, (matchcount st).
        split; [reflexivity|]. split; [exact Hres|].
        left. repeat split; try lia.
  - rewrite (bind_Done _ _ _ _
               (proj2 (try_handler_PKCS12 pn ph data ui) _ _ tr0 E)).
    destruct (try_handlers_bundle_st (plain_handlers C) pn ph data ui
                (bundle_st (INFO_PKEY k) (INFO_CERT c :: map INFO_CERT ch))
                _ plain_handlers_spec eq_refl) as [[_ Et]|[tr Et]];
      rewrite Et; cbn [fst snd].
    + cbn. eexists. right. eexists _, _, _.
      split; [reflexivity|]. split.
      * intros i Hi. inversion Hi. reflexivity.
      * right. eexists. split; [reflexivity|]. split; [reflexivity|].
        discriminate.
    + cbn. eexists. left. reflexivity.
Qed.

Lemma file_load_try_decode_S handlers fuel octx pn ph data ui :
  @file_load_try_decode_with C handlers (S fuel) octx pn ph data ui
  = bind (dispatch_pass handlers octx pn ph data ui)
         (fun p =>
            let '(res, ctx', mc) := p in
            match res with
            | Some (INFO_EMBEDDED new_pem_name new_mem) =>
                file_load_try_decode_with handlers fuel ctx' new_pem_name
                                          ph new_mem ui
            | Some r => emit EvErrClear ;;; ret (Some r, ctx', mc)
            | None => ret (None, ctx', mc)
            end).
Proof. reflexivity. Qed.

(** A dispatch over the registry ends after its first pass. *)
Lemma file_load_try_decode_registry
      fuel (ctx : OSSL_STORE_LOADER_CTX C) pn ph data ui :
  exists tr,
    file_load_try_decode (S fuel) (Some ctx) pn ph data ui = (NullCall, tr)
    \/ exists res ctx' mc,
        file_load_try_decode (S fuel) (Some ctx) pn ph data ui
        = (Done (res, Some ctx', mc), tr)
        /\ (forall i, res = Some i -> is_EMBEDDED i = false)
        /\ ((ctx' = ctx /\ (0 <= mc)%Z /\ (mc <> 1%Z -> res = None))
            \/ (exists l, ctx' = set_sticky ctx (Some (PKCS12_handler C))
                                            (Some l)
                          /\ mc = 1%Z /\ res <> None)).
Proof.
  unfold file_load_try_decode. rewrite file_load_try_decode_S.
  destruct (dispatch_pass_registry ctx pn ph data ui)
    as [tr [E|(res & ctx' & mc & E & Hemb & Hcases)]]; rewrite E.
  - exists tr. left. reflexivity.
  - destruct res as [i|].
    + specialize (Hemb i eq_refl).
      destruct i; try discriminate Hemb;
        (eexists; right; eexists _, ctx', mc;
         split; [reflexivity|]; split; [|exact Hcases];
         intros j Hj; inversion Hj; reflexivity).
    + eexists; right; exists None, ctx', mc.
      split; [reflexivity|]. split; [discriminate|exact Hcases].
Qed.

Lemma read_Done (ctx : OSSL_STORE_LOADER_CTX C) ui :
  exists b rest tr,
    (if is_pem ctx then file_read_pem C (file ctx) ui
     else file_read_asn1 C (file ctx)) = (Done (b, rest), tr).
Proof.
  destruct (if is_pem ctx then file_read_pem C (file ctx) ui
            else file_read_asn1 C (file ctx)) as [[[b rest]| | |] tr] eqn:E;
    [eauto | exfalso | exfalso | exfalso].
  all: destruct (is_pem ctx);
    [ unfold file_read_pem in E;
      destruct (file ctx) as [|[nm hd d| |] rest]; try discriminate E;
      rewrite bind_emit in E;
      destruct (10 <? String.length hd)%nat; [|discriminate E];
      destruct (PEM_get_EVP_CIPHER_INFO C hd) as [ci|]; [|discriminate E];
      unfold PEM_do_header, file_get_pem_pass, file_get_pass in E;
      destruct (cipher ci); [|discriminate E];
      rewrite bind_emit in E;
      destruct (ui "PEM" (PEM_BUFSIZE - 1)%Z) as [pw| |]; cbn in E;
      try discriminate E;
      destruct (Z.of_nat (String.length pw) <=? 0)%Z; cbn in E;
      try discriminate E;
      destruct (PEM_decrypt C ci d pw); discriminate E
    | unfold file_read_asn1 in E;
      destruct (file ctx) as [|[| |] rest]; discriminate E ].
Qed.

(** ** The sticky pair across [file_load] *)

Lemma file_eof_sticky_none (ctx : OSSL_STORE_LOADER_CTX C) :
  sticky_none ctx -> file_eof ctx = (Done (BIO_eof (file ctx)), []).
Proof.
  intros [Hh _]. unfold file_eof. rewrite Hh. reflexivity.
Qed.

Lemma file_load_body_sticky fuel ui res ctx mc res' ctx' mc' tr :
  sticky_none ctx ->
  @file_load_body C fuel ui (res, ctx, mc) = (Done (res', ctx', mc'), tr) ->
  sticky_none ctx'
  \/ (sticky_bundle ctx' /\ mc' = 1%Z /\ res' <> None).
Proof.
  intros Hs H. unfold file_load_body in H.
  destruct (read_Done ctx ui) as (b & rest & tr0 & Er).
  rewrite (bind_Done _ _ _ _ Er) in H. cbn [fst snd] in H.
  assert (Hs1 : sticky_none (set_file ctx rest)) by exact Hs.
  destruct b as [[[pn ph] data]|].
  - destruct fuel as [|fuel].
    { cbn in H. inversion H. }
    destruct (file_load_try_decode_registry fuel (set_file ctx rest)
                pn ph data ui)
      as [tr1 [E|(r & c & m & E & _ & Hcases)]]; rewrite E in H.
    { cbn in H. inversion H. }
    cbn in H. inversion H; subst.
    destruct Hcases as [(-> & _ & _)|(l & -> & -> & Hr)].
    + left. exact Hs1.
    + right. split; [|split; [reflexivity|exact Hr]].
      split; [reflexivity|]. exists l. reflexivity.
  - rewrite (file_eof_sticky_none _ Hs1) in H. cbn in H.
    inversion H; subst. left.
    destruct (BIO_eof rest); exact Hs.
Qed.

Lemma file_load_again_true (st : load_state C) tr :
  file_load_again st = (Done true, tr) -> snd st = 0%Z.
Proof.
  destruct st as [[res ctx] mc]. unfold file_load_again. cbn.
  destruct (Z.eqb_spec mc 0) as [E|E]; [auto|discriminate].
Qed.

Lemma file_load_loop_sticky iters :
  forall fuel ui res ctx mc res' ctx' mc' tr,
    sticky_none ctx ->
    @file_load_loop C iters fuel ui (res, ctx, mc)
    = (Done (res', ctx', mc'), tr) ->
    sticky_none ctx'
    \/ (sticky_bundle ctx' /\ mc' = 1%Z /\ res' <> None).
Proof.
  induction iters as [|iters IH]; intros fuel ui res ctx mc res' ctx' mc' tr
    Hs H.
  - discriminate H.
  - cbn [file_load_loop] in H.
    apply bind_Done_inv in H.
    destruct H as ([[r1 c1] m1] & t1 & t2 & Eb & H & _).
    apply bind_Done_inv in H.
    destruct H as (again & t3 & t4 & Ea & H & _).
    pose proof (file_load_body_sticky _ _ _ _ _ _ _ _ _ Hs Eb) as Hb.
    destruct again.
    + apply file_load_again_true in Ea. cbn in Ea. subst m1.
      destruct Hb as [Hb|(_ & Hm & _)]; [|discriminate Hm].
      exact (IH _ _ _ _ _ _ _ _ _ Hb H).
    + inversion H; subst. exact Hb.
Qed.

Lemma file_load_try_repeat_cases (ctx : OSSL_STORE_LOADER_CTX C) ui :
  sticky_inv ctx ->
  (sticky_none ctx /\ file_load_try_repeat ctx ui = (Done (None, ctx), []))
  \/ (exists i l,
        last_handler ctx = Some (PKCS12_handler C)
        /\ last_handler_ctx ctx = Some (i :: l)
        /\ file_load_try_repeat ctx ui
           = (Done (Some i, set_sticky ctx (Some (PKCS12_handler C))
                                       (Some l)), []))
  \/ (last_handler ctx = Some (PKCS12_handler C)
      /\ last_handler_ctx ctx = Some []
      /\ file_load_try_repeat ctx ui
         = (Done (None, set_sticky ctx None None), [EvStackPopFree []])).
Proof.
  intros [[Hh Hc]|[Hh [l Hc]]].
  - left. split; [split; assumption|].
    unfold file_load_try_repeat. rewrite Hh. reflexivity.
  - right. unfold file_load_try_repeat. rewrite Hh, Hc.
    destruct l as [|i l].
    + right. repeat split; reflexivity.
    + left. exists i, l. repeat split; reflexivity.
Qed.

Lemma file_open_sticky win32 fs uri ctx tr :
  file_open C win32 fs uri = (Done (Some ctx), tr) -> sticky_none ctx.
Proof.
  assert (Hp : forall path,
             file_open_path C fs path = (Done (Some ctx), tr) ->
             sticky_none ctx).
  { intros path H. unfold file_open_path in H. rewrite bind_emit in H.
    destruct (fs path); cbn in H; inversion H; subst.
    split; reflexivity. }
  unfold file_open.
  destruct (CStr.strncasecmp0 uri "file:" 5); [|apply Hp].
  destruct (file_uri_path uri) as [path|]; [|discriminate].
  destruct (negb (Ascii.eqb (CStr.at_ path 0) "/")); [discriminate|].
  destruct (win32_path win32 path); [apply Hp|discriminate].
Qed.

Lemma file_load_read_sticky fuel (c : OSSL_STORE_LOADER_CTX C) ui r ctx' t :
  sticky_none c ->
  file_load_read fuel c ui = (Done (r, ctx'), t) ->
  sticky_inv ctx' /\ (sticky_bundle ctx' -> r <> None).
Proof.
  intros Hc Hl. unfold file_load_read in Hl.
  destruct (file_error c).
  - inversion Hl; subst. split; [left; exact Hc|].
    intros [Hb _]. destruct Hc as [Hc _]. congruence.
  - apply bind_Done_inv in Hl.
    destruct Hl as ([[res2 c2] m2] & t1 & t2 & El & Hl & _).
    apply file_load_loop_sticky in El; [|exact Hc].
    destruct El as [Hn|(Hb & -> & Hr)].
    + assert (c2 = ctx') by (destruct (1 <? m2)%Z; inversion Hl; auto).
      subst c2. split; [left; exact Hn|].
      intros [Hb _]. destruct Hn as [Hn _]. congruence.
    + cbn in Hl. inversion Hl; subst. split; [right; exact Hb|auto].
Qed.

(** What a call of [file_load] does to a sticky pair that is empty or the
    bundle handler's. *)
Lemma file_load_sticky_inv fuel (ctx : OSSL_STORE_LOADER_CTX C) ui r ctx' tr :
  sticky_inv ctx ->
  file_load fuel ctx ui = (Done (r, ctx'), tr) ->
  sticky_inv ctx'
  /\ (forall l0,
         last_handler_ctx ctx = Some l0 ->
         (exists i l, l0 = i :: l /\ r = Some i
                      /\ last_handler ctx' = last_handler ctx
                      /\ last_handler_ctx ctx' = Some l /\ tr = [])
         \/ (l0 = [] /\ exists tr', tr = EvStackPopFree [] :: tr'))
  /\ (sticky_bundle ctx' -> r <> None).
Proof.
  intros Hinv H. unfold file_load in H.
  apply bind_Done_inv in H. destruct H as ([r1 c1] & t1 & t2 & E1 & H & ->).
  destruct (file_load_try_repeat_cases ctx ui Hinv)
    as [[Hn E]|[(i & l & Hh & Hc & E)|(Hh & Hc & E)]];
    rewrite E in E1; inversion E1; subst; clear E1.
  - destruct (file_load_read_sticky _ _ _ _ _ _ Hn H) as [Hi Hb].
    split; [exact Hi|]. split; [|exact Hb].
    intros l0 Hl0. destruct Hn as [_ Hn]. congruence.
  - inversion H; subst. split; [|split].
    + right. split; [reflexivity|]. exists l. reflexivity.
    + intros l0 Hl0. left. exists i, l.
      rewrite Hc in Hl0. inversion Hl0; subst.
      repeat split; try reflexivity. cbn. symmetry. exact Hh.
    + discriminate.
  - destruct (file_load_read_sticky _ (set_sticky ctx None None) _ _ _ _
                ltac:(split; reflexivity) H) as [Hi Hb].
    split; [exact Hi|]. split; [|exact Hb].
    intros l0 Hl0. right. rewrite Hc in Hl0. inversion Hl0; subst.
    split; [reflexivity|]. cbn. eauto.
Qed.

Lemma reachable_sticky_inv (ctx : OSSL_STORE_LOADER_CTX C) :
  reachable ctx -> sticky_inv ctx.
Proof.
  induction 1 as [win32 fs uri ctx tr H|fuel ctx ui r ctx' tr _ IH H].
  - left. exact (file_open_sticky _ _ _ _ _ H).
  - exact (proj1 (file_load_sticky_inv _ _ _ _ _ _ IH H)).
Qed.

(** C10: the sticky pair is consistent in every state the loader reaches.
    [file_open] leaves both components null; a call of [file_load] that
    returns leaves the pair empty or holding the bundle handler with its
    stack, and a stack held before the call is either the one still held
    afterwards, one object shorter, or was empty and has been destroyed by
    the bundle handler's destroy function; [file_close] destroys a stack
    that is held and nulls both components before it releases the stream
    and the loader. *)
Theorem sticky_pair_invariant :
  (forall win32 fs uri (ctx : OSSL_STORE_LOADER_CTX C) tr,
      file_open C win32 fs uri = (Done (Some ctx), tr) ->
      last_handler ctx = None /\ last_handler_ctx ctx = None)
  /\ (forall fuel (ctx : OSSL_STORE_LOADER_CTX C) ui r ctx' tr,
      sticky_inv ctx ->
      file_load fuel ctx ui = (Done (r, ctx'), tr) ->
      sticky_inv ctx'
      /\ forall l0,
          last_handler_ctx ctx = Some l0 ->
          (exists i l, l0 = i :: l /\ r = Some i
                       /\ last_handler ctx' = last_handler ctx
                       /\ last_handler_ctx ctx' = Some l /\ tr = [])
          \/ (l0 = [] /\ exists tr', tr = EvStackPopFree [] :: tr'))
  /\ (forall ctx : OSSL_STORE_LOADER_CTX C,
      sticky_inv ctx ->
      let tr := match last_handler_ctx ctx with
                | Some l => [EvStackPopFree l]
                | None => []
                end in
      file_close_sticky ctx = (Done (set_sticky ctx None None), tr)
      /\ file_close ctx = (Done 1%Z, tr ++ [EvBIOFree; EvCtxFree]))
  /\ (forall ctx : OSSL_STORE_LOADER_CTX C,
      reachable ctx -> sticky_inv ctx /\ sticky_consistent ctx).
Proof.
  repeat apply conj.
  - intros win32 fs uri ctx tr H. exact (file_open_sticky _ _ _ _ _ H).
  - intros fuel ctx ui r ctx' tr Hinv H.
    destruct (file_load_sticky_inv _ _ _ _ _ _ Hinv H) as (Hi & Hl & _).
    split; assumption.
  - intros ctx [[Hh Hc]|[Hh [l Hc]]]; cbv zeta; unfold file_close.
    + assert (E : file_close_sticky ctx
                  = (Done (set_sticky ctx None None), [])).
      { unfold file_close_sticky. rewrite Hh.
        destruct ctx; cbn in *; subst; reflexivity. }
      rewrite Hc, E. split; reflexivity.
    + assert (E : file_close_sticky ctx
                  = (Done (set_sticky ctx None None), [EvStackPopFree l])).
      { unfold file_close_sticky. rewrite Hh, Hc. reflexivity. }
      rewrite Hc, E. split; reflexivity.
  - intros ctx Hr. pose proof (reachable_sticky_inv ctx Hr) as Hi.
    split; [exact Hi|].
    destruct Hi as [[_ Hc]|[Hh _]]; intros Hn; congruence.
Qed.

(** ** The unwrap loop *)

Lemma try_handlers_registry pn ph data ui :
  exists tr,
    try_handlers (file_handlers C) pn ph data ui (pass_init C)
    = (NullCall, tr)
    \/ exists st,
        try_handlers (file_handlers C) pn ph data ui (pass_init C)
        = (Done st, tr)
        /\ (plain_st st
            \/ exists k l, st = bundle_st (INFO_PKEY k) l).
Proof.
  rewrite file_handlers_eq, try_handlers_cons.
  destruct (PKCS12_initial_cases pn data ui) as [tr0 [E|(k & c & ch & E)]].
  - rewrite (bind_Done _ _ _ _
               (proj1 (try_handler_PKCS12 pn ph data ui) tr0 E)).
    destruct (try_handlers_plain_st (plain_handlers C) pn ph data ui
                plain_handlers_spec (pass_init C) plain_st_init)
      as (st & tr & Et & Hst & _).
    rewrite Et. eexists. right. exists st. split; [reflexivity|].
    left. exact Hst.
  - rewrite (bind_Done _ _ _ _
               (proj2 (try_handler_PKCS12 pn ph data ui) _ _ tr0 E)).
    destruct (try_handlers_bundle_st (plain_handlers C) pn ph data ui
                (bundle_st (INFO_PKEY k) (INFO_CERT c :: map INFO_CERT ch))
                _ plain_handlers_spec eq_refl) as [[_ Et]|[tr Et]];
      rewrite Et; cbn [fst snd].
    + eexists. right. eexists. split; [reflexivity|]. right. eauto.
    + eexists. left. reflexivity.
Qed.

Lemma after_handlers_no_embedded octx (st : pass_state C) :
  (forall i, result st = Some i -> is_EMBEDDED i = false) ->
  exists res octx' tr,
    after_handlers octx st = (Done (res, octx'), tr)
    /\ forall i, res = Some i -> is_EMBEDDED i = false.
Proof.
  intros Hres. unfold after_handlers.
  assert (Hk : forall (pre : M C unit) t,
             pre = (Done tt, t) ->
             exists res octx' tr,
               pre ;;;
               (if (matchcount st =? 0)%Z
                then emit (EvErr R_UNSUPPORTED_CONTENT_TYPE) ;;;
                     ret (result st, octx)
                else match matching_handlers st with
                     | h0 :: _ =>
                         if repeatable h0
                         then match octx with
                              | None =>
                                  emit (EvErr R_UNSUPPORTED_CONTENT_TYPE) ;;;
                                  OSSL_STORE_INFO_free (result st) ;;;
                                  ret (None, octx)
                              | Some c =>
                                  ret (result st,
                                       Some (set_sticky c (Some h0)
                                                        (handler_ctx_ st)))
                              end
                         else ret (result st, octx)
                     | [] => ret (result st, octx)
                     end) = (Done (res, octx'), tr)
               /\ forall i, res = Some i -> is_EMBEDDED i = false).
  { intros pre t ->.
    destruct (matchcount st =? 0)%Z.
    { eexists _, _, _. split; [reflexivity|exact Hres]. }
    destruct (matching_handlers st) as [|h0 rest].
    { eexists _, _, _. split; [reflexivity|exact Hres]. }
    destruct (repeatable h0).
    - destruct octx as [c|].
      + eexists _, _, _. split; [reflexivity|exact Hres].
      + destruct (result st); eexists _, _, _;
          (split; [reflexivity|discriminate]).
    - eexists _, _, _. split; [reflexivity|exact Hres]. }
  destruct (1 <? matchcount st)%Z; eapply Hk; reflexivity.
Qed.

(** On the registry a pass never hands back an embedded blob. *)
Lemma dispatch_pass_no_embedded octx pn ph data ui :
  exists tr,
    dispatch_pass (file_handlers C) octx pn ph data ui = (NullCall, tr)
    \/ exists res octx' mc,
        dispatch_pass (file_handlers C) octx pn ph data ui
        = (Done (res, octx', mc), tr)
        /\ forall i, res = Some i -> is_EMBEDDED i = false.
Proof.
  unfold dispatch_pass.
  destruct (try_handlers_registry pn ph data ui)
    as [tr [E|(st & E & Hst)]]; rewrite E.
  - exists tr. left. reflexivity.
  - assert (Hres : forall i, result st = Some i -> is_EMBEDDED i = false).
    { destruct Hst as [(_ & _ & _ & _ & Hres & _)|(k & l & ->)];
        [exact Hres|].
      intros i Hi. inversion Hi. reflexivity. }
    destruct (after_handlers_no_embedded octx st Hres)
      as (res & octx' & tr' & Ea & He).
    cbn. rewrite Ea. cbn. eexists. right.
    exists res, octx', (matchcount st). split; [reflexivity|exact He].
Qed.

(** C2, as the code has it: an embedded result is dispatched again with
    its inner name and bytes whatever their size, no error being raised
    for an unwrap that does not shrink the blob; over the registered
    handlers, none of which yields an embedded result, every dispatch is
    over after one pass. *)
Theorem unwrap_loop_redispatches :
  (forall handlers fuel octx pn ph data ui new_pem_name new_mem octx' mc tr,
      @dispatch_pass C handlers octx pn ph data ui
      = (Done (Some (INFO_EMBEDDED new_pem_name new_mem), octx', mc), tr) ->
      file_load_try_decode_with handlers (S fuel) octx pn ph data ui
      = (fst (file_load_try_decode_with handlers fuel octx' new_pem_name
                                        ph new_mem ui),
         tr ++ snd (file_load_try_decode_with handlers fuel octx'
                                              new_pem_name ph new_mem ui)))
  /\ (forall fuel octx pn ph data ui,
      fst (@file_load_try_decode C (S fuel) octx pn ph data ui)
      <> OutOfFuel).
Proof.
  split.
  - intros handlers fuel octx pn ph data ui nm buf octx' mc tr E.
    rewrite file_load_try_decode_S.
    rewrite (bind_Done _ _ _ _ E). reflexivity.
  - intros fuel octx pn ph data ui.
    unfold file_load_try_decode. rewrite file_load_try_decode_S.
    destruct (dispatch_pass_no_embedded octx pn ph data ui)
      as [tr [E|(res & octx' & mc & E & He)]]; rewrite E.
    + discriminate.
    + destruct res as [i|]; [|discriminate].
      specialize (He i eq_refl).
      destruct i; try discriminate He; discriminate.
Qed.

(** ** A blob that only the bundle handler matches *)

Lemma dispatch_bundle_only fuel (ctx : OSSL_STORE_LOADER_CTX C)
      ph data ui k l tr0 :
  PKCS12_initial C None data ui = (Done (Some (INFO_PKEY k :: l)), tr0) ->
  Forall (fun h => no_match h None ph data ui) (plain_handlers C) ->
  file_load_try_decode (S fuel) (Some ctx) None ph data ui
  = (Done (Some (INFO_PKEY k),
           Some (set_sticky ctx (Some (PKCS12_handler C)) (Some l)), 1%Z),
     tr0 ++ not_a (plain_handlers C) ++ [EvErrClear]).
Proof.
  intros E Hno. unfold file_load_try_decode.
  rewrite file_load_try_decode_S. unfold dispatch_pass.
  rewrite file_handlers_eq, try_handlers_cons.
  rewrite (bind_Done _ _ _ _
             (proj2 (try_handler_PKCS12 None ph data ui) _ _ tr0 E)).
  rewrite (try_handlers_no_match _ _ _ _ _ _ Hno). cbn.
  rewrite !app_nil_r, <- !app_assoc. reflexivity.
Qed.

(** The read of a blob that only the bundle handler matches. *)
Lemma file_load_read_bundle fuel (ctx : OSSL_STORE_LOADER_CTX C)
      ui data rest k l tr0 :
  sticky_none ctx ->
  raw_at ctx data rest ->
  PKCS12_initial C None data ui = (Done (Some (INFO_PKEY k :: l)), tr0) ->
  Forall (fun h => no_match h None None data ui) (plain_handlers C) ->
  file_load_read (S fuel) ctx ui
  = (Done (Some (INFO_PKEY k),
           set_sticky (set_file ctx rest) (Some (PKCS12_handler C))
                      (Some l)),
     EvRead (DER_record data)
       :: tr0 ++ not_a (plain_handlers C) ++ [EvErrClear]).
Proof.
  intros Hs (Hpem & Hfile & Herr) E Hno.
  unfold file_load_read, file_error. rewrite Herr. cbn [Z.ltb Z.compare].
  cbn [file_load_loop]. unfold file_load_body.
  rewrite Hpem, Hfile. cbn [file_read_asn1].
  rewrite bind_emit. cbn [fst snd bind ret].
  rewrite (dispatch_bundle_only fuel (set_file ctx rest) None data ui
             k l tr0 E Hno).
  cbn. rewrite !app_nil_r. reflexivity.
Qed.

(** C5: when the bundle handler, the repeatable one, is the only handler
    that matches the blob, [file_load] returns its first object and the
    loader adopts the handler with its stack as the new sticky pair; a
    stack the loader still held, exhausted, has been destroyed before the
    blob was even read, so that the loader holds one stack only. *)
Theorem repeatable_match_adopted
        (fuel : nat) (ctx : OSSL_STORE_LOADER_CTX C) (ui : UI_METHOD)
        (data : bytes) (rest : BIO) k l tr0 :
  sticky_inv ctx ->
  (last_handler_ctx ctx = None \/ last_handler_ctx ctx = Some []) ->
  raw_at ctx data rest ->
  PKCS12_initial C None data ui = (Done (Some (INFO_PKEY k :: l)), tr0) ->
  Forall (fun h => no_match h None None data ui) (plain_handlers C) ->
  file_load (S fuel) ctx ui
  = (Done (Some (INFO_PKEY k),
           set_sticky (set_file ctx rest) (Some (PKCS12_handler C))
                      (Some l)),
     teardown_events ctx
       ++ EvRead (DER_record data)
       :: tr0 ++ not_a (plain_handlers C) ++ [EvErrClear]).
Proof.
  intros Hinv Hold Hraw E Hno. unfold file_load, teardown_events.
  destruct (file_load_try_repeat_cases ctx ui Hinv)
    as [[Hn Er]|[(i & l' & Hh & Hc & Er)|(Hh & Hc & Er)]].
  - rewrite (bind_Done _ _ _ _ Er). cbn [fst snd].
    rewrite (file_load_read_bundle fuel ctx ui data rest k l tr0
               Hn Hraw E Hno).
    destruct Hn as [_ Hn]. rewrite Hn. reflexivity.
  - destruct Hold as [Hold|Hold]; congruence.
  - rewrite (bind_Done _ _ _ _ Er). cbn [fst snd].
    rewrite (file_load_read_bundle fuel (set_sticky ctx None None) ui
               data rest k l tr0 ltac:(split; reflexivity) Hraw E Hno).
    rewrite Hc. reflexivity.
Qed.

(** ** A bundle is drained object by object *)

Lemma file_load_n_S fuel n (ctx : OSSL_STORE_LOADER_CTX C) ui :
  file_load_n fuel (S n) ctx ui
  = bind (file_load fuel ctx ui)
         (fun r => let (res, ctx1) := r in
                   bind (file_load_n fuel n ctx1 ui)
                        (fun rs => let (l, ctx2) := rs in
                                   ret (res :: l, ctx2))).
Proof. reflexivity. Qed.

(** The loads that follow the adoption hand out the stack in order. *)
Lemma file_load_n_drain fuel ui (l : list (OSSL_STORE_INFO C)) :
  forall ctx : OSSL_STORE_LOADER_CTX C,
    file_load_n fuel (List.length l)
                (set_sticky ctx (Some (PKCS12_handler C)) (Some l)) ui
    = (Done (map Some l,
             set_sticky ctx (Some (PKCS12_handler C)) (Some [])), []).
Proof.
  induction l as [|i l IH]; intros ctx; [reflexivity|].
  cbn [List.length]. rewrite file_load_n_S.
  assert (E : file_load fuel
                (set_sticky ctx (Some (PKCS12_handler C)) (Some (i :: l))) ui
              = (Done (Some i,
                       set_sticky ctx (Some (PKCS12_handler C)) (Some l)),
                 [])).
  { reflexivity. }
  rewrite (bind_Done _ _ _ _ E). cbn [fst snd]. rewrite IH. reflexivity.
Qed.

Lemma file_load_bundle_first fuel (ctx : OSSL_STORE_LOADER_CTX C)
      ui data rest k l tr0 :
  sticky_none ctx ->
  raw_at ctx data rest ->
  PKCS12_initial C None data ui = (Done (Some (INFO_PKEY k :: l)), tr0) ->
  Forall (fun h => no_match h None None data ui) (plain_handlers C) ->
  file_load (S fuel) ctx ui
  = (Done (Some (INFO_PKEY k),
           set_sticky (set_file ctx rest) (Some (PKCS12_handler C))
                      (Some l)),
     EvRead (DER_record data)
       :: tr0 ++ not_a (plain_handlers C) ++ [EvErrClear]).
Proof.
  intros Hn Hraw E Hno. unfold file_load, file_load_try_repeat.
  rewrite (proj1 Hn). rewrite bind_ret_l.
  exact (file_load_read_bundle fuel ctx ui data rest k l tr0 Hn Hraw E Hno).
Qed.

(** The initial parsing of a bundle that decodes, whose MAC verifies and
    that parses builds the stack of the key, the certificate and the chain
    as [PKCS12_parse] gave them. *)
Lemma PKCS12_initial_parsed (data : bytes) (ui : UI_METHOD) p12 pass k c ch :
  d2i_PKCS12 C data = Some p12 ->
  mac_pass C p12 ui pass ->
  PKCS12_parse C p12 pass = Some (k, c, ch) ->
  PKCS12_initial C None data ui
  = (Done (Some (INFO_PKEY k :: INFO_CERT c :: map INFO_CERT ch)),
     snd (PKCS12_find_pass C p12 ui)).
Proof.
  intros Hd Hm Hp. unfold PKCS12_initial. rewrite Hd.
  assert (E : PKCS12_find_pass C p12 ui
              = (Done (Some pass), snd (PKCS12_find_pass C p12 ui))).
  { rewrite PKCS12_find_pass_eq. unfold mac_pass in Hm.
    destruct (PKCS12_verify_mac C p12 (Some ""));
      [cbn in Hm; subst pass; reflexivity|].
    destruct (PKCS12_verify_mac C p12 None);
      [cbn in Hm; subst pass; reflexivity|].
    cbn [orb] in Hm. destruct Hm as [-> ->]. reflexivity. }
  rewrite (bind_Done _ _ _ _ E). rewrite Hp. cbn. rewrite app_nil_r.
  reflexivity.
Qed.

(** C3: a bundle blob that [d2i_PKCS12] decodes, whose MAC verifies and
    that [PKCS12_parse] takes apart into a key, its certificate and a
    chain of N certificates, matched by the bundle handler alone, is
    handed out by N+2 successive calls of [file_load]: the key, the
    certificate, then the chain in order, the stream being read by the
    first call only; the handler then reports exhaustion, the next call
    destroys its stack, and with the stream at its end that call returns
    no object. *)
Theorem bundle_yields_key_then_chain
        (fuel : nat) (ctx : OSSL_STORE_LOADER_CTX C) (ui : UI_METHOD)
        (data : bytes) (rest : BIO) p12 pass k c ch :
  sticky_none ctx ->
  raw_at ctx data rest ->
  d2i_PKCS12 C data = Some p12 ->
  mac_pass C p12 ui pass ->
  PKCS12_parse C p12 pass = Some (k, c, ch) ->
  Forall (fun h => no_match h None None data ui) (plain_handlers C) ->
  let drained :=
    set_sticky (set_file ctx rest) (Some (PKCS12_handler C)) (Some []) in
  file_load_n (S fuel) (List.length ch + 2) ctx ui
  = (Done (Some (INFO_PKEY k) :: Some (INFO_CERT c)
             :: map (fun x => Some (INFO_CERT x)) ch, drained),
     EvRead (DER_record data)
       :: snd (PKCS12_find_pass C p12 ui)
       ++ not_a (plain_handlers C) ++ [EvErrClear])
  /\ eof_PKCS12 (last_handler_ctx drained) = true
  /\ file_load_try_repeat drained ui
     = (Done (None, set_sticky drained None None), [EvStackPopFree []])
  /\ (rest = [] ->
      file_load (S fuel) drained ui
      = (Done (None, set_sticky drained None None), [EvStackPopFree []])).
Proof.
  intros Hn Hraw Hd Hm Hp Hno drained.
  pose proof (PKCS12_initial_parsed data ui p12 pass k c ch Hd Hm Hp) as E.
  repeat apply conj.
  - replace (List.length ch + 2)%nat
      with (S (List.length (INFO_CERT c :: map INFO_CERT ch)))
      by (cbn; rewrite length_map; lia).
    rewrite file_load_n_S.
    rewrite (bind_Done _ _ _ _
               (file_load_bundle_first fuel ctx ui data rest k _ _
                  Hn Hraw E Hno)).
    cbn [fst snd]. rewrite file_load_n_drain.
    cbn. rewrite map_map, !app_nil_r. reflexivity.
  - reflexivity.
  - reflexivity.
  - intros ->. destruct Hraw as (Hpem & _ & Herr).
    unfold file_load. unfold drained at 1.
    assert (Er : file_load_try_repeat drained ui
                 = (Done (None, set_sticky drained None None),
                    [EvStackPopFree []])) by reflexivity.
    rewrite (bind_Done _ _ _ _ Er). cbn [fst snd].
    unfold file_load_read, file_error. cbn [errcnt set_sticky drained set_file].
    rewrite Herr. cbn [Z.ltb Z.compare].
    cbn [file_load_loop]. unfold file_load_body.
    cbn [is_pem file set_sticky drained set_file]. rewrite Hpem.
    cbn. reflexivity.
Qed.

(** ** Ambiguity that involves the bundle handler *)

Lemma try_handlers_bundle_match (hs : list (FILE_HANDLER C))
      pn ph data ui (st : pass_state C) l (h : FILE_HANDLER C) j :
  Forall (@plain_spec C) hs ->
  handler_ctx_ st = Some l ->
  In h hs ->
  try_decode h pn ph data None ui = (Done (Some j, None), []) ->
  exists hs1,
    try_handlers hs pn ph data ui st = (NullCall, not_a hs1).
Proof.
  intros Hhs Hc Hin Hm. induction Hhs as [|h0 hs Hh0 Hhs IH]; [destruct Hin|].
  destruct (try_handler_plain h0 pn ph data ui st Hh0) as (r & Hr & _ & E).
  rewrite try_handlers_cons. destruct r as [i|].
  - rewrite Hc in E. rewrite E. exists []. reflexivity.
  - rewrite (bind_Done _ _ st _ E).
    destruct Hin as [->|Hin]; [congruence|].
    destruct (IH Hin) as [hs1 E1]. rewrite E1.
    exists (h0 :: hs1). reflexivity.
Qed.

(** C1, where the code departs from it: when the bundle handler matches a
    blob and a later handler of the registry matches it too, the dispatch
    calls the [destroy_ctx] of that later handler, which is NULL, on the
    bundle handler's stack; [file_load] does not return, and neither the
    objects nor the stack have been released. *)
Theorem ambiguity_with_bundle_null_call
        (fuel : nat) (ctx : OSSL_STORE_LOADER_CTX C) (ui : UI_METHOD)
        (data : bytes) (rest : BIO) i l tr0 (h : FILE_HANDLER C) j :
  sticky_none ctx ->
  raw_at ctx data rest ->
  PKCS12_initial C None data ui = (Done (Some (i :: l)), tr0) ->
  In h (plain_handlers C) ->
  try_decode h None None data None ui = (Done (Some j, None), []) ->
  exists hs1,
    file_load (S fuel) ctx ui
    = (NullCall, EvRead (DER_record data) :: tr0 ++ not_a hs1).
Proof.
  intros Hn (Hpem & Hfile & Herr) E Hin Hm.
  destruct (try_handlers_bundle_match (plain_handlers C) None None data ui
              (bundle_st i l) l h j plain_handlers_spec eq_refl Hin Hm)
    as [hs1 Et].
  exists hs1.
  unfold file_load, file_load_try_repeat. rewrite (proj1 Hn), bind_ret_l.
  unfold file_load_read, file_error. rewrite Herr. cbn [Z.ltb Z.compare].
  cbn [file_load_loop]. unfold file_load_body.
  rewrite Hpem, Hfile. cbn [file_read_asn1].
  rewrite bind_emit. cbn [fst snd bind ret].
  unfold file_load_try_decode. rewrite file_load_try_decode_S.
  unfold dispatch_pass. rewrite file_handlers_eq, try_handlers_cons.
  rewrite (bind_Done _ _ _ _
             (proj2 (try_handler_PKCS12 None None data ui) _ _ tr0 E)).
  rewrite Et. cbn. reflexivity.
Qed.

(** ** Ambiguity among the handlers without a context *)

Lemma try_handler_plain_acc (h : FILE_HANDLER C) pn ph data ui
      (st : pass_state C) objs tr :
  plain_spec h -> plain_acc st objs tr ->
  exists st' tr',
    try_handler pn ph data ui st h = (Done st', tr')
    /\ plain_acc st' (objs ++ produced [h] pn ph data ui) (tr ++ tr').
Proof.
  intros Hh (Hc & Hmc & Hres & Hm0 & Hm & Hfree & Hrd).
  destruct (try_handler_plain h pn ph data ui st Hh) as (r & Hr & _ & ->).
  unfold produced. cbn [flat_map]. rewrite Hr, app_nil_r.
  destruct r as [j|].
  - rewrite Hc.
    destruct (Z.eqb_spec (matchcount st + 1) 1) as [E|E].
    + assert (objs = []) by (destruct objs; [reflexivity|cbn in Hmc; lia]).
      subst objs. eexists _, _. split; [reflexivity|].
      unfold plain_acc; cbn. rewrite (Hm0 eq_refl), app_nil_r.
      repeat split; try lia; try discriminate; try exact Hrd.
      intros _. exists h, []. split; [reflexivity|apply Hh].
    + eexists _, _. split; [reflexivity|].
      assert (Hne : objs <> []) by (intros ->; cbn in Hmc; lia).
      destruct (Hm Hne) as (h0 & rest & Hmh & Hrep).
      unfold plain_acc; cbn. rewrite length_app. cbn.
      repeat split; try lia.
      * destruct objs as [|a [|b objs]]; [congruence| |]; reflexivity.
      * intros Habs. apply app_eq_nil in Habs. destruct Habs. congruence.
      * intros _. rewrite Hmh. exists h0, (rest ++ [h]).
        split; [reflexivity|exact Hrep].
      * intros _ j' Hj'. apply in_app_or in Hj'.
        rewrite !in_app_iff.
        destruct Hj' as [Hj'|[<-|[]]]; [|right; right; left; reflexivity].
        destruct objs as [|a [|b objs]]; [destruct Hj'| |].
        -- destruct Hj' as [<-|[]]. rewrite Hres. right. left. left.
           reflexivity.
        -- left. apply Hfree; [cbn; lia|exact Hj'].
      * intros r Hin. rewrite !in_app_iff in Hin.
        destruct Hin as [Hin|[Hin|[Hin|[]]]];
          [exact (Hrd r Hin)| |discriminate Hin].
        destruct (result st); cbn in Hin; [|destruct Hin].
        destruct Hin as [Hin|[]]. discriminate Hin.
  - eexists _, _. split; [reflexivity|]. rewrite app_nil_r.
    unfold plain_acc. repeat split; try assumption.
    + intros Hl j Hj. apply in_or_app. left. apply Hfree; assumption.
    + intros r Hin. apply in_app_or in Hin.
      destruct Hin as [Hin|[Hin|[Hin|[]]]];
        [exact (Hrd r Hin)|discriminate Hin|discriminate Hin].
Qed.

Lemma produced_cons (h : FILE_HANDLER C) hs pn ph data ui :
  produced (h :: hs) pn ph data ui
  = produced [h] pn ph data ui ++ produced hs pn ph data ui.
Proof.
  unfold produced. cbn [flat_map]. rewrite app_nil_r. reflexivity.
Qed.

Lemma try_handlers_plain_acc (hs : list (FILE_HANDLER C)) pn ph data ui :
  Forall (@plain_spec C) hs ->
  forall st objs tr,
    plain_acc st objs tr ->
    exists st' tr',
      try_handlers hs pn ph data ui st = (Done st', tr')
      /\ plain_acc st' (objs ++ produced hs pn ph data ui) (tr ++ tr').
Proof.
  induction 1 as [|h hs Hh Hhs IH]; intros st objs tr Hacc.
  - exists st, []. split; [reflexivity|].
    unfold produced. cbn. rewrite !app_nil_r. exact Hacc.
  - destruct (try_handler_plain_acc h pn ph data ui st objs tr Hh Hacc)
      as (st1 & tr1 & E1 & Hacc1).
    destruct (IH _ _ _ Hacc1) as (st2 & tr2 & E2 & Hacc2).
    exists st2, (tr1 ++ tr2). split.
    + rewrite try_handlers_cons, (bind_Done _ _ _ _ E1), E2. reflexivity.
    + rewrite produced_cons, !app_assoc. exact Hacc2.
Qed.

Lemma plain_acc_init : plain_acc (pass_init C) [] [].
Proof.
  unfold plain_acc, pass_init; cbn.
  repeat split; try lia; try congruence; auto.
Qed.

(** When the bundle handler does not match and two or more of the other
    handlers do, every object produced is freed, the ambiguity is
    reported, and [file_load] returns no object, the stream having been
    read once. *)
Lemma ambiguity_without_bundle
      fuel (ctx : OSSL_STORE_LOADER_CTX C) ui pn ph data rest trr tr0 :
  sticky_none ctx ->
  errcnt ctx = 0%Z ->
  (if is_pem ctx then file_read_pem C (file ctx) ui
   else file_read_asn1 C (file ctx))
  = (Done (Some (pn, ph, data), rest), trr) ->
  PKCS12_initial C pn data ui = (Done None, tr0) ->
  (2 <= List.length (produced (plain_handlers C) pn ph data ui))%nat ->
  exists tr,
    file_load (S fuel) ctx ui
    = (Done (None, set_file ctx rest), trr ++ tr0 ++ tr)
    /\ In (EvErr R_AMBIGUOUS_CONTENT_TYPE) tr
    /\ (forall j, In j (produced (plain_handlers C) pn ph data ui) ->
                  In (EvInfoFree j) tr)
    /\ (forall r, ~ In (EvRead r) tr).
Proof.
  intros Hn Herr Hread E Hlen.
  destruct (try_handlers_plain_acc (plain_handlers C) pn ph data ui
              plain_handlers_spec _ _ _ plain_acc_init)
    as (st & tr1 & Et & (Hc & Hmc & Hres & _ & Hm & Hfree & Hrd)).
  cbn [app] in Hmc, Hres, Hm, Hfree, Hrd.
  set (objs := produced (plain_handlers C) pn ph data ui) in *.
  assert (Hne : objs <> []) by (intros Habs; rewrite Habs in Hlen;
                                cbn in Hlen; lia).
  destruct (Hm Hne) as (h0 & hs0 & Hmh & Hrep).
  assert (Hres' : result st = None).
  { rewrite Hres. destruct objs as [|a [|b objs']]; cbn in Hlen;
      try lia; reflexivity. }
  assert (Hgt : (1 <? matchcount st)%Z = true)
    by (apply Z.ltb_lt; lia).
  assert (Hnz : (matchcount st =? 0)%Z = false)
    by (apply Z.eqb_neq; lia).
  exists ([EvErr R_IS_NOT_A; EvErrData "PKCS12"]
            ++ tr1 ++ [EvErr R_AMBIGUOUS_CONTENT_TYPE]).
  split; [|split; [|split]].
  - unfold file_load, file_load_try_repeat. rewrite (proj1 Hn), bind_ret_l.
    unfold file_load_read, file_error. rewrite Herr. cbn [Z.ltb Z.compare].
    cbn [file_load_loop]. unfold file_load_body.
    rewrite (bind_Done _ _ _ _ Hread). cbn [fst snd].
    unfold file_load_try_decode. rewrite file_load_try_decode_S.
    unfold dispatch_pass. rewrite file_handlers_eq, try_handlers_cons.
    rewrite (bind_Done _ _ _ _
               (proj1 (try_handler_PKCS12 pn ph data ui) tr0 E)).
    rewrite Et. cbn [fst snd].
    rewrite (bind_Done _ _ st _ eq_refl). unfold after_handlers.
    rewrite Hgt, Hnz, Hmh, Hrep, Hres'. cbn.
    rewrite Hnz. cbn. rewrite Hgt. cbn.
    rewrite !app_nil_r, <- !app_assoc. reflexivity.
  - rewrite !in_app_iff. right. right. left. reflexivity.
  - intros j Hj. rewrite !in_app_iff. right. left.
    apply Hfree; assumption.
  - intros r Hin. rewrite !in_app_iff in Hin.
    destruct Hin as [[Hin|[Hin|[]]]|[Hin|[Hin|[]]]];
      try discriminate Hin. exact (Hrd r Hin).
Qed.

(** ** The error counter *)

Lemma file_load_body_errcnt fuel ui res (ctx : OSSL_STORE_LOADER_CTX C)
      mc res' ctx' mc' tr :
  errcnt ctx = 0%Z ->
  file_load_body fuel ui (res, ctx, mc) = (Done (res', ctx', mc'), tr) ->
  errcnt ctx' = 0%Z \/ errcnt ctx' = 1%Z.
Proof.
  intros He H. unfold file_load_body in H.
  destruct (read_Done ctx ui) as (b & rest & tr0 & Er).
  rewrite (bind_Done _ _ _ _ Er) in H. cbn [fst snd] in H.
  destruct b as [[[pn ph] data]|].
  - destruct fuel as [|fuel]; [cbn in H; inversion H|].
    destruct (file_load_try_decode_registry fuel (set_file ctx rest)
                pn ph data ui)
      as [tr1 [E|(r & c & m & E & _ & Hcases)]]; rewrite E in H.
    { cbn in H. inversion H. }
    cbn in H. inversion H; subst. left.
    destruct Hcases as [(-> & _ & _)|(l & -> & _)]; exact He.
  - apply fst_Done_inv in H. destruct H as [t' H].
    apply bind_Done_inv in H. destruct H as (e & t1 & t2 & _ & H & _).
    inversion H; subst.
    destruct e; cbn; [left; exact He|right; rewrite He; reflexivity].
Qed.

Lemma file_load_again_errcnt res (ctx : OSSL_STORE_LOADER_CTX C) mc again t :
  errcnt ctx = 1%Z ->
  file_load_again (res, ctx, mc) = (Done again, t) -> again = false.
Proof.
  intros He H. unfold file_load_again in H.
  destruct (mc =? 0)%Z; [|inversion H; reflexivity].
  apply bind_Done_inv in H. destruct H as (e & t1 & t2 & _ & H & _).
  unfold file_error in H. rewrite He in H.
  destruct e; inversion H; reflexivity.
Qed.

Lemma file_load_loop_errcnt iters :
  forall fuel ui res (ctx : OSSL_STORE_LOADER_CTX C) mc res' ctx' mc' tr,
    errcnt ctx = 0%Z ->
    file_load_loop iters fuel ui (res, ctx, mc)
    = (Done (res', ctx', mc'), tr) ->
    errcnt ctx' = 0%Z \/ errcnt ctx' = 1%Z.
Proof.
  induction iters as [|iters IH]; intros fuel ui res ctx mc res' ctx' mc' tr
    He H; [discriminate H|].
  cbn [file_load_loop] in H.
  apply bind_Done_inv in H.
  destruct H as ([[r1 c1] m1] & t1 & t2 & Eb & H & _).
  apply bind_Done_inv in H.
  destruct H as (again & t3 & t4 & Ea & H & _).
  destruct (file_load_body_errcnt _ _ _ _ _ _ _ _ _ He Eb) as [H0|H1].
  - destruct again; [exact (IH _ _ _ _ _ _ _ _ _ H0 H)|].
    inversion H; subst. left. exact H0.
  - rewrite (file_load_again_errcnt _ _ _ _ _ H1 Ea) in H.
    inversion H; subst. right. exact H1.
Qed.

(** The error counter of a loader is 0 or 1: the [int] never overflows. *)
Lemma reachable_errcnt (ctx : OSSL_STORE_LOADER_CTX C) :
  reachable ctx -> errcnt ctx = 0%Z \/ errcnt ctx = 1%Z.
Proof.
  induction 1 as [win32 fs uri ctx tr H|fuel ctx ui r ctx' tr Hr IH H].
  - left.
    assert (Hp : forall path,
               file_open_path C fs path = (Done (Some ctx), tr) ->
               errcnt ctx = 0%Z).
    { intros path Hp. unfold file_open_path in Hp. rewrite bind_emit in Hp.
      destruct (fs path); cbn in Hp; inversion Hp; subst. reflexivity. }
    unfold file_open in H.
    destruct (CStr.strncasecmp0 uri "file:" 5); [|exact (Hp _ H)].
    destruct (file_uri_path uri) as [path|]; [|discriminate H].
    destruct (negb (Ascii.eqb (CStr.at_ path 0) "/")); [discriminate H|].
    destruct (win32_path win32 path); [exact (Hp _ H)|discriminate H].
  - unfold file_load in H. apply bind_Done_inv in H.
    destruct H as ([r1 c1] & t1 & t2 & E1 & H & _).
    assert (Hc1 : errcnt c1 = errcnt ctx).
    { destruct (file_load_try_repeat_cases ctx ui
                  (reachable_sticky_inv ctx Hr))
        as [[_ E]|[(i & l & _ & _ & E)|(_ & _ & E)]];
        rewrite E in E1; inversion E1; subst; reflexivity. }
    destruct r1 as [i|]; [inversion H; subst; rewrite Hc1; exact IH|].
    unfold file_load_read in H. unfold file_error in H.
    destruct (Z.ltb_spec 0 (errcnt c1)) as [Hpos|Hle].
    + inversion H; subst. rewrite Hc1. exact IH.
    + apply bind_Done_inv in H.
      destruct H as ([[r2 c2] m2] & t3 & t4 & El & H & _).
      assert (errcnt ctx' = errcnt c2)
        by (destruct (1 <? m2)%Z; inversion H; reflexivity).
      rewrite H0.
      assert (Hz : errcnt c1 = 0%Z) by lia.
      exact (file_load_loop_errcnt _ _ _ _ _ _ _ _ _ _ Hz El).
Qed.

End Properties.

(** * Further properties of the loader *)

Section Coverage.

Variable C : Codecs.

(** ** The dispatch engine, by the number of matches *)

Lemma produced_not_embedded (hs : list (FILE_HANDLER C)) pn ph data ui :
  Forall (@plain_spec C) hs ->
  forall j, In j (produced hs pn ph data ui) -> is_EMBEDDED j = false.
Proof.
  induction 1 as [|h hs Hh Hhs IH]; intros j Hj; [destruct Hj|].
  rewrite produced_cons in Hj. apply in_app_or in Hj.
  destruct Hj as [Hj|Hj]; [|exact (IH j Hj)].
  destruct Hh as (_ & _ & Hdec).
  destruct (Hdec pn ph data None ui) as (r & Hr & He).
  unfold produced in Hj. cbn [flat_map] in Hj. rewrite Hr in Hj.
  destruct r as [i|]; [|destruct Hj].
  destruct Hj as [<-|[]]. apply He. reflexivity.
Qed.

Lemma produced_nil_no_match (hs : list (FILE_HANDLER C)) pn ph data ui :
  Forall (@plain_spec C) hs ->
  produced hs pn ph data ui = [] ->
  Forall (fun h => no_match h pn ph data ui) hs.
Proof.
  induction 1 as [|h hs Hh Hhs IH]; intros Hp; constructor.
  - rewrite produced_cons in Hp. apply app_eq_nil in Hp.
    destruct Hp as [Hp _]. destruct Hh as (_ & _ & Hdec).
    destruct (Hdec pn ph data None ui) as (r & Hr & _).
    unfold produced in Hp. cbn [flat_map] in Hp. rewrite Hr in Hp.
    unfold no_match. rewrite Hr. destruct r; [discriminate Hp|reflexivity].
  - apply IH. rewrite produced_cons in Hp. apply app_eq_nil in Hp.
    exact (proj2 Hp).
Qed.

Lemma no_match_produced_nil (hs : list (FILE_HANDLER C)) pn ph data ui :
  Forall (fun h => no_match h pn ph data ui) hs ->
  produced hs pn ph data ui = [].
Proof.
  induction 1 as [|h hs Hh Hhs IH]; [reflexivity|].
  rewrite produced_cons, IH. unfold produced. cbn [flat_map].
  unfold no_match in Hh. rewrite Hh. reflexivity.
Qed.

Lemma reads_app (a b : list (event C)) :
  reads (a ++ b) = reads a ++ reads b.
Proof.
  induction a as [|e a IH]; [reflexivity|].
  destruct e; cbn; rewrite IH; reflexivity.
Qed.

Lemma reads_none (t : list (event C)) :
  (forall r, ~ In (EvRead r) t) -> reads t = [].
Proof.
  induction t as [|e t IH]; intros H; [reflexivity|].
  assert (Ht : reads t = []) by (apply IH; intros r Hr; apply (H r);
                                 right; exact Hr).
  destruct e; cbn; try exact Ht.
  exfalso. apply (H r). left. reflexivity.
Qed.

Lemma not_a_reads (hs : list (FILE_HANDLER C)) : reads (not_a hs) = [].
Proof.
  induction hs as [|h hs IH]; [reflexivity|]. exact IH.
Qed.

Lemma PKCS12_initial_reads pn data ui :
  reads (snd (PKCS12_initial C pn data ui)) = [].
Proof.
  unfold PKCS12_initial.
  destruct pn; [reflexivity|].
  destruct (d2i_PKCS12 C data) as [p12|]; [|reflexivity].
  rewrite PKCS12_find_pass_eq.
  destruct (PKCS12_verify_mac C p12 (Some ""));
    [cbn; destruct (PKCS12_parse C p12 "") as [[[k c] ch]|]; reflexivity|].
  destruct (PKCS12_verify_mac C p12 None);
    [cbn; destruct (PKCS12_parse C p12 "") as [[[k c] ch]|]; reflexivity|].
  destruct (ui "PKCS12 import password" (PEM_BUFSIZE - 1)%Z) as [pw| |];
    try reflexivity.
  destruct (PKCS12_verify_mac C p12 (Some pw)); [|reflexivity].
  cbn. destruct (PKCS12_parse C p12 pw) as [[[k c] ch]|]; reflexivity.
Qed.

(** The dispatch of a blob the bundle handler does not match. *)
Lemma dispatch_plain fuel (ctx : OSSL_STORE_LOADER_CTX C)
      pn ph data ui tr0 :
  PKCS12_initial C pn data ui = (Done None, tr0) ->
  exists tr,
    file_load_try_decode (S fuel) (Some ctx) pn ph data ui
    = (Done (match produced (plain_handlers C) pn ph data ui with
             | [j] => Some j
             | _ => None
             end, Some ctx,
             Z.of_nat (List.length
                         (produced (plain_handlers C) pn ph data ui))),
       tr0 ++ tr)
    /\ (forall r, ~ In (EvRead r) tr).
Proof.
  intros E.
  destruct (try_handlers_plain_acc C (plain_handlers C) pn ph data ui
              (plain_handlers_spec C) _ _ _ (plain_acc_init C))
    as (st & tr1 & Et & (Hc & Hmc & Hres & Hm0 & Hm & Hfree & Hrd)).
  cbn [app] in Hmc, Hres, Hm0, Hm, Hfree, Hrd.
  pose proof (produced_not_embedded (plain_handlers C) pn ph data ui
                (plain_handlers_spec C)) as Hemb.
  set (objs := produced (plain_handlers C) pn ph data ui) in *.
  unfold file_load_try_decode. rewrite file_load_try_decode_S.
  unfold dispatch_pass. rewrite file_handlers_eq, try_handlers_cons.
  rewrite (bind_Done C _ _ _ _
             (proj1 (try_handler_PKCS12 C pn ph data ui) tr0 E)).
  rewrite Et. cbn [fst snd].
  rewrite (bind_Done C _ _ st _ eq_refl). unfold after_handlers.
  rewrite Hmc, Hres.
  assert (Hrd' : forall last r,
             (forall r', last <> EvRead r') ->
             ~ In (EvRead r)
               ([EvErr R_IS_NOT_A; EvErrData "PKCS12"] ++ tr1 ++ [last])).
  { intros last r Hl Hin. rewrite !in_app_iff in Hin. cbn in Hin.
    destruct Hin as [[Hin|[Hin|[]]]|[Hin|[Hin|[]]]];
      try discriminate Hin; [exact (Hrd r Hin)|exact (Hl r Hin)]. }
  destruct objs as [|a [|b objs']].
  - rewrite (Hm0 eq_refl). cbn.
    exists ([EvErr R_IS_NOT_A; EvErrData "PKCS12"] ++ tr1
              ++ [EvErr R_UNSUPPORTED_CONTENT_TYPE]).
    split; [|intros r; apply Hrd'; discriminate].
    rewrite !app_nil_r, <- !app_assoc. reflexivity.
  - destruct (Hm ltac:(discriminate)) as (h0 & hs0 & Hmh & Hrep).
    rewrite Hmh, Hrep.
    assert (Ha : is_EMBEDDED a = false) by (apply Hemb; left; reflexivity).
    exists ([EvErr R_IS_NOT_A; EvErrData "PKCS12"] ++ tr1 ++ [EvErrClear]).
    split; [|intros r; apply Hrd'; discriminate].
    destruct a; try discriminate Ha; cbn;
      rewrite !app_nil_r, <- !app_assoc; reflexivity.
  - destruct (Hm ltac:(discriminate)) as (h0 & hs0 & Hmh & Hrep).
    rewrite Hmh, Hrep.
    replace (1 <? Z.of_nat (List.length (a :: b :: objs')))%Z with true
      by (symmetry; apply Z.ltb_lt; cbn [List.length]; lia).
    replace (Z.of_nat (List.length (a :: b :: objs')) =? 0)%Z with false
      by (symmetry; apply Z.eqb_neq; cbn [List.length]; lia).
    exists ([EvErr R_IS_NOT_A; EvErrData "PKCS12"] ++ tr1
              ++ [EvErr R_AMBIGUOUS_CONTENT_TYPE]).
    split; [|intros r; apply Hrd'; discriminate].
    cbn. rewrite !app_nil_r, <- !app_assoc. reflexivity.
Qed.

Lemma produced_cons_match (hs : list (FILE_HANDLER C)) pn ph data ui :
  Forall (@plain_spec C) hs ->
  produced hs pn ph data ui <> [] ->
  exists h j, In h hs
              /\ try_decode h pn ph data None ui = (Done (Some j, None), []).
Proof.
  induction 1 as [|h hs Hh Hhs IH]; intros Hp;
    [exfalso; apply Hp; reflexivity|].
  destruct Hh as (_ & _ & Hdec).
  destruct (Hdec pn ph data None ui) as (r & Hr & _).
  destruct r as [j|].
  - exists h, j. split; [left; reflexivity|exact Hr].
  - rewrite produced_cons in Hp.
    assert (Hn : produced [h] pn ph data ui = []).
    { unfold produced. cbn [flat_map]. rewrite Hr. reflexivity. }
    rewrite Hn in Hp. destruct (IH Hp) as (h' & j & Hin & Hm).
    exists h', j. split; [right; exact Hin|exact Hm].
Qed.

(** The three ways a dispatch over the registry ends. *)
Lemma dispatch_registry_cases fuel (ctx : OSSL_STORE_LOADER_CTX C)
      pn ph data ui :
  (exists tr,
      file_load_try_decode (S fuel) (Some ctx) pn ph data ui
      = (Done (match produced (plain_handlers C) pn ph data ui with
               | [j] => Some j
               | _ => None
               end, Some ctx,
               Z.of_nat (List.length
                           (produced (plain_handlers C) pn ph data ui))),
         tr)
      /\ reads tr = [])
  \/ (exists k c ch tr,
        pn = None
        /\ Forall (fun h => no_match h None ph data ui) (plain_handlers C)
        /\ file_load_try_decode (S fuel) (Some ctx) pn ph data ui
           = (Done (Some (INFO_PKEY k),
                    Some (set_sticky ctx (Some (PKCS12_handler C))
                                     (Some (INFO_CERT c
                                              :: map INFO_CERT ch))), 1%Z),
              tr)
        /\ reads tr = [])
  \/ (exists tr,
        file_load_try_decode (S fuel) (Some ctx) pn ph data ui
        = (NullCall, tr)).
Proof.
  pose proof (PKCS12_initial_reads pn data ui) as Hr0.
  destruct (PKCS12_initial_cases C pn data ui) as [tr0 [E|(k & c & ch & E)]];
    rewrite E in Hr0; cbn [snd] in Hr0.
  - left. destruct (dispatch_plain fuel ctx pn ph data ui tr0 E)
      as (tr & Ed & Hrd).
    exists (tr0 ++ tr). split; [exact Ed|].
    rewrite reads_app, Hr0, (reads_none tr Hrd). reflexivity.
  - right.
    assert (pn = None) by (destruct pn; [discriminate E|reflexivity]).
    subst pn.
    destruct (produced (plain_handlers C) None ph data ui) eqn:Ep.
    + left. exists k, c, ch. eexists. split; [reflexivity|].
      pose proof (produced_nil_no_match (plain_handlers C) None ph data ui
                    (plain_handlers_spec C) Ep) as Hno.
      split; [exact Hno|]. split.
      * exact (dispatch_bundle_only C fuel ctx ph data ui k _ tr0 E Hno).
      * rewrite !reads_app, Hr0, not_a_reads. reflexivity.
    + right.
      destruct (produced_cons_match (plain_handlers C) None ph data ui
                  (plain_handlers_spec C)) as (h & j & Hin & Hm).
      { rewrite Ep. discriminate. }
      destruct (try_handlers_bundle_match C (plain_handlers C) None ph
                  data ui
                  (bundle_st (INFO_PKEY k) (INFO_CERT c :: map INFO_CERT ch))
                  _ h j (plain_handlers_spec C) eq_refl Hin Hm)
        as [hs1 Et].
      unfold file_load_try_decode. rewrite file_load_try_decode_S.
      unfold dispatch_pass. rewrite file_handlers_eq, try_handlers_cons.
      rewrite (bind_Done C _ _ _ _
                 (proj2 (try_handler_PKCS12 C None ph data ui) _ _ tr0 E)).
      rewrite Et. cbn. eauto.
Qed.

(** ** The read loop ends *)

Lemma PEM_do_header_Done ci d ui :
  exists r t, PEM_do_header C ci d ui = (Done r, t) /\ reads t = [].
Proof.
  unfold PEM_do_header, file_get_pem_pass, file_get_pass.
  destruct (cipher ci); [|eexists _, _; split; reflexivity].
  rewrite bind_emit.
  destruct (ui "PEM" (PEM_BUFSIZE - 1)%Z) as [pw| |]; cbn;
    try (eexists _, _; split; reflexivity).
  destruct (Z.of_nat (String.length pw) <=? 0)%Z;
    eexists _, _; split; reflexivity.
Qed.

Lemma file_read_pem_cons r s ui :
  exists b t,
    file_read_pem C (r :: s) ui = (Done (b, s), EvRead r :: t)
    /\ reads t = [].
Proof.
  unfold file_read_pem.
  destruct r as [nm hd d| |]; rewrite bind_emit;
    try (eexists _, _; split; reflexivity).
  destruct (10 <? String.length hd)%nat;
    [|eexists _, _; split; reflexivity].
  destruct (PEM_get_EVP_CIPHER_INFO C hd) as [ci|];
    [|eexists _, _; split; reflexivity].
  destruct (PEM_do_header_Done ci d ui) as (r & t & -> & Ht).
  destruct r; cbn; eexists _, _; (split; [reflexivity|]);
    rewrite app_nil_r; exact Ht.
Qed.

Lemma file_read_asn1_cons r s :
  exists b t,
    file_read_asn1 C (r :: s) = (Done (b, s), EvRead r :: t)
    /\ reads t = [].
Proof.
  unfold file_read_asn1.
  destruct r as [nm hd d| |]; rewrite bind_emit;
    eexists _, _; split; reflexivity.
Qed.

(** A read takes the first record off the stream, or finds it empty. *)
Lemma read_cases (ctx : OSSL_STORE_LOADER_CTX C) ui :
  exists b rest tr,
    (if is_pem ctx then file_read_pem C (file ctx) ui
     else file_read_asn1 C (file ctx)) = (Done (b, rest), tr)
    /\ file ctx = reads tr ++ rest
    /\ ((file ctx = [] /\ rest = [] /\ b = None /\ tr = [])
        \/ exists r tr', file ctx = r :: rest /\ tr = EvRead r :: tr').
Proof.
  destruct (file ctx) as [|r s] eqn:Ef.
  - exists None, [], []. split; [destruct (is_pem ctx); reflexivity|].
    split; [reflexivity|]. left. auto.
  - destruct (is_pem ctx).
    + destruct (file_read_pem_cons r s ui) as (b & t & E & Ht).
      exists b, s, (EvRead r :: t). split; [exact E|].
      split; [cbn; rewrite Ht; reflexivity|]. right. eauto.
    + destruct (file_read_asn1_cons r s) as (b & t & E & Ht).
      exists b, s, (EvRead r :: t). split; [exact E|].
      split; [cbn; rewrite Ht; reflexivity|]. right. eauto.
Qed.

Lemma bind_not_OutOfFuel {A B} (m : M C A) (f : A -> M C B) :
  fst m <> OutOfFuel ->
  (forall a t, m = (Done a, t) -> fst (f a) <> OutOfFuel) ->
  fst (bind m f) <> OutOfFuel.
Proof.
  destruct m as [[a| | |] t]; cbn; intros Hm Hf; try congruence.
  specialize (Hf a t eq_refl). destruct (f a). exact Hf.
Qed.

(** One turn of the loop of [file_load] on a loader without sticky
    state. *)
Lemma file_load_body_step f ui res (ctx : OSSL_STORE_LOADER_CTX C) mc :
  sticky_none ctx ->
  (exists tr, file_load_body (S f) ui (res, ctx, mc) = (NullCall, tr))
  \/ exists res' ctx' mc' tr,
      file_load_body (S f) ui (res, ctx, mc) = (Done (res', ctx', mc'), tr)
      /\ (sticky_none ctx' \/ (mc' = 1%Z /\ sticky_clean ctx'))
      /\ ((file ctx = [] /\ file ctx' = [])
          \/ exists r, file ctx = r :: file ctx')
      /\ ((forall i, res = Some i -> is_EMBEDDED i = false) ->
          forall i, res' = Some i -> is_EMBEDDED i = false)
      /\ (errcnt ctx <= errcnt ctx')%Z
      /\ file ctx = reads tr ++ file ctx'.
Proof.
  intros Hs. unfold file_load_body.
  destruct (read_cases ctx ui) as (b & rest & tr0 & Er & Hreads & Hshape).
  rewrite (bind_Done C _ _ _ _ Er). cbn [fst snd].
  assert (Hs1 : sticky_none (set_file ctx rest)) by exact Hs.
  assert (Hfile : (file ctx = [] /\ rest = [])
                  \/ exists r, file ctx = r :: rest).
  { destruct Hshape as [(H1 & H2 & _)|(r & t & H1 & _)]; eauto. }
  destruct b as [[[pn ph] data]|].
  - destruct (dispatch_registry_cases f (set_file ctx rest) pn ph data ui)
      as [(tr & E & Hrd)|[(k & c & ch & tr & _ & _ & E & Hrd)|[tr E]]];
      rewrite E.
    + right. eexists _, _, _, _. split; [reflexivity|].
      split; [left; exact Hs1|]. split; [exact Hfile|].
      split; [|split; [cbn; lia|]].
      * intros _ i Hi.
        apply (produced_not_embedded (plain_handlers C) pn ph data ui
                 (plain_handlers_spec C)).
        destruct (produced (plain_handlers C) pn ph data ui)
          as [|a [|b l]]; inversion Hi; subst. left. reflexivity.
      * cbn. rewrite app_nil_r, reads_app, Hrd, app_nil_r. exact Hreads.
    + right. eexists _, _, _, _. split; [reflexivity|].
      split; [|split; [exact Hfile|split; [|split; [cbn; lia|]]]].
      * right. split; [reflexivity|]. right. split; [reflexivity|].
        eexists. split; [reflexivity|].
        constructor; [reflexivity|].
        apply Forall_forall. intros x Hx. apply in_map_iff in Hx.
        destruct Hx as (y & <- & _). reflexivity.
      * intros _ i Hi. inversion Hi. reflexivity.
      * cbn. rewrite app_nil_r, reads_app, Hrd, app_nil_r. exact Hreads.
    + left. eexists. reflexivity.
  - rewrite (file_eof_sticky_none C _ Hs1). cbn.
    right. eexists _, _, _, _. split; [reflexivity|].
    split; [|split; [|split; [|split]]].
    + left. destruct (BIO_eof rest); exact Hs.
    + destruct (BIO_eof rest); exact Hfile.
    + auto.
    + destruct (BIO_eof rest); cbn; lia.
    + rewrite app_nil_r. destruct (BIO_eof rest); exact Hreads.
Qed.

Lemma file_load_again_cases res (ctx : OSSL_STORE_LOADER_CTX C) mc :
  sticky_none ctx \/ (mc = 1%Z /\ sticky_clean ctx) ->
  exists again,
    file_load_again (res, ctx, mc) = (Done again, [])
    /\ (again = true ->
        mc = 0%Z /\ file ctx <> [] /\ file_error ctx = false).
Proof.
  intros H. unfold file_load_again.
  destruct (Z.eqb_spec mc 0) as [E|E].
  - destruct H as [Hs|[H _]]; [|lia].
    rewrite (file_eof_sticky_none C _ Hs). cbn.
    destruct (file ctx) as [|r s]; cbn.
    + exists false. split; [reflexivity|discriminate].
    + exists (negb (file_error ctx)). split; [reflexivity|].
      intros Ha. apply negb_true_iff in Ha.
      repeat split; [exact E|discriminate|exact Ha].
  - exists false. split; [reflexivity|discriminate].
Qed.

Lemma file_load_loop_ends iters :
  forall f ui res (ctx : OSSL_STORE_LOADER_CTX C) mc,
    sticky_none ctx ->
    (List.length (file ctx) < iters)%nat ->
    fst (file_load_loop iters (S f) ui (res, ctx, mc)) <> OutOfFuel.
Proof.
  induction iters as [|iters IH]; intros f ui res ctx mc Hs Hlen; [lia|].
  cbn [file_load_loop].
  destruct (file_load_body_step f ui res ctx mc Hs)
    as [[tr E]|(res' & ctx' & mc' & tr & E & Hst & Hfile & _)]; rewrite E.
  - cbn. discriminate.
  - rewrite (bind_Done C _ _ _ _ eq_refl). cbn [fst snd].
    destruct (file_load_again_cases res' ctx' mc' Hst) as (again & Ea & Ha).
    rewrite Ea. rewrite (bind_Done C _ _ _ _ eq_refl). cbn [fst snd].
    destruct again; [|cbn; discriminate].
    destruct (Ha eq_refl) as (Hmc & Hne & _).
    destruct Hst as [Hs'|[Hmc' _]]; [|lia].
    apply IH; [exact Hs'|].
    destruct Hfile as [[_ H0]|[r Hr]]; [congruence|].
    rewrite Hr in Hlen. cbn in Hlen. lia.
Qed.

(** X7: [file_load] returns: on a loader whose sticky pair is empty or the
    bundle handler's, a bound above the number of records left in the
    stream is enough for the read loop, and one pass for each dispatch. *)
Theorem file_load_terminates
        (fuel : nat) (ctx : OSSL_STORE_LOADER_CTX C) (ui : UI_METHOD) :
  sticky_inv ctx ->
  (List.length (file ctx) < fuel)%nat ->
  fst (file_load fuel ctx ui) <> OutOfFuel.
Proof.
  intros Hinv Hlen. unfold file_load.
  assert (Hread : forall c : OSSL_STORE_LOADER_CTX C,
             sticky_none c -> file c = file ctx ->
             fst (file_load_read fuel c ui) <> OutOfFuel).
  { intros c Hs Hf. unfold file_load_read.
    destruct (file_error c); [discriminate|].
    destruct fuel as [|f]; [lia|].
    apply bind_not_OutOfFuel.
    - apply file_load_loop_ends; [exact Hs|rewrite Hf; exact Hlen].
    - intros [[r c2] m] t _. destruct (1 <? m)%Z; discriminate. }
  destruct (file_load_try_repeat_cases C ctx ui Hinv)
    as [[Hn E]|[(i & l & _ & _ & E)|(_ & _ & E)]];
    rewrite (bind_Done C _ _ _ _ E); cbn [fst snd].
  - apply Hread; [exact Hn|reflexivity].
  - discriminate.
  - apply Hread; [split; reflexivity|reflexivity].
Qed.

(** Reading behind the end of a string is what [file_open] alone can come
    to: no call of [file_load] ends that way. *)
Lemma file_load_loop_in_bounds iters :
  forall f ui res (ctx : OSSL_STORE_LOADER_CTX C) mc,
    sticky_none ctx ->
    fst (file_load_loop iters (S f) ui (res, ctx, mc)) <> OutOfBounds.
Proof.
  induction iters as [|iters IH]; intros f ui res ctx mc Hs;
    [discriminate|].
  cbn [file_load_loop].
  destruct (file_load_body_step f ui res ctx mc Hs)
    as [[tr E]|(res' & ctx' & mc' & tr & E & Hst & _)]; rewrite E.
  - cbn. discriminate.
  - rewrite (bind_Done C _ _ _ _ eq_refl). cbn [fst snd].
    destruct (file_load_again_cases res' ctx' mc' Hst) as (again & Ea & Ha).
    rewrite Ea. rewrite (bind_Done C _ _ _ _ eq_refl). cbn [fst snd].
    destruct again; [|cbn; discriminate].
    destruct (Ha eq_refl) as (Hmc & _).
    destruct Hst as [Hs'|[Hmc' _]]; [|lia].
    apply IH. exact Hs'.
Qed.

Lemma file_load_in_bounds
      (fuel : nat) (ctx : OSSL_STORE_LOADER_CTX C) (ui : UI_METHOD) :
  sticky_inv ctx ->
  fst (file_load fuel ctx ui) <> OutOfBounds.
Proof.
  intros Hinv. unfold file_load.
  assert (Hread : forall c : OSSL_STORE_LOADER_CTX C,
             sticky_none c ->
             fst (file_load_read fuel c ui) <> OutOfBounds).
  { intros c Hs. unfold file_load_read.
    destruct (file_error c); [discriminate|].
    destruct fuel as [|f]; [discriminate|].
    pose proof (file_load_loop_in_bounds (S f) f ui None c (-1)%Z Hs) as Hl.
    destruct (file_load_loop (S f) (S f) ui (None, c, (-1)%Z))
      as [[[[r c2] m]| | |] t]; cbn; try discriminate.
    - destruct (1 <? m)%Z; discriminate.
    - exfalso. apply Hl. reflexivity. }
  destruct (file_load_try_repeat_cases C ctx ui Hinv)
    as [[Hn E]|[(i & l & _ & _ & E)|(_ & _ & E)]];
    rewrite (bind_Done C _ _ _ _ E); cbn [fst snd].
  - apply Hread. exact Hn.
  - discriminate.
  - apply Hread. split; reflexivity.
Qed.

(** ** What a call of [file_load] keeps *)

Lemma file_load_loop_facts iters :
  forall f ui res (ctx : OSSL_STORE_LOADER_CTX C) mc res' ctx' mc' tr,
    sticky_none ctx ->
    file_load_loop iters (S f) ui (res, ctx, mc)
    = (Done (res', ctx', mc'), tr) ->
    sticky_clean ctx'
    /\ ((forall i, res = Some i -> is_EMBEDDED i = false) ->
        forall i, res' = Some i -> is_EMBEDDED i = false)
    /\ (errcnt ctx <= errcnt ctx')%Z
    /\ file ctx = reads tr ++ file ctx'.
Proof.
  induction iters as [|iters IH]; intros f ui res ctx mc res' ctx' mc' tr
    Hs H; [discriminate H|].
  cbn [file_load_loop] in H.
  destruct (file_load_body_step f ui res ctx mc Hs)
    as [[t E]|(r1 & c1 & m1 & t & E & Hst & _ & Hemb & Herr & Hpre)];
    rewrite E in H; [discriminate H|].
  rewrite (bind_Done C _ _ _ _ eq_refl) in H. cbn [fst snd] in H.
  destruct (file_load_again_cases r1 c1 m1 Hst) as (again & Ea & Ha).
  rewrite Ea in H. rewrite (bind_Done C _ _ _ _ eq_refl) in H.
  cbn [fst snd app] in H.
  destruct again.
  - destruct (Ha eq_refl) as (Hm & _ & _).
    destruct Hst as [Hs1|[Hm1 _]]; [|lia].
    destruct (file_load_loop iters (S f) ui (r1, c1, m1)) as [o t2] eqn:El.
    cbn [fst snd] in H. inversion H; subst.
    destruct (IH _ _ _ _ _ _ _ _ _ Hs1 El) as (Hc & He & Hle & Hp2).
    split; [exact Hc|]. split; [auto|]. split; [lia|].
    rewrite reads_app, <- app_assoc, <- Hp2. exact Hpre.
  - cbn in H. inversion H; subst.
    split; [|split; [exact Hemb|split; [exact Herr|]]].
    + destruct Hst as [Hs1|[_ Hc]]; [left; exact Hs1|exact Hc].
    + rewrite app_nil_r. exact Hpre.
Qed.

Lemma file_load_read_facts fuel (c : OSSL_STORE_LOADER_CTX C) ui r ctx' t :
  sticky_none c ->
  file_load_read fuel c ui = (Done (r, ctx'), t) ->
  sticky_clean ctx'
  /\ (forall i, r = Some i -> is_EMBEDDED i = false)
  /\ (errcnt c <= errcnt ctx')%Z
  /\ file c = reads t ++ file ctx'.
Proof.
  intros Hs H. unfold file_load_read in H.
  destruct (file_error c).
  - inversion H; subst. split; [left; exact Hs|].
    split; [discriminate|]. split; [lia|]. reflexivity.
  - destruct fuel as [|f]; [discriminate H|].
    apply bind_Done_inv in H.
    destruct H as ([[r2 c2] m2] & t1 & t2 & El & H & ->).
    destruct (file_load_loop_facts _ _ _ _ _ _ _ _ _ _ Hs El)
      as (Hc & He & Hle & Hpre).
    destruct (1 <? m2)%Z; inversion H; subst;
      (split; [exact Hc|]; split;
       [|split; [exact Hle|rewrite app_nil_r; exact Hpre]]).
    + discriminate.
    + apply He. discriminate.
Qed.

Lemma sticky_clean_inv (ctx : OSSL_STORE_LOADER_CTX C) :
  sticky_clean ctx -> sticky_inv ctx.
Proof.
  intros [H|(Hh & l & Hc & _)]; [left; exact H|right].
  split; [exact Hh|]. exists l. exact Hc.
Qed.

(** With the stack clean, so are the object returned and the stack
    afterwards. *)
Lemma file_load_clean fuel (ctx : OSSL_STORE_LOADER_CTX C) ui r ctx' tr :
  sticky_clean ctx ->
  file_load fuel ctx ui = (Done (r, ctx'), tr) ->
  sticky_clean ctx' /\ forall i, r = Some i -> is_EMBEDDED i = false.
Proof.
  intros Hc H. unfold file_load in H.
  apply bind_Done_inv in H. destruct H as ([r1 c1] & t1 & t2 & E1 & H & _).
  destruct (file_load_try_repeat_cases C ctx ui (sticky_clean_inv ctx Hc))
    as [[Hn E]|[(i & l & Hh & Hl & E)|(Hh & Hl & E)]];
    rewrite E in E1; inversion E1; subst; clear E1.
  - destruct (file_load_read_facts _ _ _ _ _ _ Hn H) as (H1 & H2 & _).
    split; assumption.
  - inversion H; subst.
    destruct Hc as [[Hc _]|(_ & l' & Hl' & Hall)]; [congruence|].
    rewrite Hl in Hl'. inversion Hl'; subst. inversion Hall; subst.
    split.
    + right. split; [reflexivity|]. exists l. split; [reflexivity|assumption].
    + intros j Hj. inversion Hj; subst. assumption.
  - destruct (file_load_read_facts _ (set_sticky ctx None None) _ _ _ _
                ltac:(split; reflexivity) H) as (H1 & H2 & _).
    split; assumption.
Qed.

Lemma reachable_sticky_clean (ctx : OSSL_STORE_LOADER_CTX C) :
  reachable ctx -> sticky_clean ctx.
Proof.
  induction 1 as [win32 fs uri ctx tr H|fuel ctx ui r ctx' tr _ IH H].
  - left. exact (file_open_sticky C _ _ _ _ _ H).
  - exact (proj1 (file_load_clean _ _ _ _ _ _ IH H)).
Qed.

(** X8: an embedded blob is never handed to the caller: whatever [file_load]
    returns on a loader that [file_open] and earlier calls of [file_load]
    produced is a key, a parameter set, a certificate or a revocation
    list. *)
Theorem file_load_never_embedded
        (fuel : nat) (ctx : OSSL_STORE_LOADER_CTX C) (ui : UI_METHOD)
        i ctx' tr :
  reachable ctx ->
  file_load fuel ctx ui = (Done (Some i, ctx'), tr) ->
  is_EMBEDDED i = false.
Proof.
  intros Hr H.
  exact (proj2 (file_load_clean _ _ _ _ _ _ (reachable_sticky_clean ctx Hr) H)
           i eq_refl).
Qed.

Lemma file_load_monotone fuel (ctx : OSSL_STORE_LOADER_CTX C) ui r ctx' tr :
  sticky_inv ctx ->
  file_load fuel ctx ui = (Done (r, ctx'), tr) ->
  (errcnt ctx <= errcnt ctx')%Z
  /\ file ctx = reads tr ++ file ctx'.
Proof.
  intros Hinv H. unfold file_load in H.
  apply bind_Done_inv in H. destruct H as ([r1 c1] & t1 & t2 & E1 & H & ->).
  destruct (file_load_try_repeat_cases C ctx ui Hinv)
    as [[Hn E]|[(i & l & Hh & Hl & E)|(Hh & Hl & E)]];
    rewrite E in E1; inversion E1; subst; clear E1.
  - destruct (file_load_read_facts _ _ _ _ _ _ Hn H) as (_ & _ & H1 & H2).
    split; assumption.
  - inversion H; subst. split; [cbn; lia|]. reflexivity.
  - destruct (file_load_read_facts _ (set_sticky ctx None None) _ _ _ _
                ltac:(split; reflexivity) H) as (_ & _ & H1 & H2).
    split; assumption.
Qed.

(** X9: the error state is sticky: a call of [file_load] never lowers the
    error counter, so that once [file_error] answers true it does so after
    every later call. *)
Theorem file_error_is_sticky
        (fuel : nat) (ctx : OSSL_STORE_LOADER_CTX C) (ui : UI_METHOD)
        r ctx' tr :
  sticky_inv ctx ->
  file_load fuel ctx ui = (Done (r, ctx'), tr) ->
  (errcnt ctx <= errcnt ctx')%Z
  /\ (file_error ctx = true -> file_error ctx' = true).
Proof.
  intros Hinv H.
  destruct (file_load_monotone _ _ _ _ _ _ Hinv H) as [Hle _].
  split; [exact Hle|]. unfold file_error.
  rewrite !Z.ltb_lt. lia.
Qed.

(** X11: the stream is only ever consumed from the front, and nothing is read
    that is not consumed: the stream before a call of [file_load] is the
    records the call read, in order, followed by the stream after it. *)
Theorem file_load_consumes_what_it_reads
        (fuel : nat) (ctx : OSSL_STORE_LOADER_CTX C) (ui : UI_METHOD)
        r ctx' tr :
  sticky_inv ctx ->
  file_load fuel ctx ui = (Done (r, ctx'), tr) ->
  file ctx = reads tr ++ file ctx'.
Proof.
  intros Hinv H.
  exact (proj2 (file_load_monotone _ _ _ _ _ _ Hinv H)).
Qed.

(** X10: the error counter of a loader is never more than 1: the first error
    stops every later read, so the [int] cannot overflow. *)
Theorem errcnt_at_most_one (ctx : OSSL_STORE_LOADER_CTX C) :
  reachable ctx -> errcnt ctx = 0%Z \/ errcnt ctx = 1%Z.
Proof.
  exact (reachable_errcnt C ctx).
Qed.

(** ** Reading: errors, unsupported blobs, the first object *)

Lemma read_plain_blob (ctx : OSSL_STORE_LOADER_CTX C) ui r s b :
  plain_blob (is_pem ctx) r = Some b ->
  file ctx = r :: s ->
  (if is_pem ctx then file_read_pem C (file ctx) ui
   else file_read_asn1 C (file ctx)) = (Done (Some b, s), [EvRead r]).
Proof.
  intros Hb Hf. rewrite Hf. unfold plain_blob in Hb.
  destruct (is_pem ctx); destruct r as [nm hd d|d|]; try discriminate Hb.
  - unfold file_read_pem.
    destruct (10 <? String.length hd)%nat; [discriminate Hb|].
    inversion Hb; subst. reflexivity.
  - inversion Hb; subst. reflexivity.
Qed.

Lemma file_load_sticky_none_read fuel (ctx : OSSL_STORE_LOADER_CTX C) ui :
  sticky_none ctx ->
  file_load fuel ctx ui = file_load_read fuel ctx ui.
Proof.
  intros [Hh _]. unfold file_load, file_load_try_repeat.
  rewrite Hh, bind_ret_l. reflexivity.
Qed.

(** X12: a read that fails is an error exactly when the stream is not at its
    end afterwards: [file_load] returns no object, and the error counter
    goes from 0 to 1 unless nothing is left; with the counter at 1 every
    later call returns no object and leaves the stream alone. *)
Theorem failed_read_is_error_unless_at_end
        (f : nat) (ctx : OSSL_STORE_LOADER_CTX C) (ui : UI_METHOD)
        (rest : BIO) trr :
  sticky_none ctx ->
  errcnt ctx = 0%Z ->
  (if is_pem ctx then file_read_pem C (file ctx) ui
   else file_read_asn1 C (file ctx)) = (Done (None, rest), trr) ->
  file_load (S f) ctx ui
  = (Done (None, if BIO_eof rest then set_file ctx rest
                 else incr_errcnt (set_file ctx rest)), trr)
  /\ forall f',
      file_load f' (incr_errcnt (set_file ctx rest)) ui
      = (Done (None, incr_errcnt (set_file ctx rest)), []).
Proof.
  intros Hs Herr Hread. split.
  - rewrite (file_load_sticky_none_read _ _ _ Hs).
    unfold file_load_read, file_error. rewrite Herr. cbn [Z.ltb Z.compare].
    cbn [file_load_loop]. unfold file_load_body.
    rewrite (bind_Done C _ _ _ _ Hread). cbn [fst snd].
    rewrite (file_eof_sticky_none C (set_file ctx rest) Hs).
    cbn. rewrite !app_nil_r. reflexivity.
  - intros f'.
    rewrite (file_load_sticky_none_read f' (incr_errcnt (set_file ctx rest))
               ui Hs).
    unfold file_load_read, file_error. cbn [errcnt incr_errcnt set_file].
    rewrite Herr. reflexivity.
Qed.

(** The loop of [file_load] over blobs no handler matches, up to the first
    blob that gives an object. *)
Lemma file_load_loop_skips (ui : UI_METHOD) (junk : list record) :
  forall iters f res mc (ctx : OSSL_STORE_LOADER_CTX C) r b j rest,
    sticky_none ctx ->
    errcnt ctx = 0%Z ->
    file ctx = junk ++ r :: rest ->
    Forall (fun x => exists bx, plain_blob (is_pem ctx) x = Some bx
                                /\ unsupported_blob C ui bx) junk ->
    plain_blob (is_pem ctx) r = Some b ->
    not_a_bundle C b ui -> objects_of C b ui = [j] ->
    (List.length junk < iters)%nat ->
    exists tr,
      file_load_loop iters (S f) ui (res, ctx, mc)
      = (Done (Some j, set_file ctx rest, 1%Z), tr)
      /\ reads tr = junk ++ [r].
Proof.
  induction junk as [|x junk IH];
    intros iters f res mc ctx r b j rest Hs Herr Hfile Hjunk Hb Hnb Hobj Hlen;
    (destruct iters as [|iters]; [cbn in Hlen; lia|]).
  - cbn [app] in Hfile. cbn [file_load_loop]. unfold file_load_body.
    rewrite (bind_Done C _ _ _ _ (read_plain_blob ctx ui r rest b Hb Hfile)).
    cbn [fst snd]. destruct b as [[pn ph] data].
    destruct Hnb as [t0 E0]. unfold objects_of in Hobj.
    destruct (dispatch_plain f (set_file ctx rest) pn ph data ui t0 E0)
      as (tr & Ed & Hrd).
    rewrite Hobj in Ed. rewrite Ed. cbn.
    eexists. split; [reflexivity|].
    cbn. rewrite !app_nil_r, reads_app, (reads_none tr Hrd), app_nil_r.
    pose proof (PKCS12_initial_reads pn data ui) as H0.
    rewrite E0 in H0. cbn in H0. rewrite H0. reflexivity.
  - inversion Hjunk as [|x' junk' (bx & Hbx & Hnbx & Hox) Hjunk']; subst.
    cbn [app] in Hfile. cbn [file_load_loop]. unfold file_load_body.
    rewrite (bind_Done C _ _ _ _
               (read_plain_blob ctx ui x (junk ++ r :: rest) bx Hbx Hfile)).
    cbn [fst snd]. destruct bx as [[pn ph] data].
    destruct Hnbx as [t0 E0]. unfold objects_of in Hox.
    destruct (dispatch_plain f (set_file ctx (junk ++ r :: rest))
                pn ph data ui t0 E0) as (tr & Ed & Hrd).
    rewrite Hox in Ed. rewrite Ed. cbn [bind ret fst snd app List.length].
    unfold file_load_again. cbn [Z.of_nat Z.eqb].
    rewrite (file_eof_sticky_none C (set_file ctx (junk ++ r :: rest)) Hs).
    assert (Hne : BIO_eof (junk ++ r :: rest) = false)
      by (destruct junk; reflexivity).
    cbn [file set_file bind ret fst snd]. rewrite Hne.
    unfold file_error. cbn [errcnt set_file negb]. rewrite Herr.
    cbn [Z.ltb Z.compare negb bind ret fst snd].
    destruct (IH iters f None 0%Z (set_file ctx (junk ++ r :: rest))
                r b j rest Hs Herr eq_refl Hjunk' Hb Hnb Hobj
                ltac:(cbn in Hlen; lia)) as (tr2 & E2 & Hr2).
    rewrite E2. cbn. eexists. split; [reflexivity|].
    cbn [reads]. rewrite !app_nil_r, !reads_app, (reads_none tr Hrd), app_nil_r.
    pose proof (PKCS12_initial_reads pn data ui) as H0.
    rewrite E0 in H0. cbn in H0. rewrite H0, Hr2. reflexivity.
Qed.

(** X13: [file_load] skips the blobs that no handler matches and returns the
    object of the first blob that exactly one handler matches, having read
    the stream up to and including that blob. *)
Theorem file_load_skips_unsupported
        (fuel : nat) (ctx : OSSL_STORE_LOADER_CTX C) (ui : UI_METHOD)
        (junk : list record) r b j (rest : BIO) :
  sticky_none ctx ->
  errcnt ctx = 0%Z ->
  file ctx = junk ++ r :: rest ->
  Forall (fun x => exists bx, plain_blob (is_pem ctx) x = Some bx
                              /\ unsupported_blob C ui bx) junk ->
  plain_blob (is_pem ctx) r = Some b ->
  not_a_bundle C b ui -> objects_of C b ui = [j] ->
  (List.length junk < fuel)%nat ->
  exists tr,
    file_load fuel ctx ui = (Done (Some j, set_file ctx rest), tr)
    /\ reads tr = junk ++ [r].
Proof.
  intros Hs Herr Hfile Hjunk Hb Hnb Hobj Hlen.
  rewrite (file_load_sticky_none_read _ _ _ Hs).
  unfold file_load_read, file_error. rewrite Herr. cbn [Z.ltb Z.compare].
  destruct fuel as [|f]; [lia|].
  destruct (file_load_loop_skips ui junk (S f) f None (-1)%Z ctx r b j rest
              Hs Herr Hfile Hjunk Hb Hnb Hobj Hlen) as (tr & E & Hr).
  rewrite E. cbn. exists (tr ++ []). split; [reflexivity|].
  rewrite app_nil_r. exact Hr.
Qed.

Lemma file_load_at_empty f (c : OSSL_STORE_LOADER_CTX C) ui :
  sticky_none c -> file c = [] ->
  file_load_read (S f) c ui = (Done (None, c), []).
Proof.
  intros Hs Hf. unfold file_load_read.
  destruct (file_error c); [reflexivity|].
  cbn [file_load_loop]. unfold file_load_body. rewrite Hf.
  assert (Er : (if is_pem c then file_read_pem C [] ui
                else file_read_asn1 C []) = (Done (None, []), []))
    by (destruct (is_pem c); reflexivity).
  rewrite (bind_Done C _ _ _ _ Er). cbn [fst snd].
  assert (Ec : set_file c [] = c)
    by (destruct c; cbn in Hf; subst; reflexivity).
  rewrite Ec, (file_eof_sticky_none C c Hs), Hf. reflexivity.
Qed.

(** X14: a stream that holds one object: the first call of [file_load] returns
    it, the second returns nothing, and the loader is then at its end
    without an error. *)
Theorem single_object_stream
        (f : nat) (ctx : OSSL_STORE_LOADER_CTX C) (ui : UI_METHOD) r b j :
  sticky_none ctx ->
  errcnt ctx = 0%Z ->
  file ctx = [r] ->
  plain_blob (is_pem ctx) r = Some b ->
  not_a_bundle C b ui -> objects_of C b ui = [j] ->
  exists tr,
    file_load_n (S f) 2 ctx ui = (Done ([Some j; None], set_file ctx []), tr)
    /\ reads tr = [r]
    /\ file_eof (set_file ctx []) = (Done true, [])
    /\ file_error (set_file ctx []) = false.
Proof.
  intros Hs Herr Hfile Hb Hnb Hobj.
  destruct (file_load_loop_skips ui [] (S f) f None (-1)%Z ctx r b j []
              Hs Herr Hfile ltac:(constructor) Hb Hnb Hobj
              ltac:(cbn; lia)) as (tr & E & Hr).
  assert (E1 : file_load (S f) ctx ui = (Done (Some j, set_file ctx []), tr)).
  { rewrite (file_load_sticky_none_read _ _ _ Hs).
    unfold file_load_read, file_error. rewrite Herr. cbn [Z.ltb Z.compare].
    rewrite E. cbn. rewrite app_nil_r. reflexivity. }
  assert (E2 : file_load (S f) (set_file ctx []) ui
               = (Done (None, set_file ctx []), [])).
  { rewrite (file_load_sticky_none_read _ (set_file ctx []) _ Hs).
    apply file_load_at_empty; [exact Hs|reflexivity]. }
  exists tr. split; [|split; [exact Hr|split]].
  - rewrite file_load_n_S, (bind_Done C _ _ _ _ E1). cbn [fst snd].
    rewrite file_load_n_S, (bind_Done C _ _ _ _ E2). cbn.
    rewrite !app_nil_r. reflexivity.
  - exact (file_eof_sticky_none C (set_file ctx []) Hs).
  - unfold file_error. cbn. rewrite Herr. reflexivity.
Qed.

(** X15: when [file_eof] answers true, the next call of [file_load] returns no
    object, reads nothing and leaves the error counter as it is; all it
    does is drop an exhausted bundle. *)
Theorem at_end_load_returns_nothing
        (f : nat) (ctx : OSSL_STORE_LOADER_CTX C) (ui : UI_METHOD) :
  sticky_inv ctx ->
  file_eof ctx = (Done true, []) ->
  file_load (S f) ctx ui
  = (Done (None, set_sticky ctx None None), teardown_events ctx).
Proof.
  intros Hinv He. unfold teardown_events.
  destruct Hinv as [Hn|[Hh [l Hl]]].
  - rewrite (file_eof_sticky_none C ctx Hn) in He.
    assert (Hf : file ctx = [])
      by (destruct (file ctx); [reflexivity|discriminate He]).
    rewrite (file_load_sticky_none_read _ _ _ Hn).
    rewrite (file_load_at_empty f ctx ui Hn Hf).
    destruct Hn as [Hh Hc]. rewrite Hc.
    destruct ctx; cbn in *; subst; reflexivity.
  - unfold file_eof in He. rewrite Hh, Hl in He. cbn in He.
    destruct l as [|i l]; [|discriminate He]. cbn in He.
    assert (Hf : file ctx = [])
      by (destruct (file ctx); [reflexivity|discriminate He]).
    unfold file_load, file_load_try_repeat. rewrite Hh, Hl. cbn.
    rewrite (file_load_at_empty f (set_sticky ctx None None) ui
               ltac:(split; reflexivity) Hf).
    reflexivity.
Qed.

(** X2: two or more handlers match and the bundle handler is not among them:
    every object produced is freed, the ambiguity is reported, and
    [file_load] returns no object without reading a further record. *)
Theorem ambiguous_blob_is_discarded
        (f : nat) (ctx : OSSL_STORE_LOADER_CTX C) (ui : UI_METHOD)
        pn ph data (rest : BIO) trr tr0 :
  sticky_none ctx ->
  errcnt ctx = 0%Z ->
  (if is_pem ctx then file_read_pem C (file ctx) ui
   else file_read_asn1 C (file ctx))
  = (Done (Some (pn, ph, data), rest), trr) ->
  PKCS12_initial C pn data ui = (Done None, tr0) ->
  (2 <= List.length (produced (plain_handlers C) pn ph data ui))%nat ->
  exists tr,
    file_load (S f) ctx ui
    = (Done (None, set_file ctx rest), trr ++ tr0 ++ tr)
    /\ In (EvErr R_AMBIGUOUS_CONTENT_TYPE) tr
    /\ (forall j, In j (produced (plain_handlers C) pn ph data ui) ->
                  In (EvInfoFree j) tr)
    /\ (forall r, ~ In (EvRead r) tr).
Proof.
  exact (ambiguity_without_bundle C f ctx ui pn ph data rest trr tr0).
Qed.

(** X4: the five handlers that are not repeatable have no destroy function
    and, offered a blob by the dispatch engine, emit nothing, leave the
    context slot null and never produce an embedded blob. *)
Theorem plain_handlers_are_pure (h : FILE_HANDLER C) pn ph data ui :
  In h (file_handlers C) ->
  h <> PKCS12_handler C ->
  destroy_ctx h = None /\ repeatable h = false
  /\ exists r,
      try_decode h pn ph data None ui = (Done (r, None), [])
      /\ forall i, r = Some i -> is_EMBEDDED i = false.
Proof.
  intros Hin Hne. rewrite file_handlers_eq in Hin.
  destruct Hin as [<-|Hin]; [congruence|].
  pose proof (plain_handlers_spec C) as Hall.
  rewrite Forall_forall in Hall.
  destruct (Hall h Hin) as (Hd & Hr & Hdec).
  split; [exact Hd|]. split; [exact Hr|]. exact (Hdec pn ph data None ui).
Qed.

(** ** A bundle: every object is handed out or freed *)

Lemma file_load_n_bundle fuel ui (l : list (OSSL_STORE_INFO C)) :
  forall m (ctx : OSSL_STORE_LOADER_CTX C),
    (m <= List.length l)%nat ->
    file_load_n fuel m
                (set_sticky ctx (Some (PKCS12_handler C)) (Some l)) ui
    = (Done (map Some (firstn m l),
             set_sticky ctx (Some (PKCS12_handler C)) (Some (skipn m l))),
       []).
Proof.
  induction l as [|i l IH]; intros m ctx Hm.
  - destruct m; [reflexivity|cbn in Hm; lia].
  - destruct m as [|m]; [reflexivity|].
    rewrite file_load_n_S.
    assert (E : file_load fuel
                  (set_sticky ctx (Some (PKCS12_handler C)) (Some (i :: l)))
                  ui
                = (Done (Some i,
                         set_sticky ctx (Some (PKCS12_handler C)) (Some l)),
                   [])) by reflexivity.
    rewrite (bind_Done C _ _ _ _ E). cbn [fst snd].
    rewrite (IH m ctx ltac:(cbn in Hm; lia)). reflexivity.
Qed.

(** X16: a loader in the middle of a bundle that is closed after [m] more
    calls of [file_load]: the calls hand out the first [m] objects of the
    stack without reading the stream, and [file_close] frees the others;
    no object is both handed out and freed, and none is left. *)
Theorem bundle_objects_returned_or_freed
        (fuel m : nat) (ctx : OSSL_STORE_LOADER_CTX C) (ui : UI_METHOD)
        (l : list (OSSL_STORE_INFO C)) :
  last_handler ctx = Some (PKCS12_handler C) ->
  last_handler_ctx ctx = Some l ->
  (m <= List.length l)%nat ->
  exists ctx',
    file_load_n fuel m ctx ui = (Done (map Some (firstn m l), ctx'), [])
    /\ file ctx' = file ctx
    /\ file_close ctx'
       = (Done 1%Z, [EvStackPopFree (skipn m l); EvBIOFree; EvCtxFree])
    /\ firstn m l ++ skipn m l = l.
Proof.
  intros Hh Hl Hm.
  assert (Ec : ctx = set_sticky ctx (Some (PKCS12_handler C)) (Some l))
    by (destruct ctx; cbn in *; subst; reflexivity).
  exists (set_sticky ctx (Some (PKCS12_handler C)) (Some (skipn m l))).
  split; [|split; [reflexivity|split; [reflexivity|apply firstn_skipn]]].
  rewrite Ec at 1. apply file_load_n_bundle. exact Hm.
Qed.

(** ** The handlers for keys and parameters *)

Lemma first_decoded_spec
      (decode : ASN1_METHOD (EVP_PKEY C) -> option (EVP_PKEY C)) meths :
  (forall k, first_decoded C decode meths = Some k
             <-> exists pre m post,
      meths = pre ++ m :: post
      /\ not_alias C m = true
      /\ decode m = Some k
      /\ Forall (fun m' => not_alias C m' = false \/ decode m' = None) pre)
  /\ (first_decoded C decode meths = None
      <-> Forall (fun m' => not_alias C m' = false \/ decode m' = None)
                 meths).
Proof.
  induction meths as [|a meths [IHs IHn]].
  - split; [intros k|]; split; try discriminate.
    + intros (pre & m & post & H & _). destruct pre; discriminate H.
    + constructor.
    + reflexivity.
  - cbn [first_decoded].
    destruct (not_alias C a) eqn:Ea.
    + destruct (decode a) as [ka|] eqn:Ed.
      * split; [intros k|]; split.
        -- intros H. inversion H; subst. exists [], a, meths.
           repeat split; auto.
        -- intros (pre & m & post & H & Hm & Hd & Hpre).
           destruct pre as [|x pre]; inversion H; subst; [congruence|].
           inversion Hpre as [|? ? [Hx|Hx] _]; congruence.
        -- discriminate.
        -- intros H. inversion H as [|? ? [Hx|Hx] _]; congruence.
      * split; [intros k|]; split.
        -- intros H. apply IHs in H.
           destruct H as (pre & m & post & -> & Hm & Hd & Hpre).
           exists (a :: pre), m, post. repeat split; auto.
        -- intros (pre & m & post & H & Hm & Hd & Hpre).
           destruct pre as [|x pre]; inversion H; subst; [congruence|].
           apply IHs. exists pre, m, post. inversion Hpre; subst.
           repeat split; auto.
        -- intros H. constructor; [right; exact Ed|apply IHn; exact H].
        -- intros H. inversion H; subst. apply IHn. assumption.
    + split; [intros k|]; split.
      * intros H. apply IHs in H.
        destruct H as (pre & m & post & -> & Hm & Hd & Hpre).
        exists (a :: pre), m, post. repeat split; auto.
      * intros (pre & m & post & H & Hm & Hd & Hpre).
        destruct pre as [|x pre]; inversion H; subst; [congruence|].
        apply IHs. exists pre, m, post. inversion Hpre; subst.
        repeat split; auto.
      * intros H. constructor; [left; exact Ea|apply IHn; exact H].
      * intros H. inversion H; subst. apply IHn. assumption.
Qed.

Lemma PrivateKey_any_first meths blob :
  PrivateKey_any C meths blob
  = first_decoded C (fun m => d2i_PrivateKey C (pkey_id m) blob) meths.
Proof.
  induction meths as [|a meths IH]; [reflexivity|].
  cbn [PrivateKey_any first_decoded]. fold (not_alias C a).
  destruct (not_alias C a); cbn [negb]; rewrite IH; reflexivity.
Qed.

Lemma params_any_first meths blob :
  params_any C meths blob
  = first_decoded C (fun m => params_with C m blob) meths.
Proof.
  induction meths as [|a meths IH]; [reflexivity|].
  cbn [params_any first_decoded]. fold (not_alias C a). unfold params_with.
  destruct (not_alias C a); cbn [negb]; rewrite IH; [|reflexivity].
  destruct (EVP_PKEY_set_type C (pkey_id a)) as [a'|]; [|reflexivity].
  destruct (run_param_decode C a' blob); reflexivity.
Qed.

(** X5: the private key handler.  Under a declared name it decodes with the
    one method the name selects, and reports no match when the name does
    not end in [PRIVATE KEY] or selects no method.  Without a name it goes
    through the registered methods in order, passes over the aliases, and
    takes the key of the first method that decodes the blob. *)
Theorem PrivateKey_method_choice
        (ph : option string) (blob : bytes) (hc : handler_ctx C)
        (ui : UI_METHOD) :
  (forall nm,
      @try_decode_PrivateKey C (Some nm) ph blob hc ui
      = (Done (if (0 <? pem_check_suffix C nm "PRIVATE KEY")%Z
               then match EVP_PKEY_asn1_find_str
                            C nm (pem_check_suffix C nm "PRIVATE KEY") with
                    | Some ameth =>
                        option_map INFO_PKEY
                                   (d2i_PrivateKey C (pkey_id ameth) blob)
                    | None => None
                    end
               else None, None), []))
  /\ (forall k,
      @try_decode_PrivateKey C None ph blob hc ui
      = (Done (Some (INFO_PKEY k), None), [])
      <-> exists pre m post,
          asn1_meths C = pre ++ m :: post
          /\ not_alias C m = true
          /\ d2i_PrivateKey C (pkey_id m) blob = Some k
          /\ Forall (fun m' => not_alias C m' = false
                               \/ d2i_PrivateKey C (pkey_id m') blob = None)
                    pre)
  /\ (@try_decode_PrivateKey C None ph blob hc ui = (Done (None, None), [])
      <-> Forall (fun m' => not_alias C m' = false
                            \/ d2i_PrivateKey C (pkey_id m') blob = None)
                 (asn1_meths C)).
Proof.
  destruct (first_decoded_spec
              (fun m => d2i_PrivateKey C (pkey_id m) blob) (asn1_meths C))
    as [Hs Hn].
  unfold try_decode_PrivateKey, plain, ret.
  split; [|split; [intros k|]].
  - intros nm.
    destruct (0 <? pem_check_suffix C nm "PRIVATE KEY")%Z; [|reflexivity].
    destruct (EVP_PKEY_asn1_find_str C nm _) as [ameth|]; [|reflexivity].
    destruct (d2i_PrivateKey C (pkey_id ameth) blob); reflexivity.
  - rewrite <- (Hs k), PrivateKey_any_first.
    destruct (first_decoded C _ (asn1_meths C)); split; intros H;
      inversion H; subst; reflexivity.
  - rewrite <- Hn, PrivateKey_any_first.
    destruct (first_decoded C _ (asn1_meths C)); split; intros H;
      inversion H; subst; reflexivity.
Qed.

(** X6: the parameter handler.  Under a declared name it decodes with the
    method the name binds the key to, and reports no match when the name
    does not end in [PARAMETERS].  Without a name it goes through the
    registered methods in order, passes over the aliases, and takes the
    parameters of the first method that decodes the blob. *)
Theorem params_method_choice
        (ph : option string) (blob : bytes) (hc : handler_ctx C)
        (ui : UI_METHOD) :
  (forall nm,
      @try_decode_params C (Some nm) ph blob hc ui
      = (Done (if (0 <? pem_check_suffix C nm "PARAMETERS")%Z
               then match EVP_PKEY_set_type_str
                            C nm (pem_check_suffix C nm "PARAMETERS") with
                    | Some ameth =>
                        option_map INFO_PARAMS
                                   (run_param_decode C ameth blob)
                    | None => None
                    end
               else None, None), []))
  /\ (forall k,
      @try_decode_params C None ph blob hc ui
      = (Done (Some (INFO_PARAMS k), None), [])
      <-> exists pre m post,
          asn1_meths C = pre ++ m :: post
          /\ not_alias C m = true
          /\ params_with C m blob = Some k
          /\ Forall (fun m' => not_alias C m' = false
                               \/ params_with C m' blob = None) pre)
  /\ (@try_decode_params C None ph blob hc ui = (Done (None, None), [])
      <-> Forall (fun m' => not_alias C m' = false
                            \/ params_with C m' blob = None)
                 (asn1_meths C)).
Proof.
  destruct (first_decoded_spec
              (fun m => params_with C m blob) (asn1_meths C)) as [Hs Hn].
  unfold try_decode_params, plain, ret.
  split; [|split; [intros k|]].
  - intros nm.
    destruct (0 <? pem_check_suffix C nm "PARAMETERS")%Z; [|reflexivity].
    destruct (EVP_PKEY_set_type_str C nm _) as [ameth|]; reflexivity.
  - rewrite <- (Hs k), params_any_first.
    destruct (first_decoded C _ (asn1_meths C)); split; intros H;
      inversion H; subst; reflexivity.
  - rewrite <- Hn, params_any_first.
    destruct (first_decoded C _ (asn1_meths C)); split; intros H;
      inversion H; subst; reflexivity.
Qed.

(** ** The count of matches *)

(** X1: on a blob the bundle handler does not match, the dispatch returns
    with the match count equal to the number of handlers that produce an
    object; it returns the object exactly when that number is one, and its
    last event tells the three cases apart: the errors are cleared for one
    match, [unsupported] is raised for none and [ambiguous] for more.  The
    loader is left as it was and the stream is not read. *)
Theorem dispatch_counts_matches
        (f : nat) (ctx : OSSL_STORE_LOADER_CTX C) (ui : UI_METHOD)
        (pn ph : option string) (data : bytes) tr0 :
  PKCS12_initial C pn data ui = (Done None, tr0) ->
  let objs := produced (plain_handlers C) pn ph data ui in
  exists tr1,
    file_load_try_decode (S f) (Some ctx) pn ph data ui
    = (Done (match objs with
             | [j] => Some j
             | _ => None
             end, Some ctx, Z.of_nat (List.length objs)),
       tr0 ++ [EvErr R_IS_NOT_A; EvErrData "PKCS12"] ++ tr1
           ++ [match objs with
               | [] => EvErr R_UNSUPPORTED_CONTENT_TYPE
               | [_] => EvErrClear
               | _ => EvErr R_AMBIGUOUS_CONTENT_TYPE
               end])
    /\ reads tr1 = [].
Proof.
  intros E objs.
  destruct (try_handlers_plain_acc C (plain_handlers C) pn ph data ui
              (plain_handlers_spec C) _ _ _ (plain_acc_init C))
    as (st & tr1 & Et & (Hc & Hmc & Hres & Hm0 & Hm & Hfree & Hrd)).
  cbn [app] in Hmc, Hres, Hm0, Hm, Hfree, Hrd.
  pose proof (produced_not_embedded (plain_handlers C) pn ph data ui
                (plain_handlers_spec C)) as Hemb.
  fold objs in Hmc, Hres, Hm0, Hm, Hfree, Hemb.
  exists tr1. split; [|exact (reads_none tr1 Hrd)].
  unfold file_load_try_decode. rewrite file_load_try_decode_S.
  unfold dispatch_pass. rewrite file_handlers_eq, try_handlers_cons.
  rewrite (bind_Done C _ _ _ _
             (proj1 (try_handler_PKCS12 C pn ph data ui) tr0 E)).
  rewrite Et. cbn [fst snd].
  rewrite (bind_Done C _ _ st _ eq_refl). unfold after_handlers.
  rewrite Hmc, Hres.
  destruct objs as [|a [|b objs']].
  - rewrite (Hm0 eq_refl). cbn.
    rewrite !app_nil_r, <- !app_assoc. reflexivity.
  - destruct (Hm ltac:(discriminate)) as (h0 & hs0 & Hmh & Hrep).
    rewrite Hmh, Hrep.
    assert (Ha : is_EMBEDDED a = false) by (apply Hemb; left; reflexivity).
    destruct a; try discriminate Ha; cbn;
      rewrite !app_nil_r, <- !app_assoc; reflexivity.
  - destruct (Hm ltac:(discriminate)) as (h0 & hs0 & Hmh & Hrep).
    rewrite Hmh, Hrep.
    replace (1 <? Z.of_nat (List.length (a :: b :: objs')))%Z with true
      by (symmetry; apply Z.ltb_lt; cbn [List.length]; lia).
    replace (Z.of_nat (List.length (a :: b :: objs')) =? 0)%Z with false
      by (symmetry; apply Z.eqb_neq; cbn [List.length]; lia).
    cbn. rewrite !app_nil_r, <- !app_assoc. reflexivity.
Qed.

(** ** A declared name selects the handler *)

Lemma produced_by_name nm ph data ui :
  (pem_check_suffix C nm "PRIVATE KEY" <= 0)%Z ->
  (pem_check_suffix C nm "PARAMETERS" <= 0)%Z ->
  produced (plain_handlers C) (Some nm) ph data ui
  = match
      (if String.eqb nm PEM_STRING_X509_TRUSTED
       then option_map INFO_CERT (X509_decode C false data)
       else if orb (String.eqb nm PEM_STRING_X509_OLD)
                   (String.eqb nm PEM_STRING_X509)
       then option_map INFO_CERT (X509_decode C true data)
       else if String.eqb nm PEM_STRING_X509_CRL
       then option_map INFO_CRL (d2i_X509_CRL C data)
       else if String.eqb nm PEM_STRING_PUBLIC
       then option_map INFO_PKEY (d2i_PUBKEY C data)
       else None)
    with
    | Some j => [j]
    | None => []
    end.
Proof.
  intros Hk Hp.
  apply Z.ltb_ge in Hk. apply Z.ltb_ge in Hp.
  unfold produced, plain_handlers. cbn [flat_map try_decode
    X509Certificate_handler X509CRL_handler params_handler PUBKEY_handler
    PrivateKey_handler].
  unfold try_decode_X509Certificate, try_decode_X509CRL, try_decode_params,
    try_decode_PUBKEY, try_decode_PrivateKey, CStr.strcmp0, plain, ret.
  rewrite Hk, Hp.
  destruct (String.eqb_spec nm PEM_STRING_X509_TRUSTED) as [->|H1].
  { cbn. destruct (X509_decode C false data); reflexivity. }
  destruct (String.eqb_spec nm PEM_STRING_X509_OLD) as [->|H2].
  { cbn. destruct (X509_decode C true data); reflexivity. }
  destruct (String.eqb_spec nm PEM_STRING_X509) as [->|H3].
  { cbn. destruct (X509_decode C true data); reflexivity. }
  destruct (String.eqb_spec nm PEM_STRING_X509_CRL) as [->|H4].
  { cbn. destruct (d2i_X509_CRL C data); reflexivity. }
  destruct (String.eqb_spec nm PEM_STRING_PUBLIC) as [->|H5].
  { cbn. destruct (d2i_PUBKEY C data); reflexivity. }
  reflexivity.
Qed.

(** X3: a blob with a declared name that does not carry a key or parameter
    suffix is offered to every handler, but only the handler of that name
    can match: the dispatch gives that handler's object or none, the match
    count is 1 or 0, never an ambiguity, and the loader is not touched. *)
Theorem pem_name_selects_one_handler
        (f : nat) (ctx : OSSL_STORE_LOADER_CTX C) (ui : UI_METHOD)
        (nm : string) (ph : option string) (data : bytes) :
  (pem_check_suffix C nm "PRIVATE KEY" <= 0)%Z ->
  (pem_check_suffix C nm "PARAMETERS" <= 0)%Z ->
  let res :=
    if String.eqb nm PEM_STRING_X509_TRUSTED
    then option_map INFO_CERT (X509_decode C false data)
    else if orb (String.eqb nm PEM_STRING_X509_OLD)
                (String.eqb nm PEM_STRING_X509)
    then option_map INFO_CERT (X509_decode C true data)
    else if String.eqb nm PEM_STRING_X509_CRL
    then option_map INFO_CRL (d2i_X509_CRL C data)
    else if String.eqb nm PEM_STRING_PUBLIC
    then option_map INFO_PKEY (d2i_PUBKEY C data)
    else None in
  exists tr,
    file_load_try_decode (S f) (Some ctx) (Some nm) ph data ui
    = (Done (res, Some ctx, match res with
                            | Some _ => 1%Z
                            | None => 0%Z
                            end), tr).
Proof.
  intros Hk Hp res.
  destruct (dispatch_plain f ctx (Some nm) ph data ui [] eq_refl)
    as (tr & E & _).
  rewrite (produced_by_name nm ph data ui Hk Hp) in E. fold res in E.
  exists tr. rewrite E. destruct res; reflexivity.
Qed.

(** ** Locators that are accepted *)

Lemma substring_0_0 (s : string) : substring 0 0 s = EmptyString.
Proof. destruct s; reflexivity. Qed.

(** A scheme is five characters that read [file:] whatever their case. *)
Lemma scheme_accepted (scheme x : string) :
  String.length scheme = 5%nat ->
  CStr.lower scheme = "file:" ->
  CStr.strncasecmp0 (scheme ++ x) "file:" 5 = true
  /\ exists a b c d e,
      scheme = String a (String b (String c (String d (String e ""))))%string.
Proof.
  intros Hlen Hlow.
  do 5 (destruct scheme as [|? scheme]; [discriminate Hlen|]).
  destruct scheme; [|discriminate Hlen].
  split; [|eauto 6].
  unfold CStr.strncasecmp0, CStr.strncmp0. cbn in Hlow |- *.
  injection Hlow as -> -> -> -> ->.
  rewrite substring_0_0. reflexivity.
Qed.

(** X17: the three forms of a [file:] locator come to the same: for
    [file://localhost/p], [file:///p] and, when [p] does not start with a
    second slash, [file:/p], the path is [/p].  Without [_WIN32] that path
    is opened.  With it, a non-empty [p] makes the drive letter test read
    within the path, and [/p] or [p] is opened; for an empty [p] the test
    reads behind the end of the locator.  A locator without the scheme is
    opened as it stands. *)
Theorem file_open_locator_forms
        (win32 : bool) (fs : filesystem) (scheme p : string) :
  String.length scheme = 5%nat ->
  CStr.lower scheme = "file:" ->
  let path := String "/" p in
  let opened := file_open C win32 fs (scheme ++ "//localhost" ++ path) in
  file_open C win32 fs (scheme ++ "//" ++ path) = opened
  /\ (CStr.at_ p 0 <> "/"%char ->
      file_open C win32 fs (scheme ++ path) = opened)
  /\ (win32 = false -> opened = file_open_path C fs path)
  /\ (p <> EmptyString ->
      opened
      = file_open_path C fs
          (if andb win32 (andb (Ascii.eqb (CStr.at_ p 1) ":")
                               (Ascii.eqb (CStr.at_ p 2) "/"))
           then p else path))
  /\ (win32 = true -> p = EmptyString -> opened = (OutOfBounds, []))
  /\ (forall uri,
      CStr.strncasecmp0 uri "file:" 5 = false ->
      file_open C win32 fs uri = file_open_path C fs uri).
Proof.
  intros Hlen Hlow path opened.
  assert (Hs : forall x, CStr.strncasecmp0 (scheme ++ x) "file:" 5 = true)
    by (intros x; apply (scheme_accepted scheme x Hlen Hlow)).
  destruct (scheme_accepted scheme "" Hlen Hlow)
    as (_ & a & b & c & d & e & Hsch).
  assert (Ho : opened = match win32_path win32 path with
                        | Some path' => file_open_path C fs path'
                        | None => out_of_bounds
                        end).
  { unfold opened, file_open. rewrite Hs. subst scheme.
    unfold file_uri_path, CStr.strncmp0, path.
    cbn. rewrite substring_0_0. reflexivity. }
  repeat apply conj.
  - rewrite Ho. unfold file_open. rewrite Hs. subst scheme.
    unfold file_uri_path, CStr.strncmp0, path.
    cbn. rewrite substring_0_0. reflexivity.
  - intros Hp. rewrite Ho. unfold file_open. rewrite Hs. subst scheme.
    unfold file_uri_path, CStr.strncmp0, path. cbn.
    destruct p as [|x p]; [reflexivity|].
    cbn in Hp. cbn.
    destruct (Ascii.eqb_spec x "/") as [->|Hx]; [congruence|].
    reflexivity.
  - intros ->. rewrite Ho. reflexivity.
  - intros Hp. rewrite Ho. destruct p as [|x p]; [congruence|].
    destruct win32; [|reflexivity].
    assert (Hw : win32_path true path
                 = Some (if andb (Ascii.eqb (CStr.at_ (String x p) 1) ":")
                                 (Ascii.eqb (CStr.at_ (String x p) 2) "/")
                         then String x p else path)).
    { unfold win32_path, path, CStr.at_. cbn.
      match goal with
      | |- context [if ?b then _ else _] => destruct b
      end; reflexivity. }
    rewrite Hw. reflexivity.
  - intros -> ->. rewrite Ho. reflexivity.
  - intros uri Hu. unfold file_open. rewrite Hu. reflexivity.
Qed.

(** X18: on Windows a locator [file:///d:/q] opens [d:/q], the slash before the
    drive letter being dropped; elsewhere it opens [/d:/q]. *)
Theorem file_open_win32_drive_letter
        (fs : filesystem) (scheme : string) (d : ascii) (q : string) :
  String.length scheme = 5%nat ->
  CStr.lower scheme = "file:" ->
  let drive := String d (String ":" (String "/" q)) in
  file_open C true fs (scheme ++ "///" ++ drive) = file_open_path C fs drive
  /\ file_open C false fs (scheme ++ "///" ++ drive)
     = file_open_path C fs (String "/" drive).
Proof.
  intros Hlen Hlow drive.
  assert (Hs : forall x, CStr.strncasecmp0 (scheme ++ x) "file:" 5 = true)
    by (intros x; apply (scheme_accepted scheme x Hlen Hlow)).
  destruct (scheme_accepted scheme "" Hlen Hlow)
    as (_ & a & b & c & d' & e & Hsch).
  unfold file_open. rewrite !Hs. subst scheme.
  unfold file_uri_path, CStr.strncmp0, drive. cbn.
  split; reflexivity.
Qed.

(** ** What an open gives *)

Lemma prefix_spec (n h : string) :
  String.prefix n h = true <-> exists post, h = (n ++ post)%string.
Proof.
  revert h. induction n as [|c n IH]; intros h.
  - split; [intros _; exists h; reflexivity|].
    intros _. destruct h; reflexivity.
  - destruct h as [|c' h]; cbn.
    + split; [discriminate|]. intros [post H]. discriminate H.
    + destruct (Ascii.ascii_dec c c') as [->|Hc].
      * rewrite IH. split; intros [post H]; exists post; congruence.
      * split; [discriminate|]. intros [post H]. congruence.
Qed.

(** [strstr] finds the needle exactly when the haystack contains it. *)
Lemma strstr_spec (hay needle : string) :
  CStr.strstr hay needle = true
  <-> exists pre post, hay = (pre ++ needle ++ post)%string.
Proof.
  induction hay as [|c hay IH]; cbn [CStr.strstr].
  - destruct (String.prefix needle "") eqn:Ep.
    + split; [intros _|reflexivity].
      apply prefix_spec in Ep. destruct Ep as [post H].
      exists "", post. exact H.
    + split; [discriminate|]. intros (pre & post & H).
      destruct pre; [|discriminate H].
      assert (Hp : String.prefix needle "" = true)
        by (apply prefix_spec; exists post; exact H).
      congruence.
  - destruct (String.prefix needle (String c hay)) eqn:Ep.
    + split; [intros _|reflexivity].
      apply prefix_spec in Ep. destruct Ep as [post H].
      exists "", post. exact H.
    + rewrite IH. split.
      * intros (pre & post & ->). exists (String c pre), post. reflexivity.
      * intros (pre & post & H). destruct pre as [|c' pre].
        -- assert (Hp : String.prefix needle (String c hay) = true)
             by (apply prefix_spec; exists post; exact H).
           congruence.
        -- injection H as _ H. exists pre, post. exact H.
Qed.

Lemma cstr_app (a b : string) :
  CStr.cstr a = a -> CStr.cstr (a ++ b) = (a ++ CStr.cstr b)%string.
Proof.
  induction a as [|x a IH]; cbn; [reflexivity|].
  destruct (Ascii.eqb x zero); [discriminate|].
  intros H. injection H as H. rewrite (IH H). reflexivity.
Qed.

Lemma substring_0_app (a b : string) :
  forall n, (String.length a <= n)%nat ->
  substring 0 n (a ++ b) = (a ++ substring 0 (n - String.length a) b)%string.
Proof.
  induction a as [|x a IH]; intros n Hn; cbn.
  - rewrite Nat.sub_0_r. reflexivity.
  - destruct n as [|n]; [cbn in Hn; lia|].
    cbn in Hn. cbn. rewrite IH by lia. reflexivity.
Qed.

Lemma append_assoc (a b c : string) :
  ((a ++ b) ++ c = a ++ (b ++ c))%string.
Proof.
  induction a as [|x a IH]; cbn; [reflexivity|]. rewrite IH. reflexivity.
Qed.

Lemma append_nil_r (a : string) : (a ++ "" = a)%string.
Proof.
  induction a as [|x a IH]; cbn; [reflexivity|]. rewrite IH. reflexivity.
Qed.

(** A NUL among the bytes peeked ends the search there. *)
Lemma peekbuf_nul (f : file_content) (pre post : string) :
  peek f = (pre ++ String zero post)%string ->
  CStr.cstr pre = pre ->
  (String.length pre < peekbuf_size - 1)%nat ->
  CStr.cstr (peekbuf f) = pre.
Proof.
  intros Hp Hc Hl. unfold peekbuf. rewrite Hp, append_assoc.
  rewrite substring_0_app by lia.
  destruct (peekbuf_size - 1 - String.length pre)%nat as [|m] eqn:Em;
    [lia|].
  cbn [append substring]. rewrite cstr_app by exact Hc.
  cbn. apply append_nil_r.
Qed.

(** The marker among the bytes peeked, before any NUL, is found. *)
Lemma peekbuf_marker (f : file_content) (pre post : string) :
  peek f = (pre ++ "-----BEGIN " ++ post)%string ->
  CStr.cstr pre = pre ->
  (String.length pre + 11 <= peekbuf_size - 1)%nat ->
  exists post',
    CStr.cstr (peekbuf f) = (pre ++ "-----BEGIN " ++ post')%string.
Proof.
  intros Hp Hc Hl. unfold peekbuf. rewrite Hp, !append_assoc.
  rewrite substring_0_app by lia.
  rewrite (substring_0_app "-----BEGIN ")
    by (change (String.length "-----BEGIN ") with 11%nat; lia).
  rewrite cstr_app by exact Hc.
  rewrite (cstr_app "-----BEGIN ") by reflexivity.
  eexists. reflexivity.
Qed.

(** X19: what [file_open] gives.  It opens at most one file, and returns
    unless, under [_WIN32], the path of a [file:] locator is the single
    character [/], where the drive letter test reads behind the end of the
    locator.  A loader it returns stands at the start of the file, without
    error or sticky state; it is marked PEM exactly when something was
    peeked and the C string in the peek buffer contains the marker
    [-----BEGIN ].  That string ends at the first NUL among the bytes
    peeked, so that the marker behind a NUL does not count, and the marker
    before any NUL does; without a NUL it runs on into bytes of the buffer
    that were not written.  When none is returned, the locator was rejected
    and nothing was opened, or the file could not be opened. *)
Theorem file_open_result (win32 : bool) (fs : filesystem) (uri : string) :
  (exists r tr,
      file_open C win32 fs uri = (Done r, tr)
      /\ match r with
         | Some ctx =>
             exists path f,
             tr = [EvFileOpen path] /\ fs path = Some f
             /\ file ctx = stream f /\ errcnt ctx = 0%Z
             /\ sticky_none ctx
             /\ (is_pem ctx = true
                 <-> peek f <> EmptyString
                     /\ exists pre post,
                         CStr.cstr (peekbuf f)
                         = (pre ++ "-----BEGIN " ++ post)%string)
             /\ (forall pre post,
                    peek f = (pre ++ String zero post)%string ->
                    CStr.cstr pre = pre ->
                    (String.length pre < peekbuf_size - 1)%nat ->
                    is_pem ctx = CStr.strstr pre "-----BEGIN ")
             /\ (forall pre post,
                    peek f = (pre ++ "-----BEGIN " ++ post)%string ->
                    CStr.cstr pre = pre ->
                    (String.length pre + 11 <= peekbuf_size - 1)%nat ->
                    is_pem ctx = true)
         | None =>
             tr = [EvErr R_URI_AUTHORITY_UNSUPPORTED]
             \/ tr = [EvErr R_PATH_MUST_BE_ABSOLUTE]
             \/ exists path, tr = [EvFileOpen path] /\ fs path = None
         end)
  \/ (win32 = true
      /\ CStr.strncasecmp0 uri "file:" 5 = true
      /\ file_uri_path uri = Some "/"%string
      /\ file_open C win32 fs uri = (OutOfBounds, [])).
Proof.
  assert (Hp : forall path,
             exists r tr,
               file_open_path C fs path = (Done r, tr)
               /\ match r with
                  | Some ctx =>
                      exists path f,
                      tr = [EvFileOpen path] /\ fs path = Some f
                      /\ file ctx = stream f /\ errcnt ctx = 0%Z
                      /\ sticky_none ctx
                      /\ (is_pem ctx = true
                          <-> peek f <> EmptyString
                              /\ exists pre post,
                                  CStr.cstr (peekbuf f)
                                  = (pre ++ "-----BEGIN " ++ post)%string)
                      /\ (forall pre post,
                             peek f = (pre ++ String zero post)%string ->
                             CStr.cstr pre = pre ->
                             (String.length pre < peekbuf_size - 1)%nat ->
                             is_pem ctx = CStr.strstr pre "-----BEGIN ")
                      /\ (forall pre post,
                             peek f = (pre ++ "-----BEGIN " ++ post)%string ->
                             CStr.cstr pre = pre ->
                             (String.length pre + 11
                              <= peekbuf_size - 1)%nat ->
                             is_pem ctx = true)
                  | None =>
                      tr = [EvErr R_URI_AUTHORITY_UNSUPPORTED]
                      \/ tr = [EvErr R_PATH_MUST_BE_ABSOLUTE]
                      \/ exists path, tr = [EvFileOpen path]
                                      /\ fs path = None
                  end).
  { intros path. unfold file_open_path. rewrite bind_emit.
    destruct (fs path) as [f|] eqn:Ef; cbn [fst snd ret app].
    - eexists _, _. split; [reflexivity|].
      exists path, f.
      split; [reflexivity|]. split; [exact Ef|].
      split; [reflexivity|]. split; [reflexivity|].
      split; [split; reflexivity|]. cbn [is_pem].
      assert (Hne : forall s : string,
                 s <> EmptyString -> (0 <? String.length s)%nat = true)
        by (intros [|x s] Hs; [congruence|reflexivity]).
      split; [|split].
      + rewrite andb_true_iff, strstr_spec. split.
        * intros [Hlen Hm]. split; [|exact Hm].
          intros Hn. rewrite Hn in Hlen. discriminate Hlen.
        * intros [Hn Hm]. split; [exact (Hne _ Hn)|exact Hm].
      + intros pre post Hpk Hc Hl.
        rewrite (peekbuf_nul f pre post Hpk Hc Hl).
        rewrite Hne; [reflexivity|].
        rewrite Hpk. destruct pre; discriminate.
      + intros pre post Hpk Hc Hl.
        destruct (peekbuf_marker f pre post Hpk Hc Hl) as [post' Hb].
        apply andb_true_iff. split.
        * apply Hne. rewrite Hpk. destruct pre; discriminate.
        * apply strstr_spec. exists pre, post'. exact Hb.
    - eexists _, _. split; [reflexivity|]. right. right. eauto. }
  unfold file_open.
  destruct (CStr.strncasecmp0 uri "file:" 5) eqn:Es; [|left; apply Hp].
  destruct (file_uri_path uri) as [path|] eqn:Eu.
  - destruct (negb (Ascii.eqb (CStr.at_ path 0) "/")) eqn:Ea.
    + left. eexists _, _. split; [reflexivity|]. right. left. reflexivity.
    + destruct (win32_path win32 path) as [path'|] eqn:Ew;
        [left; apply Hp|].
      right. unfold win32_path in Ew.
      destruct win32; [|discriminate Ew].
      apply negb_false_iff in Ea. rewrite Ea in Ew.
      destruct path as [|x [|y path]].
      * discriminate Ea.
      * cbn in Ea. apply Ascii.eqb_eq in Ea. subst x.
        repeat split; reflexivity.
      * exfalso. cbn [String.length Nat.ltb Nat.leb] in Ew.
        destruct (andb (Ascii.eqb (CStr.at_ (String x (String y path)) 2)
                                  ":")
                       (Ascii.eqb (CStr.at_ (String x (String y path)) 3)
                                  "/")); discriminate Ew.
  - left. eexists _, _. split; [reflexivity|]. left. reflexivity.
Qed.

(** ** When [file_load] calls through a null pointer *)

Lemma dispatch_null_call f (ctx : OSSL_STORE_LOADER_CTX C) pn ph data ui tr :
  file_load_try_decode (S f) (Some ctx) pn ph data ui = (NullCall, tr) ->
  pn = None
  /\ produced (plain_handlers C) None ph data ui <> []
  /\ exists l tr0, PKCS12_initial C None data ui = (Done (Some l), tr0).
Proof.
  intros E.
  destruct (PKCS12_initial_cases C pn data ui)
    as [tr0 [E0|(k & c & ch & E0)]].
  - destruct (dispatch_plain f ctx pn ph data ui tr0 E0) as (t & Ed & _).
    rewrite Ed in E. discriminate E.
  - destruct pn as [nm|]; [discriminate E0|].
    split; [reflexivity|]. split; [|eauto].
    intros Hp.
    rewrite (dispatch_bundle_only C f ctx ph data ui k _ tr0 E0
               (produced_nil_no_match _ _ _ _ _ (plain_handlers_spec C) Hp))
      in E.
    discriminate E.
Qed.

Lemma file_read_pem_named bp ui pn ph data rest t :
  file_read_pem C bp ui = (Done (Some (pn, ph, data), rest), t) ->
  pn <> None.
Proof.
  unfold file_read_pem.
  destruct bp as [|[nm hd d| |] s]; try discriminate;
    rewrite bind_emit; try discriminate.
  destruct (10 <? String.length hd)%nat.
  - destruct (PEM_get_EVP_CIPHER_INFO C hd) as [ci|]; [|discriminate].
    destruct (PEM_do_header_Done ci d ui) as (r & t' & -> & _).
    destruct r; cbn; intros H; inversion H; discriminate.
  - intros H; inversion H; discriminate.
Qed.

Lemma file_read_asn1_Some bp pn ph data rest t :
  file_read_asn1 C bp = (Done (Some (pn, ph, data), rest), t) ->
  pn = None /\ ph = None /\ bp = DER_record data :: rest.
Proof.
  unfold file_read_asn1.
  destruct bp as [|[nm hd d|d|] s]; try discriminate;
    rewrite bind_emit; try discriminate.
  intros H; inversion H; subst. auto.
Qed.

Lemma file_load_body_null_call
      f ui res (ctx : OSSL_STORE_LOADER_CTX C) mc tr :
  sticky_none ctx ->
  file_load_body (S f) ui (res, ctx, mc) = (NullCall, tr) ->
  is_pem ctx = false
  /\ exists data rest,
      file ctx = DER_record data :: rest
      /\ produced (plain_handlers C) None None data ui <> []
      /\ exists l tr0, PKCS12_initial C None data ui = (Done (Some l), tr0).
Proof.
  intros Hs E. unfold file_load_body in E.
  destruct (read_cases ctx ui) as (b & rest & tr0 & Er & _).
  rewrite (bind_Done C _ _ _ _ Er) in E. cbn [fst snd] in E.
  destruct b as [[[pn ph] data]|].
  - destruct (file_load_try_decode (S f) (Some (set_file ctx rest))
                                   pn ph data ui) as [[p| | |] t] eqn:Ed.
    + destruct p as [[r o] m]. discriminate E.
    + apply dispatch_null_call in Ed. destruct Ed as (-> & Hp & Hl).
      destruct (is_pem ctx).
      * exfalso. exact (file_read_pem_named _ _ _ _ _ _ _ Er eq_refl).
      * apply file_read_asn1_Some in Er. destruct Er as (_ & -> & Hf).
        split; [reflexivity|]. exists data, rest. auto.
    + discriminate E.
    + discriminate E.
  - rewrite (file_eof_sticky_none C (set_file ctx rest) Hs) in E.
    discriminate E.
Qed.

Lemma file_load_body_is_pem
      f ui res (ctx : OSSL_STORE_LOADER_CTX C) mc res' ctx' mc' tr :
  file_load_body (S f) ui (res, ctx, mc) = (Done (res', ctx', mc'), tr) ->
  sticky_none ctx ->
  is_pem ctx' = is_pem ctx.
Proof.
  intros E Hs. unfold file_load_body in E.
  destruct (read_cases ctx ui) as (b & rest & tr0 & Er & _).
  rewrite (bind_Done C _ _ _ _ Er) in E. cbn [fst snd] in E.
  destruct b as [[[pn ph] data]|].
  - destruct (dispatch_registry_cases f (set_file ctx rest) pn ph data ui)
      as [(t & Ed & _)|[(k & c & ch & t & _ & _ & Ed & _)|[t Ed]]];
      rewrite Ed in E; cbn in E; inversion E; reflexivity.
  - rewrite (file_eof_sticky_none C (set_file ctx rest) Hs) in E.
    cbn in E. inversion E. destruct (BIO_eof rest); reflexivity.
Qed.

Lemma file_load_loop_null_call iters :
  forall f ui res (ctx : OSSL_STORE_LOADER_CTX C) mc tr,
    sticky_none ctx ->
    file_load_loop iters (S f) ui (res, ctx, mc) = (NullCall, tr) ->
    is_pem ctx = false
    /\ exists junk data rest,
        file ctx = junk ++ DER_record data :: rest
        /\ produced (plain_handlers C) None None data ui <> []
        /\ exists l tr0,
            PKCS12_initial C None data ui = (Done (Some l), tr0).
Proof.
  induction iters as [|iters IH]; intros f ui res ctx mc tr Hs E;
    [discriminate E|].
  cbn [file_load_loop] in E.
  destruct (file_load_body_step f ui res ctx mc Hs)
    as [[t Eb]|(res' & ctx' & mc' & t & Eb & Hst & Hfile & _)].
  - destruct (file_load_body_null_call f ui res ctx mc t Hs Eb)
      as (Hpem & data & rest & Hf & Hp & Hl).
    split; [exact Hpem|]. exists [], data, rest. auto.
  - rewrite (bind_Done C _ _ _ _ Eb) in E. cbn [fst snd] in E.
    destruct (file_load_again_cases res' ctx' mc' Hst) as (again & Ea & Ha).
    rewrite (bind_Done C _ _ _ _ Ea) in E. cbn [fst snd] in E.
    destruct again; [|discriminate E].
    destruct (Ha eq_refl) as (Hmc & Hne & _).
    destruct Hst as [Hs'|[Hmc' _]]; [|lia].
    destruct (file_load_loop iters (S f) ui (res', ctx', mc'))
      as [[s| | |] t'] eqn:El; try discriminate E.
    destruct (IH f ui res' ctx' mc' t' Hs' El)
      as (Hpem & junk & data & rest & Hf & Hp & Hl).
    split; [rewrite <- (file_load_body_is_pem _ _ _ _ _ _ _ _ _ Eb Hs);
            exact Hpem|].
    destruct Hfile as [[_ H0]|[r Hr]]; [congruence|].
    exists (r :: junk), data, rest. rewrite Hr, Hf. auto.
Qed.

(** X23: the only way [file_load] comes to call through a null function
    pointer: the stream is raw, and one of its objects decodes both as a
    bundle, the pass phrase accepted, and as something else.  So a PEM
    stream, and a raw stream without such an object, are loaded without
    it. *)
Theorem null_call_needs_bundle_ambiguity
        (fuel : nat) (ctx : OSSL_STORE_LOADER_CTX C) (ui : UI_METHOD) tr :
  sticky_inv ctx ->
  file_load fuel ctx ui = (NullCall, tr) ->
  is_pem ctx = false
  /\ exists junk data rest,
      file ctx = junk ++ DER_record data :: rest
      /\ produced (plain_handlers C) None None data ui <> []
      /\ exists l tr0,
          PKCS12_initial C None data ui = (Done (Some l), tr0).
Proof.
  intros Hinv E. unfold file_load in E.
  assert (Hread : forall (c : OSSL_STORE_LOADER_CTX C) t,
             sticky_none c ->
             file_load_read fuel c ui = (NullCall, t) ->
             is_pem c = false
             /\ exists junk data rest,
                 file c = junk ++ DER_record data :: rest
                 /\ produced (plain_handlers C) None None data ui <> []
                 /\ exists l tr0,
                     PKCS12_initial C None data ui = (Done (Some l), tr0)).
  { intros c t Hs Ec. unfold file_load_read in Ec.
    destruct (file_error c); [discriminate Ec|].
    destruct fuel as [|f]; [discriminate Ec|].
    destruct (file_load_loop (S f) (S f) ui (None, c, (-1)%Z))
      as [[s| | |] t'] eqn:El.
    - destruct s as [[r c2] m]. cbn in Ec.
      destruct (1 <? m)%Z; discriminate Ec.
    - exact (file_load_loop_null_call _ _ _ _ _ _ _ Hs El).
    - discriminate Ec.
    - discriminate Ec. }
  destruct (file_load_try_repeat_cases C ctx ui Hinv)
    as [[Hn Er]|[(i & l & _ & _ & Er)|(_ & _ & Er)]];
    rewrite (bind_Done C _ _ _ _ Er) in E; cbn [fst snd] in E.
  - destruct (file_load_read fuel ctx ui) as [o t] eqn:El.
    cbn in E. inversion E; subst. exact (Hread ctx _ Hn El).
  - discriminate E.
  - destruct (file_load_read fuel (set_sticky ctx None None) ui)
      as [o t] eqn:El.
    cbn in E. inversion E; subst.
    exact (Hread (set_sticky ctx None None) _ (conj eq_refl eq_refl)
                 El).
Qed.

(** ** Asking for a pass phrase *)

(** X24: the pass phrase callback handed to the PEM reader.
    [file_get_pem_pass] prompts once, for at most [num - 1] characters, and
    returns the length of what was entered.  It returns 0 exactly when the
    dialogue failed or the pass phrase entered is empty; of the two only the
    failed dialogue records an error, and it records exactly one. *)
Theorem pem_pass_zero_iff_none_entered
        (ui : UI_METHOD) (num : Z) (info : string) :
  exists klen pass tr,
    file_get_pem_pass C ui num info
    = (Done (klen, pass), EvPrompt info :: tr)
    /\ klen = Z.of_nat (String.length pass)
    /\ match ui info (num - 1)%Z with
       | UI_entered p => pass = p /\ tr = []
       | UI_cancelled =>
           pass = "" /\ tr = [EvErr R_UI_PROCESS_INTERRUPTED_OR_CANCELLED]
       | UI_error => pass = "" /\ tr = [EvErr R_UI_LIB]
       end
    /\ (klen = 0%Z
        <-> forall p, ui info (num - 1)%Z = UI_entered p -> p = "").
Proof.
  unfold file_get_pem_pass, file_get_pass. rewrite bind_emit.
  destruct (ui info (num - 1)%Z) as [p| |] eqn:Eu; cbn.
  - exists (Z.of_nat (String.length p)), p, [].
    split; [reflexivity|]. split; [reflexivity|]. split; [auto|].
    split.
    + intros H q Hq. inversion Hq; subst q.
      destruct p; [reflexivity|cbn in H; lia].
    + intros H. rewrite (H p eq_refl). reflexivity.
  - eexists 0%Z, "", _.
    split; [reflexivity|]. split; [reflexivity|]. split; [auto|].
    split; [discriminate|reflexivity].
  - eexists 0%Z, "", _.
    split; [reflexivity|]. split; [reflexivity|]. split; [auto|].
    split; [discriminate|reflexivity].
Qed.

End Coverage.

(** * Properties of the test utilities *)

Section TestUtilsProperties.

Import TestUtils.

Lemma fold_add_flags (p : string -> bool) (l : list string) (acc : Z) :
  (0 <= acc)%Z ->
  (0 <? fold_left Z.add (map (fun f => if p f then 1%Z else 0%Z) l) acc)%Z
  = orb (0 <? acc)%Z (existsb p l).
Proof.
  revert acc. induction l as [|f l IH]; intros acc Hacc; cbn.
  - rewrite orb_false_r. reflexivity.
  - rewrite IH by (destruct (p f); lia).
    destruct (p f); cbn.
    + replace (0 <? acc + 1)%Z with true by (symmetry; apply Z.ltb_lt; lia).
      rewrite orb_true_r. reflexivity.
    + rewrite Z.add_0_r. reflexivity.
Qed.

Lemma fold_mul_flags (p : string -> bool) (l : list string) (acc : Z) :
  (0 <= acc)%Z ->
  (0 <? fold_left Z.mul (map (fun f => if p f then 1%Z else 0%Z) l) acc)%Z
  = andb (0 <? acc)%Z (forallb p l).
Proof.
  revert acc. induction l as [|f l IH]; intros acc Hacc; cbn.
  - rewrite andb_true_r. reflexivity.
  - rewrite IH by (destruct (p f); lia).
    destruct (p f); cbn.
    + rewrite Z.mul_1_r. reflexivity.
    + rewrite Z.mul_0_r. cbn. rewrite andb_false_r. reflexivity.
Qed.

(** X20: in scalar context [anydisabled] answers whether some feature of the
    list is disabled and [alldisabled] whether every one is, in the tables
    as they are after the load; so with no feature at all [alldisabled] is
    true and [anydisabled] false. *)
Theorem disabled_scalar_answers
        (pm : option configdata) (st : state) (features : list string) :
  fst (anydisabled pm st features)
  = existsb (is_disabled (load_unless_loaded pm st)) features
  /\ fst (alldisabled pm st features)
     = forallb (is_disabled (load_unless_loaded pm st)) features
  /\ fst (anydisabled pm st []) = false
  /\ fst (alldisabled pm st []) = true.
Proof.
  unfold anydisabled, alldisabled, anyof, allof, check_disabled. cbn [fst].
  repeat split.
  - rewrite (fold_add_flags (is_disabled (load_unless_loaded pm st)))
      by lia. reflexivity.
  - rewrite (fold_mul_flags (is_disabled (load_unless_loaded pm st)))
      by lia. reflexivity.
Qed.

Lemma tolower_idem (c : ascii) : CStr.tolower (CStr.tolower c) = CStr.tolower c.
Proof.
  destruct c as [[] [] [] [] [] [] [] []]; reflexivity.
Qed.

Lemma lower_idem (s : string) : CStr.lower (CStr.lower s) = CStr.lower s.
Proof.
  induction s as [|c s IH]; [reflexivity|].
  cbn. rewrite tolower_idem, IH. reflexivity.
Qed.

(** X21: feature names are compared in lower case: two names that differ only
    in case get the same answer, and an entry of the table whose key is
    not in lower case is never found. *)
Theorem disabled_ignores_case
        (st : state) (f g k v : string) :
  (CStr.lower f = CStr.lower g ->
   check_disabled st [f] = check_disabled st [g])
  /\ (k <> CStr.lower k ->
      check_disabled
        {| available_protocols_ := available_protocols_ st;
           disabled_ := (k, v) :: disabled_ st;
           config_ := config_ st;
           configdata_loaded := configdata_loaded st |} [f]
      = check_disabled st [f]).
Proof.
  unfold check_disabled. cbn. split.
  - intros ->. reflexivity.
  - intros Hk.
    destruct (String.eqb_spec k (CStr.lower f)) as [E|_]; [|reflexivity].
    exfalso. apply Hk. rewrite E, lower_idem. reflexivity.
Qed.

(** X22: the configuration is loaded once: the first call of [anydisabled] or
    [alldisabled] sets the flag whether or not configdata.pm could be
    loaded, and no later call looks at the file again; after a load that
    failed every feature is reported as enabled for good. *)
Theorem configdata_loaded_once
        (pm pm' : option configdata) (st : state)
        (features features' : list string) :
  let st1 := snd (anydisabled pm st features) in
  configdata_loaded st1 = true
  /\ snd (alldisabled pm st features) = st1
  /\ snd (anydisabled pm' st1 features') = st1
  /\ snd (alldisabled pm' st1 features') = st1
  /\ fst (anydisabled pm' st1 features') = fst (anydisabled pm st1 features')
  /\ (pm = None ->
      fst (anydisabled pm' (snd (anydisabled pm init features)) features')
      = false).
Proof.
  cbv zeta. unfold anydisabled, alldisabled, load_unless_loaded. cbn [fst snd].
  destruct (configdata_loaded st) eqn:El.
  - rewrite El. repeat split.
    intros ->. cbn.
    unfold anyof, check_disabled.
    rewrite (fold_add_flags (fun _ => false)) by lia.
    cbn. induction features'; [reflexivity|assumption].
  - destruct pm as [cd|]; cbn; repeat split; try discriminate.
    intros _. unfold anyof, check_disabled. cbn.
    rewrite (fold_add_flags (fun _ => false)) by lia.
    cbn. induction features'; [reflexivity|assumption].
Qed.

End TestUtilsProperties.
(** * The properties on the small instance *)

Section Instances.

Import Byte.

(** Under the trusted marker a blob that is a plain certificate only is
    not matched. *)
Lemma X509Certificate_trusted_first_witness :
  d2i_X509 Demo.codecs [x43] = Some 8
  /\ @try_decode_X509Certificate Demo.codecs
       (Some PEM_STRING_X509_TRUSTED) None [x43] None Demo.ui_cancel
     = (Done (None, None), []).
Proof.
  split; [reflexivity|].
  apply (proj2 (proj2 (X509Certificate_trusted_first Demo.codecs
                         (Some PEM_STRING_X509_TRUSTED) None [x43] None
                         Demo.ui_cancel))); reflexivity.
Defined.

(** A bundle protected by [secret]: the three MAC checks, in order. *)
Lemma PKCS12_match_and_mac_order_witness :
  snd (@try_decode_PKCS12 Demo.codecs None None [x51] None Demo.ui_secret)
  = [EvVerifyMac (Some ""); EvVerifyMac None;
     EvPrompt "PKCS12 import password"; EvVerifyMac (Some "secret")].
Proof.
  exact (proj2 (PKCS12_match_and_mac_order Demo.codecs None None [x51]
                  Demo.ui_secret) 1 eq_refl eq_refl).
Defined.

(** [file://evil-host/path] and [file:relative] are rejected unopened. *)
Lemma file_open_rejects_before_io_witness :
  file_open Demo.codecs false Demo.fs "file://evil-host/path"
  = (Done None, [EvErr R_URI_AUTHORITY_UNSUPPORTED])
  /\ file_open Demo.codecs false Demo.fs "file:relative"
     = (Done None, [EvErr R_PATH_MUST_BE_ABSOLUTE]).
Proof.
  split.
  - apply (proj1 (file_open_rejects_before_io Demo.codecs false Demo.fs
                    "file://evil-host/path" eq_refl)
             "evil-host" "/path").
    + reflexivity.
    + discriminate.
    + discriminate.
    + reflexivity.
    + right. exists "path". reflexivity.
  - apply (proj2 (file_open_rejects_before_io Demo.codecs false Demo.fs
                    "file:relative" eq_refl) "relative").
    + reflexivity.
    + discriminate.
Defined.

(** In the middle of a bundle the loader is not at its end, though the
    stream is. *)
Lemma file_eof_at_end_witness :
  BIO_eof (file (Demo.bundle_loader [] [Demo.cert 2])) = true
  /\ file_eof (Demo.bundle_loader [] [Demo.cert 2]) = (Done false, []).
Proof.
  split; [reflexivity|].
  apply (proj2 (file_eof_at_end Demo.codecs
                  (Demo.bundle_loader [] [Demo.cert 2])
                  ltac:(intros h H; inversion H; discriminate))
           (Demo.cert 2) []); reflexivity.
Defined.

(** The sticky handler is served before the error counter is looked at. *)
Lemma file_load_sticky_first_witness :
  file_load 0 (incr_errcnt (Demo.bundle_loader [Garbage] [Demo.cert 2]))
            Demo.ui_cancel
  = (Done (Some (Demo.cert 2),
           incr_errcnt (Demo.bundle_loader [Garbage] [])), []).
Proof.
  apply (proj1 (file_load_sticky_first Demo.codecs 0
                  (incr_errcnt (Demo.bundle_loader [Garbage] [Demo.cert 2]))
                  Demo.ui_cancel)
           (PKCS12_handler Demo.codecs) (Demo.cert 2) (Some []) []);
    reflexivity.
Defined.

(** Opening the bundle file leaves the sticky pair empty, and closing a
    loader in the middle of a bundle destroys the stack first. *)
Lemma sticky_pair_invariant_witness :
  (last_handler (Demo.raw_loader [DER_record [x50]]) = None
   /\ last_handler_ctx (Demo.raw_loader [DER_record [x50]]) = None)
  /\ file_close (Demo.bundle_loader [] [Demo.cert 2])
     = (Done 1%Z, [EvStackPopFree [Demo.cert 2]; EvBIOFree; EvCtxFree]).
Proof.
  split.
  - apply (proj1 (sticky_pair_invariant Demo.codecs)
             false Demo.fs "/bundle.p12"
             (Demo.raw_loader [DER_record [x50]])
             [EvFileOpen "/bundle.p12"]).
    reflexivity.
  - apply (proj2 (proj1 (proj2 (proj2 (sticky_pair_invariant Demo.codecs)))
                    (Demo.bundle_loader [] [Demo.cert 2])
                    ltac:(right; split;
                          [reflexivity|eexists; reflexivity]))).
Defined.

(** A loader whose previous bundle is exhausted meets a new bundle: the
    old stack is destroyed, then the blob is read and the handler
    adopted. *)
Lemma repeatable_match_adopted_witness :
  file_load 1 (Demo.bundle_loader [DER_record [x50]] []) Demo.ui_cancel
  = (Done (Some (Demo.key 1),
           Demo.bundle_loader [] [Demo.cert 2; Demo.cert 3; Demo.cert 4]),
     teardown_events (Demo.bundle_loader [DER_record [x50]] [])
       ++ EvRead (DER_record [x50])
       :: [EvVerifyMac (Some "")]
       ++ not_a (plain_handlers Demo.codecs) ++ [EvErrClear]).
Proof.
  apply (repeatable_match_adopted Demo.codecs 0
           (Demo.bundle_loader [DER_record [x50]] []) Demo.ui_cancel
           [x50] [] 1 [Demo.cert 2; Demo.cert 3; Demo.cert 4]
           [EvVerifyMac (Some "")]).
  - right. split; [reflexivity|eexists; reflexivity].
  - right. reflexivity.
  - repeat split.
  - reflexivity.
  - repeat constructor.
Defined.

(** The bundle of the small instance whose MAC asks for the pass phrase
    of the user: four loads, four objects. *)
Lemma bundle_yields_key_then_chain_witness :
  file_load_n 1 4 (Demo.raw_loader [DER_record [x51]]) Demo.ui_secret
  = (Done ([Some (Demo.key 1); Some (Demo.cert 2); Some (Demo.cert 3);
            Some (Demo.cert 4)],
           Demo.bundle_loader [] []),
     EvRead (DER_record [x51])
       :: [EvVerifyMac (Some ""); EvVerifyMac None;
           EvPrompt "PKCS12 import password"; EvVerifyMac (Some "secret")]
       ++ not_a (plain_handlers Demo.codecs) ++ [EvErrClear]).
Proof.
  apply (proj1 (bundle_yields_key_then_chain Demo.codecs 0
                  (Demo.raw_loader [DER_record [x51]]) Demo.ui_secret
                  [x51] [] 1 "secret" 1 2 [3; 4]
                  ltac:(split; reflexivity) ltac:(repeat split)
                  eq_refl ltac:(split; reflexivity) eq_refl
                  ltac:(repeat constructor))).
Defined.

(** A wrapped blob is dispatched again with what it wraps. *)
Lemma unwrap_loop_redispatches_witness :
  file_load_try_decode_with [Demo.wrap_handler] 2 None None None
                            [x57; x00] Demo.ui_cancel
  = (fst (file_load_try_decode_with [Demo.wrap_handler] 1 None None None
                                    [x00] Demo.ui_cancel),
     [] ++ snd (file_load_try_decode_with [Demo.wrap_handler] 1 None None
                                          None [x00] Demo.ui_cancel)).
Proof.
  apply (proj1 (unwrap_loop_redispatches Demo.codecs)
           [Demo.wrap_handler] 1 None None None [x57; x00] Demo.ui_cancel
           None [x00] None 1%Z []).
  reflexivity.
Defined.

(** C2, as it is stated, fails: a handler that echoes its input has the
    pass yield the very blob it was given, and the engine dispatches it
    again, pass after pass, without an error. *)
Lemma echo_unwrap_never_ends :
  dispatch_pass [Demo.echo_handler] None None None [x00] Demo.ui_cancel
  = (Done (Some (@INFO_EMBEDDED Demo.codecs None [x00]), None, 1%Z), [])
  /\ forall fuel,
      file_load_try_decode_with [Demo.echo_handler] fuel None None None
                                [x00] Demo.ui_cancel
      = (OutOfFuel, []).
Proof.
  assert (H : dispatch_pass [Demo.echo_handler] None None None [x00]
                 Demo.ui_cancel
               = (Done (Some (@INFO_EMBEDDED Demo.codecs None [x00]), None,
                        1%Z), [])) by reflexivity.
  split; [exact H|].
  induction fuel as [|fuel IH]; [reflexivity|].
  rewrite file_load_try_decode_S.
  rewrite (bind_Done Demo.codecs _ _ _ _ H).
  cbn [fst snd]. rewrite IH. reflexivity.
Qed.

(** A blob that is a bundle and a certificate at once. *)
Lemma ambiguity_with_bundle_null_call_witness :
  exists hs1,
    file_load 1 (Demo.raw_loader [DER_record [x42]]) Demo.ui_cancel
    = (NullCall,
       EvRead (DER_record [x42]) :: [EvVerifyMac (Some "")] ++ not_a hs1).
Proof.
  apply (ambiguity_with_bundle_null_call Demo.codecs 0
           (Demo.raw_loader [DER_record [x42]]) Demo.ui_cancel
           [x42] [] (Demo.key 1) [Demo.cert 2; Demo.cert 3; Demo.cert 4]
           [EvVerifyMac (Some "")]
           (X509Certificate_handler Demo.codecs) (Demo.cert 8)).
  - split; reflexivity.
  - repeat split.
  - reflexivity.
  - left. reflexivity.
  - reflexivity.
Defined.

(** A blob that is a certificate and a revocation list at once: both
    objects are freed and the next record is left unread. *)
Lemma ambiguity_without_bundle_instance :
  exists tr,
    file_load 1 (Demo.raw_loader [DER_record [x41]; DER_record [x43]])
              Demo.ui_cancel
    = (Done (None, Demo.raw_loader [DER_record [x43]]),
       [EvRead (DER_record [x41])] ++ [] ++ tr)
    /\ In (EvErr R_AMBIGUOUS_CONTENT_TYPE) tr
    /\ In (EvInfoFree (Demo.cert 8)) tr
    /\ In (EvInfoFree (Demo.crl 9)) tr.
Proof.
  destruct (ambiguity_without_bundle Demo.codecs 0
              (Demo.raw_loader [DER_record [x41]; DER_record [x43]])
              Demo.ui_cancel None None [x41] [DER_record [x43]]
              [EvRead (DER_record [x41])] []
              ltac:(split; reflexivity) eq_refl eq_refl eq_refl
              ltac:(cbn; lia))
    as (tr & E & Hamb & Hfree & _).
  exists tr. split; [exact E|]. split; [exact Hamb|].
  split; apply Hfree; cbn; auto.
Qed.

End Instances.

(** * The further properties on the small instance *)

Section MoreInstances.

Import Byte.

Lemma opened_reachable : reachable Sample.opened.
Proof.
  apply (@reach_open Demo.codecs false Demo.fs "/bundle.p12" Sample.opened
                     [EvFileOpen "/bundle.p12"]).
  reflexivity.
Defined.

Lemma errored_reachable : reachable Sample.errored.
Proof.
  apply (@reach_load Demo.codecs 2 Sample.errored Demo.ui_cancel
                     None Sample.errored []); [|reflexivity].
  apply (@reach_load Demo.codecs 2
                     (Demo.raw_loader Sample.garbage_then_cert)
                     Demo.ui_cancel None Sample.errored [EvRead Garbage]);
    [|reflexivity].
  apply (@reach_open Demo.codecs false Sample.fs "/broken.der"
                     (Demo.raw_loader Sample.garbage_then_cert)
                     [EvFileOpen "/broken.der"]).
  reflexivity.
Defined.

Lemma file_load_terminates_witness :
  fst (file_load 4 (Demo.raw_loader Sample.junk_cert_crl) Demo.ui_cancel)
  <> OutOfFuel.
Proof.
  apply (file_load_terminates Demo.codecs 4
           (Demo.raw_loader Sample.junk_cert_crl) Demo.ui_cancel).
  - left. split; reflexivity.
  - cbn. lia.
Defined.

Lemma file_load_never_embedded_witness :
  fst (file_load 1 Sample.opened Demo.ui_cancel)
  = Done (Some (Demo.key 1),
          Demo.bundle_loader [] [Demo.cert 2; Demo.cert 3; Demo.cert 4])
  /\ is_EMBEDDED (Demo.key 1) = false.
Proof.
  split; [reflexivity|].
  apply (file_load_never_embedded Demo.codecs 1 Sample.opened Demo.ui_cancel
           (Demo.key 1)
           (Demo.bundle_loader [] [Demo.cert 2; Demo.cert 3; Demo.cert 4])
           (snd (file_load 1 Sample.opened Demo.ui_cancel))
           opened_reachable).
  reflexivity.
Defined.

Lemma file_error_is_sticky_witness :
  ((errcnt (Demo.raw_loader Sample.garbage_then_cert)
    <= errcnt Sample.errored)%Z
   /\ file_error Sample.errored = true)
  /\ file_load 2 Sample.errored Demo.ui_cancel
     = (Done (None, Sample.errored), [])
  /\ (errcnt Sample.errored <= errcnt Sample.errored)%Z
  /\ (file_error Sample.errored = true ->
      file_error Sample.errored = true).
Proof.
  split; [split; [|reflexivity]|split; [reflexivity|]].
  - apply (proj1 (file_error_is_sticky Demo.codecs 2
                    (Demo.raw_loader Sample.garbage_then_cert)
                    Demo.ui_cancel None Sample.errored [EvRead Garbage]
                    (or_introl (conj eq_refl eq_refl)) eq_refl)).
  - apply (file_error_is_sticky Demo.codecs 2 Sample.errored Demo.ui_cancel
             None Sample.errored []).
    + left. split; reflexivity.
    + reflexivity.
Defined.

Lemma file_load_consumes_what_it_reads_witness :
  file (Demo.raw_loader Sample.garbage_then_cert)
  = reads [@EvRead Demo.codecs Garbage]
      ++ file (incr_errcnt (Demo.raw_loader [DER_record [x43]])).
Proof.
  apply (file_load_consumes_what_it_reads Demo.codecs 1
           (Demo.raw_loader Sample.garbage_then_cert) Demo.ui_cancel
           None (incr_errcnt (Demo.raw_loader [DER_record [x43]]))
           [EvRead Garbage]).
  - left. split; reflexivity.
  - reflexivity.
Defined.

Lemma errcnt_at_most_one_witness :
  file_error Sample.errored = true
  /\ (errcnt Sample.errored = 0%Z \/ errcnt Sample.errored = 1%Z).
Proof.
  split; [reflexivity|].
  apply (errcnt_at_most_one Demo.codecs Sample.errored errored_reachable).
Defined.

Lemma failed_read_is_error_unless_at_end_witness :
  file_load 1 (Demo.raw_loader Sample.garbage_then_cert) Demo.ui_cancel
  = (Done (None, incr_errcnt (Demo.raw_loader [DER_record [x43]])),
     [EvRead Garbage])
  /\ forall f',
      file_load f' (incr_errcnt (Demo.raw_loader [DER_record [x43]]))
                Demo.ui_cancel
      = (Done (None, incr_errcnt (Demo.raw_loader [DER_record [x43]])), []).
Proof.
  apply (failed_read_is_error_unless_at_end Demo.codecs 0
           (Demo.raw_loader Sample.garbage_then_cert) Demo.ui_cancel
           [DER_record [x43]] [EvRead Garbage]).
  - split; reflexivity.
  - reflexivity.
  - reflexivity.
Defined.

Lemma file_load_skips_unsupported_witness :
  exists tr,
    file_load 2 (Demo.raw_loader Sample.junk_cert_crl) Demo.ui_cancel
    = (Done (Some (Demo.cert 8), Demo.raw_loader [DER_record [x52]]), tr)
    /\ reads tr = [DER_record [x00]] ++ [DER_record [x43]].
Proof.
  apply (file_load_skips_unsupported Demo.codecs 2
           (Demo.raw_loader Sample.junk_cert_crl) Demo.ui_cancel
           [DER_record [x00]] (DER_record [x43]) (None, None, [x43])
           (Demo.cert 8) [DER_record [x52]]).
  - split; reflexivity.
  - reflexivity.
  - reflexivity.
  - constructor; [|constructor].
    exists (None, None, [x00]). split; [reflexivity|].
    split; [exists []; reflexivity|reflexivity].
  - reflexivity.
  - exists []. reflexivity.
  - reflexivity.
  - cbn. lia.
Defined.

Lemma single_object_stream_witness :
  exists tr,
    file_load_n 1 2 (Demo.raw_loader [DER_record [x43]]) Demo.ui_cancel
    = (Done ([Some (Demo.cert 8); None], Demo.raw_loader []), tr)
    /\ reads tr = [DER_record [x43]]
    /\ file_eof (Demo.raw_loader []) = (Done true, [])
    /\ file_error (Demo.raw_loader []) = false.
Proof.
  apply (single_object_stream Demo.codecs 0
           (Demo.raw_loader [DER_record [x43]]) Demo.ui_cancel
           (DER_record [x43]) (None, None, [x43]) (Demo.cert 8)).
  - split; reflexivity.
  - reflexivity.
  - reflexivity.
  - reflexivity.
  - exists []. reflexivity.
  - reflexivity.
Defined.

Lemma at_end_load_returns_nothing_witness :
  file_load 1 (Demo.bundle_loader [] []) Demo.ui_cancel
  = (Done (None, Demo.raw_loader []), [EvStackPopFree []]).
Proof.
  apply (at_end_load_returns_nothing Demo.codecs 0 (Demo.bundle_loader [] [])
           Demo.ui_cancel).
  - right. split; [reflexivity|]. exists []. reflexivity.
  - reflexivity.
Defined.

Lemma ambiguous_blob_is_discarded_witness :
  exists tr,
    file_load 1 (Demo.raw_loader [DER_record [x41]; DER_record [x43]])
              Demo.ui_cancel
    = (Done (None, Demo.raw_loader [DER_record [x43]]),
       [EvRead (DER_record [x41])] ++ [] ++ tr)
    /\ In (EvErr R_AMBIGUOUS_CONTENT_TYPE) tr
    /\ (forall j,
           In j (produced (plain_handlers Demo.codecs) None None [x41]
                          Demo.ui_cancel) ->
           In (EvInfoFree j) tr)
    /\ (forall r, ~ In (EvRead r) tr).
Proof.
  apply (ambiguous_blob_is_discarded Demo.codecs 0
           (Demo.raw_loader [DER_record [x41]; DER_record [x43]])
           Demo.ui_cancel None None [x41] [DER_record [x43]]
           [EvRead (DER_record [x41])] []).
  - split; reflexivity.
  - reflexivity.
  - reflexivity.
  - reflexivity.
  - cbn. lia.
Defined.

Lemma plain_handlers_are_pure_witness :
  destroy_ctx (X509CRL_handler Demo.codecs) = None
  /\ repeatable (X509CRL_handler Demo.codecs) = false
  /\ exists r,
      try_decode (X509CRL_handler Demo.codecs) None None [x52] None
                 Demo.ui_cancel = (Done (r, None), [])
      /\ forall i, r = Some i -> is_EMBEDDED i = false.
Proof.
  apply (plain_handlers_are_pure Demo.codecs (X509CRL_handler Demo.codecs)
           None None [x52] Demo.ui_cancel).
  - right. right. left. reflexivity.
  - intros H. apply (f_equal (@repeatable Demo.codecs)) in H.
    discriminate H.
Defined.

Lemma bundle_objects_returned_or_freed_witness :
  exists ctx',
    file_load_n 0 1 (Demo.bundle_loader [Garbage] [Demo.cert 2; Demo.cert 3])
                Demo.ui_cancel
    = (Done (map Some (firstn 1 [Demo.cert 2; Demo.cert 3]), ctx'), [])
    /\ file ctx' = file (Demo.bundle_loader [Garbage]
                                           [Demo.cert 2; Demo.cert 3])
    /\ file_close ctx'
       = (Done 1%Z, [EvStackPopFree (skipn 1 [Demo.cert 2; Demo.cert 3]);
                     EvBIOFree; EvCtxFree])
    /\ firstn 1 [Demo.cert 2; Demo.cert 3]
         ++ skipn 1 [Demo.cert 2; Demo.cert 3]
       = [Demo.cert 2; Demo.cert 3].
Proof.
  apply (bundle_objects_returned_or_freed Demo.codecs 0 1
           (Demo.bundle_loader [Garbage] [Demo.cert 2; Demo.cert 3])
           Demo.ui_cancel [Demo.cert 2; Demo.cert 3]).
  - reflexivity.
  - reflexivity.
  - cbn. lia.
Defined.

Lemma PrivateKey_method_choice_witness :
  @try_decode_PrivateKey Demo.codecs None None [x4b] None Demo.ui_cancel
  = (Done (Some (Demo.key 11), None), []).
Proof.
  apply (proj1 (proj2 (PrivateKey_method_choice Demo.codecs None [x4b] None
                         Demo.ui_cancel)) 11).
  exists [], Demo.meth, []. repeat split. constructor.
Defined.

Lemma params_method_choice_witness :
  @try_decode_params Demo.codecs None None [x44] None Demo.ui_cancel
  = (Done (Some (@INFO_PARAMS Demo.codecs 5), None), []).
Proof.
  apply (proj1 (proj2 (params_method_choice Demo.codecs None [x44] None
                         Demo.ui_cancel)) 5).
  exists [], Demo.meth, []. repeat split. constructor.
Defined.

Lemma pem_name_selects_one_handler_witness :
  exists tr,
    file_load_try_decode 1 (Some (Demo.raw_loader [])) (Some "X509 CRL")
                         None [x52] Demo.ui_cancel
    = (Done (Some (Demo.crl 9), Some (Demo.raw_loader []), 1%Z), tr).
Proof.
  apply (pem_name_selects_one_handler Demo.codecs 0 (Demo.raw_loader [])
           Demo.ui_cancel "X509 CRL" None [x52]).
  - cbn. lia.
  - cbn. lia.
Defined.

Lemma file_open_locator_forms_witness :
  file_open Demo.codecs true Demo.fs "FILE:///bundle.p12"
  = file_open Demo.codecs true Demo.fs "FILE://localhost/bundle.p12"
  /\ file_open Demo.codecs true Demo.fs "FILE://localhost/bundle.p12"
     = file_open_path Demo.codecs Demo.fs "/bundle.p12"
  /\ file_open Demo.codecs true Demo.fs "FILE://localhost/"
     = (OutOfBounds, []).
Proof.
  split; [|split].
  - apply (proj1 (file_open_locator_forms Demo.codecs true Demo.fs
                    "FILE:" "bundle.p12" eq_refl eq_refl)).
  - apply (proj1 (proj2 (proj2 (proj2 (file_open_locator_forms
                                         Demo.codecs true Demo.fs
                                         "FILE:" "bundle.p12"
                                         eq_refl eq_refl))))).
    discriminate.
  - apply (proj1 (proj2 (proj2 (proj2 (proj2 (file_open_locator_forms
                                                Demo.codecs true Demo.fs
                                                "FILE:" ""
                                                eq_refl eq_refl))))));
      reflexivity.
Defined.

Lemma file_open_win32_drive_letter_witness :
  file_open Demo.codecs true Demo.fs "file:///C:/x"
  = file_open_path Demo.codecs Demo.fs "C:/x".
Proof.
  apply (proj1 (file_open_win32_drive_letter Demo.codecs Demo.fs
                  "file:" "C" "x" eq_refl eq_refl)).
Defined.

Lemma dispatch_counts_matches_witness :
  exists tr1,
    file_load_try_decode 1 (Some (Demo.raw_loader [])) None None [x41]
                         Demo.ui_cancel
    = (Done (None, Some (Demo.raw_loader []), 2%Z),
       [] ++ [EvErr R_IS_NOT_A; EvErrData "PKCS12"] ++ tr1
          ++ [EvErr R_AMBIGUOUS_CONTENT_TYPE])
    /\ reads tr1 = [].
Proof.
  apply (dispatch_counts_matches Demo.codecs 0 (Demo.raw_loader [])
           Demo.ui_cancel None None [x41] []).
  reflexivity.
Defined.

Lemma disabled_ignores_case_witness :
  TestUtils.check_disabled
    {| TestUtils.available_protocols_ := [];
       TestUtils.disabled_ := [("DH", "option")];
       TestUtils.config_ := [];
       TestUtils.configdata_loaded := true |} ["dh"]
  = [0%Z].
Proof.
  apply (proj2 (disabled_ignores_case
                  {| TestUtils.available_protocols_ := [];
                     TestUtils.disabled_ := [];
                     TestUtils.config_ := [];
                     TestUtils.configdata_loaded := true |}
                  "dh" "dh" "DH" "option")).
  discriminate.
Defined.

Lemma configdata_loaded_once_witness :
  fst (TestUtils.anydisabled
         (Some TestUtils.sample)
         (snd (TestUtils.anydisabled None TestUtils.init ["dh"])) ["dh"])
  = false.
Proof.
  apply (proj2 (proj2 (proj2 (proj2 (proj2
           (configdata_loaded_once None (Some TestUtils.sample)
              TestUtils.init ["dh"] ["dh"])))))).
  reflexivity.
Defined.

Lemma file_open_result_witness :
  (exists r tr,
      file_open Demo.codecs true Sample.fs "file:///nul.pem" = (Done r, tr)
      /\ match r with
         | Some ctx =>
             exists path f,
             tr = [EvFileOpen path] /\ Sample.fs path = Some f
             /\ file ctx = stream f /\ errcnt ctx = 0%Z
             /\ sticky_none ctx
             /\ (is_pem ctx = true
                 <-> peek f <> EmptyString
                     /\ exists pre post,
                         CStr.cstr (peekbuf f)
                         = (pre ++ "-----BEGIN " ++ post)%string)
             /\ (forall pre post,
                    peek f = (pre ++ String zero post)%string ->
                    CStr.cstr pre = pre ->
                    (String.length pre < peekbuf_size - 1)%nat ->
                    is_pem ctx = CStr.strstr pre "-----BEGIN ")
             /\ (forall pre post,
                    peek f = (pre ++ "-----BEGIN " ++ post)%string ->
                    CStr.cstr pre = pre ->
                    (String.length pre + 11 <= peekbuf_size - 1)%nat ->
                    is_pem ctx = true)
         | None =>
             tr = [EvErr R_URI_AUTHORITY_UNSUPPORTED]
             \/ tr = [EvErr R_PATH_MUST_BE_ABSOLUTE]
             \/ exists path, tr = [EvFileOpen path] /\ Sample.fs path = None
         end)
  \/ (true = true
      /\ CStr.strncasecmp0 "file:///nul.pem" "file:" 5 = true
      /\ file_uri_path "file:///nul.pem" = Some "/"%string
      /\ file_open Demo.codecs true Sample.fs "file:///nul.pem"
         = (OutOfBounds, [])).
Proof.
  exact (file_open_result Demo.codecs true Sample.fs "file:///nul.pem").
Defined.

Lemma disabled_scalar_answers_witness :
  fst (TestUtils.alldisabled (Some TestUtils.sample) TestUtils.init
                             ["DH"; "ssl3"])
  = forallb (TestUtils.is_disabled
               (TestUtils.load_unless_loaded (Some TestUtils.sample)
                                             TestUtils.init))
            ["DH"; "ssl3"].
Proof.
  exact (proj1 (proj2 (disabled_scalar_answers (Some TestUtils.sample)
                         TestUtils.init ["DH"; "ssl3"]))).
Defined.

Lemma null_call_needs_bundle_ambiguity_witness :
  is_pem (Demo.raw_loader [DER_record [x42]]) = false
  /\ exists junk data rest,
      file (Demo.raw_loader [DER_record [x42]])
      = junk ++ DER_record data :: rest
      /\ produced (plain_handlers Demo.codecs) None None data Demo.ui_cancel
         <> []
      /\ exists l tr0,
          PKCS12_initial Demo.codecs None data Demo.ui_cancel
          = (Done (Some l), tr0).
Proof.
  apply (null_call_needs_bundle_ambiguity Demo.codecs 1
           (Demo.raw_loader [DER_record [x42]]) Demo.ui_cancel
           (snd (file_load 1 (Demo.raw_loader [DER_record [x42]])
                           Demo.ui_cancel))).
  - left. split; reflexivity.
  - vm_compute. reflexivity.
Defined.

Lemma pem_pass_zero_iff_none_entered_witness :
  exists klen pass tr,
    file_get_pem_pass Demo.codecs Demo.ui_cancel PEM_BUFSIZE "PEM"
    = (Done (klen, pass), EvPrompt "PEM" :: tr)
    /\ klen = Z.of_nat (String.length pass)
    /\ match Demo.ui_cancel "PEM" (PEM_BUFSIZE - 1)%Z with
       | UI_entered p => pass = p /\ tr = []
       | UI_cancelled =>
           pass = "" /\ tr = [EvErr R_UI_PROCESS_INTERRUPTED_OR_CANCELLED]
       | UI_error => pass = "" /\ tr = [EvErr R_UI_LIB]
       end
    /\ (klen = 0%Z
        <-> forall p,
            Demo.ui_cancel "PEM" (PEM_BUFSIZE - 1)%Z = UI_entered p ->
            p = "").
Proof.
  exact (pem_pass_zero_iff_none_entered Demo.codecs Demo.ui_cancel
           PEM_BUFSIZE "PEM").
Defined.

End MoreInstances.
